(** * whisper_tts: the voice assistant's orchestration glue (src/main.py)

    A shallow embedding of [main.py].  Every capability of the program is
    delegated to an external collaborator (the OpenAI client, the microphone,
    the audio player, Open Interpreter); the program's own code is sequencing,
    exception handling and two pieces of global state.  The embedding
    therefore is

    - an environment [Env]: one function per external operation, which
      receives the history of all operations performed so far and either
      returns a value or raises a Python exception;
    - a state [State]: the module globals [thread_id] and [assistant_id],
      the chronological log of external operations, and the temporary files
      the process has created and not yet deleted;
    - a state-and-exception monad [M] in which each Python function is
      written with the statements in source order.

    Strings are sequences of code points below 256.  The three unbounded
    [while True] loops take a fuel argument; an exhausted fuel is the
    outcome [Running] (the loop has not finished yet), which no handler
    catches. *)

From Stdlib Require Import List String Ascii Bool Arith Lia.
Import ListNotations.
Open Scope string_scope.

Set Implicit Arguments.

(* ================================================================== *)
(** ** Python strings *)
(* ================================================================== *)

Module PyStr.

Definition nl : string := String (ascii_of_nat 10) EmptyString.

(** [bool(s)] for a [str]: only the empty string is falsy. *)
Definition nonempty (s : string) : bool :=
  match s with EmptyString => false | String _ _ => true end.

(** [str.lower] on one code point below 256: A-Z and the Latin-1 capitals
    (192..222 but the multiplication sign 215) move up by 32. *)
Definition lower_char (c : ascii) : ascii :=
  let n := nat_of_ascii c in
  if (((65 <=? n) && (n <=? 90))
      || ((192 <=? n) && (n <=? 222) && negb (n =? 215)))%nat
  then ascii_of_nat (n + 32) else c.

Fixpoint lower (s : string) : string :=
  match s with
  | EmptyString => EmptyString
  | String c r => String (lower_char c) (lower r)
  end.

(** [str.isspace] on one code point below 256. *)
Definition is_space (c : ascii) : bool :=
  let n := nat_of_ascii c in
  (((9 <=? n) && (n <=? 13)) || ((28 <=? n) && (n <=? 32))
   || (n =? 133) || (n =? 160))%nat.

Fixpoint lstrip (s : string) : string :=
  match s with
  | EmptyString => EmptyString
  | String c r => if is_space c then lstrip r else s
  end.

Fixpoint rstrip (s : string) : string :=
  match s with
  | EmptyString => EmptyString
  | String c r =>
      match rstrip r with
      | EmptyString => if is_space c then EmptyString else String c EmptyString
      | r' => String c r'
      end
  end.

(** [str.strip()] with no argument. *)
Definition strip (s : string) : string := rstrip (lstrip s).

(** [needle in hay] for two [str]. *)
Fixpoint contains (needle hay : string) : bool :=
  if String.prefix needle hay then true
  else match hay with
       | EmptyString => false
       | String _ r => contains needle r
       end.

(** [x in [a, b, ...]] for a list of [str]. *)
Definition mem (x : string) (l : list string) : bool :=
  existsb (String.eqb x) l.

End PyStr.
Import PyStr.

(* ================================================================== *)
(** ** Exceptions *)
(* ================================================================== *)

(** The exception classes the program distinguishes.  [KeyboardInterrupt]
    and [SystemExit] derive from [BaseException] only; all the others derive
    from [Exception].  [SystemExit] stands for every class outside
    [Exception] other than [KeyboardInterrupt] ([GeneratorExit] among them),
    [OtherException] for every other subclass of [Exception] (the OpenAI
    client's errors among them). *)
Inductive exn_class : Type :=
| KeyboardInterrupt
| SystemExit
| WaitTimeoutError
| UnknownValueError
| RequestError
| IndexError
| AttributeError
| OtherException.

(** An exception object: its class and its [str(e)]. *)
Record exn : Type := mkExn { exn_class_of : exn_class; exn_str : string }.

(** [isinstance(e, Exception)] *)
Definition is_Exception (e : exn) : bool :=
  match exn_class_of e with
  | KeyboardInterrupt | SystemExit => false
  | _ => true
  end.

Definition is_KeyboardInterrupt (e : exn) : bool :=
  match exn_class_of e with KeyboardInterrupt => true | _ => false end.

Definition is_WaitTimeoutError (e : exn) : bool :=
  match exn_class_of e with WaitTimeoutError => true | _ => false end.

Definition is_UnknownValueError (e : exn) : bool :=
  match exn_class_of e with UnknownValueError => true | _ => false end.

Definition is_RequestError (e : exn) : bool :=
  match exn_class_of e with RequestError => true | _ => false end.

(* ================================================================== *)
(** ** External operations *)
(* ================================================================== *)

(** One entry of the log per external operation, with its arguments. *)
Inductive event : Type :=
| EvPrint (line : string)
| EvSleep (seconds : nat)
| EvThreadsRetrieve (thread : string)
| EvThreadsCreate
| EvAssistantsRetrieve (assistant : string)
| EvAssistantsCreate (name instructions model tools : string)
| EvMessagesCreate (thread role content : string)
| EvRunsCreate (thread assistant instructions : string)
| EvRunsRetrieve (thread run : string)
| EvMessagesList (thread order : string) (limit : nat)
| EvSpeechCreate (model voice input : string)
| EvTranscriptionsCreate (model file response_format : string)
| EvInterpreterChat (message : string)
| EvAdjustForAmbientNoise
| EvListen (timeout phrase_time_limit : nat)
| EvNamedTemporaryFile (suffix : string)
| EvUnlink (path : string)
| EvPlay (audio : string).

(** The operations served by the remote OpenAI service. *)
Definition is_remote (ev : event) : bool :=
  match ev with
  | EvThreadsRetrieve _ | EvThreadsCreate
  | EvAssistantsRetrieve _ | EvAssistantsCreate _ _ _ _
  | EvMessagesCreate _ _ _ | EvRunsCreate _ _ _ | EvRunsRetrieve _ _
  | EvMessagesList _ _ _ | EvSpeechCreate _ _ _
  | EvTranscriptionsCreate _ _ _ => true
  | _ => false
  end.

Definition is_speech (ev : event) : bool :=
  match ev with EvSpeechCreate _ _ _ => true | _ => false end.

Definition is_runs_retrieve (ev : event) : bool :=
  match ev with EvRunsRetrieve _ _ => true | _ => false end.

(** What an external operation answers. *)
Inductive reply (T : Type) : Type :=
| Returns (v : T)
| Raises (e : exn).
Arguments Raises {T} e.

(** A block of a message's [content] list: only a text block has [.text]. *)
Inductive content_block : Type :=
| TextBlock (value : string)
| ImageFileBlock (file_id : string).

(** A thread message as [analyze_audio] reads it. *)
Record message : Type := mkMessage { role : string; content : list content_block }.

(** The environment.  The first argument of each operation is the log of
    the operations performed before it. *)
Record Env : Type := mkEnv {
  threads_retrieve      : list event -> string -> reply unit;
  threads_create        : list event -> reply string;            (* thread.id *)
  assistants_retrieve   : list event -> string -> reply string;  (* assistant.id *)
  assistants_create     : list event -> string -> string -> string -> string -> reply string;
  messages_create       : list event -> string -> string -> string -> reply unit;
  runs_create           : list event -> string -> string -> string -> reply string; (* run.id *)
  runs_retrieve         : list event -> string -> string -> reply string; (* run_status.status *)
  messages_list         : list event -> string -> string -> nat -> reply (list message); (* messages.data *)
  speech_create         : list event -> string -> string -> string -> reply string; (* response.content *)
  transcriptions_create : list event -> string -> string -> string -> reply string;
  interpreter_chat      : list event -> string -> reply string;  (* str(response) *)
  listen                : list event -> nat -> nat -> reply string; (* the captured audio *)
  named_temporary_file  : list event -> string -> reply string;  (* temp_audio.name *)
  from_file             : string -> string -> reply string;      (* AudioSegment.from_file *)
  play                  : list event -> string -> reply unit;
  elapsed               : list event -> string                   (* the formatted duration *)
}.

(** [from config import *]: the module [config] is not part of the sources;
    its names are taken as parameters. *)
Record Config : Type := mkConfig {
  OPENAI_API_KEY : option string;
  OPENAI_MODEL : string;
  ASSISTANT_ID : option string;
  ATHENA_INSTRUCTIONS : string;
  ATHENA_TOOLS : string;
  USER_NAME : string;
  SPEECH_RECOGNITION_TIMEOUT : nat;
  SPEECH_RECOGNITION_PHRASE_TIME_LIMIT : nat
}.

(* ================================================================== *)
(** ** State and monad *)
(* ================================================================== *)

Record State : Type := mkState {
  thread_id : option string;      (* line 15, the global *)
  assistant_id : option string;   (* line 14, the global *)
  trace : list event;             (* oldest first *)
  files : list string             (* temporary files that exist *)
}.

Definition initial_state : State :=
  {| thread_id := None; assistant_id := None; trace := []; files := [] |}.

Inductive outcome (A : Type) : Type :=
| Ret (a : A)
| Raise (e : exn)
| Running.
Arguments Raise {A} e.
Arguments Running {A}.

Definition M (A : Type) : Type := State -> outcome A * State.

Definition ret {A} (a : A) : M A := fun s => (Ret a, s).

Definition raise {A} (e : exn) : M A := fun s => (Raise e, s).

Definition running {A} : M A := fun s => (Running, s).

Definition bind {A B} (m : M A) (k : A -> M B) : M B :=
  fun s =>
    match m s with
    | (Ret a, s') => k a s'
    | (Raise e, s') => (Raise e, s')
    | (Running, s') => (Running, s')
    end.

Notation "x <- m ;; k" := (bind m (fun x => k))
  (at level 61, m at next level, right associativity).
Notation "m ;;; k" := (bind m (fun _ => k))
  (at level 61, right associativity).

(** [try: body / except <classes> as e: handler e].  An exception raised by
    the handler itself is not caught again. *)
Definition try_except {A} (body : M A) (caught : exn -> bool) (handler : exn -> M A) : M A :=
  fun s =>
    match body s with
    | (Raise e, s') => if caught e then handler e s' else (Raise e, s')
    | r => r
    end.

Definition log (ev : event) (s : State) : State :=
  {| thread_id := thread_id s; assistant_id := assistant_id s;
     trace := trace s ++ [ev]; files := files s |}.

(** An external operation: the environment answers from the log so far, and
    the operation is logged. *)
Definition call {T} (ev : event) (answer : list event -> reply T) : M T :=
  fun s =>
    match answer (trace s) with
    | Returns v => (Ret v, log ev s)
    | Raises e => (Raise e, log ev s)
    end.

Definition print (line : string) : M unit := fun s => (Ret tt, log (EvPrint line) s).

Definition sleep (seconds : nat) : M unit := fun s => (Ret tt, log (EvSleep seconds) s).

Definition get_thread_id : M (option string) := fun s => (Ret (thread_id s), s).

Definition set_thread_id (v : option string) : M unit :=
  fun s => (Ret tt, {| thread_id := v; assistant_id := assistant_id s;
                       trace := trace s; files := files s |}).

Definition get_assistant_id : M (option string) := fun s => (Ret (assistant_id s), s).

Definition set_assistant_id (v : option string) : M unit :=
  fun s => (Ret tt, {| thread_id := thread_id s; assistant_id := v;
                       trace := trace s; files := files s |}).

(** [bool(v)] for a value that is [None] or a [str]: the string when truthy. *)
Definition as_handle (v : option string) : option string :=
  match v with
  | Some t => if nonempty t then Some t else None
  | None => None
  end.

Definition truthy (v : option string) : bool :=
  match as_handle v with Some _ => true | None => false end.

(** [try: body / except C1: h1 / except C2 as e: h2]: the first clause
    whose class matches handles the exception. *)
Definition try_except2 {A} (body : M A)
    (caught1 : exn -> bool) (handler1 : exn -> M A)
    (caught2 : exn -> bool) (handler2 : exn -> M A) : M A :=
  fun s =>
    match body s with
    | (Raise e, s') =>
        if caught1 e then handler1 e s'
        else if caught2 e then handler2 e s'
        else (Raise e, s')
    | r => r
    end.

(** The files of the process: creation by [NamedTemporaryFile(delete=False)]
    and [os.unlink]. *)
Definition add_file (path : string) : M unit :=
  fun s => (Ret tt, {| thread_id := thread_id s; assistant_id := assistant_id s;
                       trace := trace s; files := path :: files s |}).

Definition os_unlink (path : string) : M unit :=
  fun s =>
    if mem path (files s)
    then (Ret tt,
          {| thread_id := thread_id s; assistant_id := assistant_id s;
             trace := trace s ++ [EvUnlink path];
             files := filter (fun p => negb (String.eqb path p)) (files s) |})
    else (Raise (mkExn OtherException "No such file or directory"),
          log (EvUnlink path) s).

(** An operation without effect that may raise (decoding the audio). *)
Definition call_pure {T} (answer : reply T) : M T :=
  fun s =>
    match answer with
    | Returns v => (Ret v, s)
    | Raises e => (Raise e, s)
    end.

(** How a loop body ends: [break], [continue], or by reaching its end. *)
Inductive loop_ctl : Type := Break | Continue | EndOfBody.

(* ================================================================== *)
(** ** The program *)
(* ================================================================== *)

Section Program.

Variable env : Env.
Variable cfg : Config.

(** Line 13: [client = OpenAI(api_key=OPENAI_API_KEY)] binds [client] to an
    object once and for all, and [client.api_key] to the configured key. *)
Definition client_is_None : bool := false.
Definition client_api_key : option string := OPENAI_API_KEY cfg.

(** Lines 22-38. *)
Definition get_or_create_thread : M (option string) :=
  cached <- get_thread_id ;;
  returned <-
    match as_handle cached with
    | Some t =>
        try_except
          (call (EvThreadsRetrieve t) (fun h => threads_retrieve env h t) ;;;
           ret (Some cached))
          is_Exception
          (fun e => print ("Error retrieving thread: " ++ exn_str e) ;;; ret None)
    | None => ret None
    end ;;
  match returned with
  | Some v => ret v
  | None =>
      try_except
        (new <- call EvThreadsCreate (threads_create env) ;;
         set_thread_id (Some new) ;;;
         print ("New thread created with ID: " ++ new) ;;;
         ret (Some new))
        is_Exception
        (fun e => print ("Error creating thread: " ++ exn_str e) ;;; ret None)
  end.

(** Lines 40-63. *)
Definition initialize_assistant : M (option string) :=
  returned <-
    match as_handle (ASSISTANT_ID cfg) with
    | Some a =>
        try_except
          (id <- call (EvAssistantsRetrieve a) (fun h => assistants_retrieve env h a) ;;
           print ("Using existing assistant with ID: " ++ id) ;;;
           set_assistant_id (Some id) ;;;
           ret (Some (Some id)))
          is_Exception
          (fun e => print ("Error retrieving assistant: " ++ exn_str e) ;;; ret None)
    | None => ret None
    end ;;
  match returned with
  | Some v => ret v
  | None =>
      try_except
        (id <- call (EvAssistantsCreate "Athena" (ATHENA_INSTRUCTIONS cfg)
                       (OPENAI_MODEL cfg) (ATHENA_TOOLS cfg))
                    (fun h => assistants_create env h "Athena" (ATHENA_INSTRUCTIONS cfg)
                                (OPENAI_MODEL cfg) (ATHENA_TOOLS cfg)) ;;
         print ("New assistant created with ID: " ++ id) ;;;
         set_assistant_id (Some id) ;;;
         ret (Some id))
        is_Exception
        (fun e => print ("Error creating assistant: " ++ exn_str e) ;;; ret None)
  end.

(** The strings of [analyze_audio]. *)
Definition disabled_message : string :=
  "OpenAI functionalities are disabled or assistant is not initialized. Cannot analyze audio.".

Definition no_thread_message : string :=
  "Failed to create or retrieve a thread. Cannot process the request.".

Definition run_instructions : string :=
  "Remember to address the user as " ++ USER_NAME cfg
  ++ " and maintain your friendly, supportive demeanor." ++ nl
  ++ "            If the user wants to start an Open Interpreter session, inform them to say 'Start Open Interpreter'.".

Definition run_failed_message (status : string) : string :=
  "Run failed with status: " ++ status.

Definition no_response_message : string :=
  "I'm sorry, " ++ USER_NAME cfg
  ++ ", I didn't receive a response. How else can I assist you?".

Definition apology_message : string :=
  "I'm sorry, " ++ USER_NAME cfg
  ++ ", I encountered an error while processing your request. How can I help you differently?".

(** Lines 87-93, the poll loop.  [Some msg] is the [return msg] of line 92,
    [None] the [break] of line 90. *)
Fixpoint poll_run (fuel : nat) (tid rid : string) : M (option string) :=
  match fuel with
  | 0 => running
  | S fuel' =>
      status <- call (EvRunsRetrieve tid rid) (fun h => runs_retrieve env h tid rid) ;;
      if status =? "completed" then ret None
      else if mem status ["failed"; "cancelled"; "expired"]
      then ret (Some (run_failed_message status))
      else sleep 1 ;;; poll_run fuel' tid rid
  end.

(** Lines 95-106. *)
Definition fetch_reply (tid : string) : M string :=
  data <- call (EvMessagesList tid "desc" 1) (fun h => messages_list env h tid "desc" 1) ;;
  match data with
  | latest_message :: _ =>
      if role latest_message =? "assistant" then
        match content latest_message with
        | TextBlock value :: _ => ret value
        | ImageFileBlock _ :: _ =>
            raise (mkExn AttributeError "'ImageFileContentBlock' object has no attribute 'text'")
        | [] => raise (mkExn IndexError "list index out of range")
        end
      else ret no_response_message
  | [] => ret no_response_message
  end.

(** Lines 70-106, the body of the [try]. *)
Definition analyze_audio_try (fuel : nat) (aid user_prompt : string) : M string :=
  thread <- get_or_create_thread ;;
  match as_handle thread with
  | None => ret no_thread_message
  | Some tid =>
      call (EvMessagesCreate tid "user" user_prompt)
           (fun h => messages_create env h tid "user" user_prompt) ;;;
      rid <- call (EvRunsCreate tid aid run_instructions)
                  (fun h => runs_create env h tid aid run_instructions) ;;
      returned <- poll_run fuel tid rid ;;
      match returned with
      | Some msg => ret msg
      | None => fetch_reply tid
      end
  end.

(** Lines 108-110, the handler. *)
Definition analyze_audio_except (e : exn) : M string :=
  print ("Error in analyze_audio: " ++ exn_str e) ;;; ret apology_message.

(** Lines 95-110: what remains of [analyze_audio] once the poll loop has
    been left by [break]. *)
Definition reply_stage (tid : string) : M string :=
  try_except (fetch_reply tid) is_Exception analyze_audio_except.

(** Lines 87-110: what remains of [analyze_audio] once the run has been
    created. *)
Definition await_stage (fuel : nat) (tid rid : string) : M string :=
  try_except
    (returned <- poll_run fuel tid rid ;;
     match returned with
     | Some msg => ret msg
     | None => fetch_reply tid
     end)
    is_Exception analyze_audio_except.

(** Lines 65-110. *)
Definition analyze_audio (fuel : nat) (user_prompt : string) : M string :=
  assistant <- get_assistant_id ;;
  match as_handle client_api_key, as_handle assistant with
  | Some _, Some aid =>
      try_except
        (analyze_audio_try fuel aid user_prompt)
        is_Exception
        analyze_audio_except
  | _, _ => ret disabled_message
  end.

(** Lines 134-151.  [text] is a [str] here, so line 140 does nothing. *)
Definition play_audio (text voice : string) : M unit :=
  try_except
    (if client_is_None
     then print "OpenAI client not initialized. Skipping text-to-speech."
     else
       response_content <- call (EvSpeechCreate "tts-1" voice text)
                                (fun h => speech_create env h "tts-1" voice text) ;;
       audio <- call_pure (from_file env response_content "mp3") ;;
       call (EvPlay audio) (fun h => play env h audio))
    is_Exception
    (fun e => print ("Error in play_audio: " ++ exn_str e)).

(** Line 200: the duration comes from the clock. *)
Definition print_elapsed : M unit :=
  fun s => print ("Time to transcribe audio: " ++ elapsed env (trace s) ++ " seconds") s.

(** Lines 184-206.  The file operations between the creation of the
    temporary file and the request (the write of line 190, the open of line
    193) and the removal of line 202 are taken to succeed: the fallible
    steps of the embedding are the creation and the request. *)
Definition transcribe_audio (audio : string) : M (option string) :=
  if client_is_None
  then print "OpenAI client not initialized. Skipping transcription." ;;; ret None
  else
    try_except
      (temp_audio_path <- call (EvNamedTemporaryFile ".wav")
                               (fun h => named_temporary_file env h ".wav") ;;
       add_file temp_audio_path ;;;
       text <- call (EvTranscriptionsCreate "whisper-1" temp_audio_path "text")
                    (fun h => transcriptions_create env h "whisper-1" temp_audio_path "text") ;;
       let transcript := strip text in
       print_elapsed ;;;
       os_unlink temp_audio_path ;;;
       ret (Some transcript))
      is_Exception
      (fun e => print ("Error in transcribe_audio: " ++ exn_str e) ;;; ret None).

(** Lines 153-182.  [None] from the first block is the [return None] of
    line 167.  Opening the microphone (line 155) and the calibration of
    line 157 are taken to succeed: an error of the device is an answer of
    [listen], the first fallible step of the embedding. *)
Definition get_audio_input : M (option string) :=
  print "Listening for speech..." ;;;
  call (T:=unit) EvAdjustForAmbientNoise (fun _ => Returns tt) ;;;
  captured <-
    try_except
      (audio <- call (EvListen (SPEECH_RECOGNITION_TIMEOUT cfg)
                               (SPEECH_RECOGNITION_PHRASE_TIME_LIMIT cfg))
                     (fun h => listen env h (SPEECH_RECOGNITION_TIMEOUT cfg)
                                 (SPEECH_RECOGNITION_PHRASE_TIME_LIMIT cfg)) ;;
       print "Processing..." ;;;
       ret (Some audio))
      is_WaitTimeoutError
      (fun _ => print "No speech detected within the timeout period." ;;; ret None) ;;
  match captured with
  | None => ret None
  | Some audio =>
      try_except2
        (transcript <- transcribe_audio audio ;;
         match as_handle transcript with
         | Some t => print ("Transcribed audio: " ++ t) ;;; ret (Some t)
         | None => print "No speech detected or transcription failed." ;;; ret None
         end)
        is_UnknownValueError
        (fun _ => print "Speech recognition could not understand the audio." ;;; ret None)
        is_RequestError
        (fun e => print ("Could not request results from speech recognition service; "
                         ++ exn_str e) ;;; ret None)
  end.

Definition interpreter_exit_phrase : string := "exit interpreter".

(** Lines 125-132, the [try] statement that forwards one command. *)
Definition forward_command (user_input : string) : M unit :=
  try_except
    (response <- call (EvInterpreterChat user_input)
                      (fun h => interpreter_chat env h user_input) ;;
     print ("Open Interpreter: " ++ response) ;;;
     play_audio response "onyx")
    is_Exception
    (fun e =>
       let error_message := "Error in Open Interpreter: " ++ exn_str e in
       print error_message ;;;
       play_audio error_message "onyx").

(** Lines 116-132, the loop of the command-execution session. *)
Fixpoint interpreter_loop (fuel : nat) : M string :=
  match fuel with
  | 0 => running
  | S fuel' =>
      user_input <- get_audio_input ;;
      match user_input with
      | None =>
          print "No input detected. Waiting for your command in Open Interpreter mode." ;;;
          interpreter_loop fuel'
      | Some u =>
          if lower u =? interpreter_exit_phrase then
            play_audio "Exiting Open Interpreter mode." "onyx" ;;;
            ret "Open Interpreter session ended."
          else
            forward_command u ;;;
            interpreter_loop fuel'
      end
  end.

(** Lines 112-132. *)
Definition open_interpreter_session (fuel : nat) : M string :=
  print "Starting Open Interpreter session. Say 'Exit Interpreter' to end the session." ;;;
  play_audio "Entering Open Interpreter mode. Say 'Exit Interpreter' to end the session." "onyx" ;;;
  interpreter_loop fuel.

Definition exit_words : list string := ["exit"; "quit"; "goodbye"].

Definition trigger_phrase : string := "start open interpreter".

Definition farewell : string := "Goodbye, " ++ USER_NAME cfg ++ "! Have a great day.".

(** Lines 236-243, the dispatch on the mode. *)
Definition dispatch (fuel : nat) (user_prompt : string) : M unit :=
  if lower user_prompt =? trigger_phrase then
    response <- open_interpreter_session fuel ;;
    print ("Athena: " ++ response) ;;;
    play_audio response "nova"
  else
    analysis <- analyze_audio fuel user_prompt ;;
    print ("Athena: " ++ analysis) ;;;
    play_audio analysis "nova".

(** Lines 224-252, one pass through the body of the main loop up to the
    end of the [try] statement. *)
Definition main_cycle (fuel : nat) : M loop_ctl :=
  try_except2
    (user_prompt <- get_audio_input ;;
     match user_prompt with
     | None => print "No input detected. Waiting for your command." ;;; ret Continue
     | Some u =>
         if mem (lower u) exit_words then
           print ("Athena: " ++ farewell) ;;;
           play_audio farewell "nova" ;;;
           ret Break
         else
           print (USER_NAME cfg ++ ": " ++ u) ;;;
           dispatch fuel u ;;;
           sleep 1 ;;;
           ret EndOfBody
     end)
    is_KeyboardInterrupt
    (fun _ =>
       print (nl ++ "Thank you for chatting with Athena. Goodbye, " ++ USER_NAME cfg ++ "!") ;;;
       play_audio ("Thank you for chatting with me. Goodbye, " ++ USER_NAME cfg ++ "!") "nova" ;;;
       ret Break)
    is_Exception
    (fun e =>
       print ("An error occurred: " ++ exn_str e
              ++ ". Athena is ready to assist with something else.") ;;;
       play_audio ("An error occurred: " ++ exn_str e
                   ++ ". I'm ready to assist with something else.") "nova" ;;;
       ret EndOfBody).

(** Lines 223-254, the main loop. *)
Fixpoint main_loop (fuel : nat) : M unit :=
  match fuel with
  | 0 => running
  | S fuel' =>
      ctl <- main_cycle fuel' ;;
      match ctl with
      | Break => ret tt
      | Continue => main_loop fuel'
      | EndOfBody => print "Listening for speech..." ;;; main_loop fuel'
      end
  end.

(** Lines 208-254. *)
Definition main (fuel : nat) : M unit :=
  print ("Initializing Athena, " ++ USER_NAME cfg ++ "'s personal AI companion...") ;;;
  print ("Using model: " ++ OPENAI_MODEL cfg) ;;;
  assistant <- initialize_assistant ;;
  set_assistant_id assistant ;;;
  if negb (truthy assistant) then print "Failed to initialize assistant. Exiting."
  else
    let welcome_message := "Hey " ++ USER_NAME cfg ++ "! What's up!" in
    print ("Athena: " ++ welcome_message) ;;;
    play_audio welcome_message "nova" ;;;
    print "Listening for speech..." ;;;
    main_loop fuel.

End Program.

(* ================================================================== *)
(** ** Scripted environments *)
(* ================================================================== *)

(** Concrete environments on which the program can be run.  A script fixes
    what the collaborators answer; the k-th call of an operation is answered
    by the k-th entry of the corresponding list. *)
Module Script.

Definition count (p : event -> bool) (h : list event) : nat :=
  List.length (filter p h).

Definition is_listen (ev : event) : bool :=
  match ev with EvListen _ _ => true | _ => false end.

Definition is_chat (ev : event) : bool :=
  match ev with EvInterpreterChat _ => true | _ => false end.

Record t : Type := mk {
  retrieve_thread : reply unit;            (* threads.retrieve *)
  create_thread : reply string;            (* threads.create *)
  append_message : reply unit;             (* messages.create *)
  create_run : reply string;               (* runs.create *)
  statuses : list (reply string);          (* runs.retrieve, in order *)
  thread_messages : reply (list message);  (* messages.list *)
  captures : list (reply string);          (* listen, in order; the audio *)
  transcripts : reply string -> reply string; (* transcription of the last capture *)
  speech : reply string;                   (* audio.speech.create *)
  chat : list (reply string)               (* interpreter.chat, in order *)
}.

Definition timeout : reply string :=
  Raises (mkExn WaitTimeoutError "listening timed out while waiting for phrase to start").

Definition api_error : exn := mkExn OtherException "Connection error.".

Definition interrupt : exn := mkExn KeyboardInterrupt EmptyString.

(** The transcription service returns the words that were spoken: the
    captured audio is represented by its words. *)
Definition hears : reply string -> reply string := fun r => r.

Definition to_env (sc : t) : Env :=
  {| threads_retrieve := fun _ _ => retrieve_thread sc;
     threads_create := fun _ => create_thread sc;
     assistants_retrieve := fun _ a => Returns a;
     assistants_create := fun _ _ _ _ _ => Returns "asst_new";
     messages_create := fun _ _ _ _ => append_message sc;
     runs_create := fun _ _ _ _ => create_run sc;
     runs_retrieve := fun h _ _ =>
       nth (count is_runs_retrieve h) (statuses sc) (Returns "in_progress");
     messages_list := fun _ _ _ _ => thread_messages sc;
     speech_create := fun _ _ _ _ => speech sc;
     transcriptions_create := fun h _ _ _ =>
       transcripts sc (nth (count is_listen h - 1) (captures sc) timeout);
     interpreter_chat := fun h _ => nth (count is_chat h) (chat sc) (Returns "done");
     listen := fun h _ _ => nth (count is_listen h) (captures sc) timeout;
     named_temporary_file := fun h _ => Returns "/tmp/tmpa1b2c3.wav";
     from_file := fun bytes _ => Returns bytes;
     play := fun _ _ => Returns tt;
     elapsed := fun _ => "0.50" |}.

Definition config : Config :=
  {| OPENAI_API_KEY := Some "sk-test";
     OPENAI_MODEL := "gpt-4";
     ASSISTANT_ID := None;
     ATHENA_INSTRUCTIONS := "You are Athena.";
     ATHENA_TOOLS := "[]";
     USER_NAME := "Aaron";
     SPEECH_RECOGNITION_TIMEOUT := 10;
     SPEECH_RECOGNITION_PHRASE_TIME_LIMIT := 15 |}.

(** A healthy service: the run completes at the third poll and the
    assistant has answered. *)
Definition healthy : t :=
  {| retrieve_thread := Returns tt;
     create_thread := Returns "thread_1";
     append_message := Returns tt;
     create_run := Returns "run_1";
     statuses := [Returns "queued"; Returns "in_progress"; Returns "completed"];
     thread_messages := Returns [mkMessage "assistant" [TextBlock "It is sunny."]];
     captures := [Returns "what's the weather"];
     transcripts := hears;
     speech := Returns "mp3";
     chat := [] |}.

(** The run expires at the second poll. *)
Definition run_expired : t :=
  {| retrieve_thread := Returns tt;
     create_thread := Returns "thread_1";
     append_message := Returns tt;
     create_run := Returns "run_1";
     statuses := [Returns "queued"; Returns "expired"];
     thread_messages := Returns [];
     captures := [Returns "what's the weather"];
     transcripts := hears;
     speech := Returns "mp3";
     chat := [] |}.

(** No thread can be created. *)
Definition thread_down : t :=
  {| retrieve_thread := Raises api_error;
     create_thread := Raises api_error;
     append_message := Returns tt;
     create_run := Returns "run_1";
     statuses := [Returns "completed"];
     thread_messages := Returns [];
     captures := [Returns "hello"];
     transcripts := hears;
     speech := Returns "mp3";
     chat := [] |}.

(** The message append fails. *)
Definition append_down : t :=
  {| retrieve_thread := Returns tt;
     create_thread := Returns "thread_1";
     append_message := Raises api_error;
     create_run := Returns "run_1";
     statuses := [Returns "completed"];
     thread_messages := Returns [];
     captures := [Returns "hello"];
     transcripts := hears;
     speech := Returns "mp3";
     chat := [] |}.

(** The transcription request fails. *)
Definition transcription_down : t :=
  {| retrieve_thread := Returns tt;
     create_thread := Returns "thread_1";
     append_message := Returns tt;
     create_run := Returns "run_1";
     statuses := [Returns "completed"];
     thread_messages := Returns [];
     captures := [Returns "hello"];
     transcripts := fun _ => Raises api_error;
     speech := Returns "mp3";
     chat := [] |}.

(** The user says the given phrases, one per capture, then is silent. *)
Definition says (phrases : list string) : t :=
  {| retrieve_thread := Returns tt;
     create_thread := Returns "thread_1";
     append_message := Returns tt;
     create_run := Returns "run_1";
     statuses := [Returns "completed"];
     thread_messages := Returns [mkMessage "assistant" [TextBlock "Sure."]];
     captures := map (@Returns string) phrases;
     transcripts := hears;
     speech := Returns "mp3";
     chat := [Returns "file_a file_b"] |}.

(** The cached thread is gone from the service; a new one can be created. *)
Definition thread_lost : t :=
  {| retrieve_thread := Raises (mkExn OtherException "No thread found with id 'thread_1'.");
     create_thread := Returns "thread_2";
     append_message := Returns tt;
     create_run := Returns "run_1";
     statuses := [Returns "completed"];
     thread_messages := Returns [mkMessage "assistant" [TextBlock "Sure."]];
     captures := [Returns "hello"];
     transcripts := hears;
     speech := Returns "mp3";
     chat := [] |}.

(** The state after an earlier query: a thread handle is cached. *)
Definition resumed : State :=
  {| thread_id := Some "thread_1"; assistant_id := Some "asst_1";
     trace := []; files := [] |}.

(** The interpreter raises on the first command. *)
Definition interpreter_down : t :=
  {| retrieve_thread := Returns tt;
     create_thread := Returns "thread_1";
     append_message := Returns tt;
     create_run := Returns "run_1";
     statuses := [Returns "completed"];
     thread_messages := Returns [];
     captures := [Returns "list files"];
     transcripts := hears;
     speech := Returns "mp3";
     chat := [Raises (mkExn OtherException "interpreter crashed")] |}.

(** The microphone cannot be read. *)
Definition microphone_error : exn :=
  mkExn OtherException "No Default Input Device Available".

Definition microphone_down : t :=
  {| retrieve_thread := Returns tt;
     create_thread := Returns "thread_1";
     append_message := Returns tt;
     create_run := Returns "run_1";
     statuses := [Returns "completed"];
     thread_messages := Returns [];
     captures := [Raises microphone_error];
     transcripts := hears;
     speech := Returns "mp3";
     chat := [] |}.

(** The user presses Ctrl-C while the program is listening. *)
Definition interrupted : t :=
  {| retrieve_thread := Returns tt;
     create_thread := Returns "thread_1";
     append_message := Returns tt;
     create_run := Returns "run_1";
     statuses := [Returns "completed"];
     thread_messages := Returns [];
     captures := [Raises interrupt];
     transcripts := hears;
     speech := Returns "mp3";
     chat := [] |}.

(** Something calls [sys.exit] while the program is listening. *)
Definition system_exit : exn := mkExn SystemExit "0".

Definition exiting : t :=
  {| retrieve_thread := Returns tt;
     create_thread := Returns "thread_1";
     append_message := Returns tt;
     create_run := Returns "run_1";
     statuses := [Returns "completed"];
     thread_messages := Returns [];
     captures := [Raises system_exit];
     transcripts := hears;
     speech := Returns "mp3";
     chat := [] |}.

(** The assistant has answered with an image. *)
Definition image_reply : t :=
  {| retrieve_thread := Returns tt;
     create_thread := Returns "thread_1";
     append_message := Returns tt;
     create_run := Returns "run_1";
     statuses := [Returns "completed"];
     thread_messages := Returns [mkMessage "assistant" [ImageFileBlock "file_1"]];
     captures := [Returns "draw a chart"];
     transcripts := hears;
     speech := Returns "mp3";
     chat := [] |}.

(** The healthy service, but no assistant can be retrieved or created. *)
Definition no_assistant : Env :=
  let E := to_env healthy in
  {| threads_retrieve := threads_retrieve E;
     threads_create := threads_create E;
     assistants_retrieve := fun _ _ => Raises api_error;
     assistants_create := fun _ _ _ _ _ => Raises api_error;
     messages_create := messages_create E;
     runs_create := runs_create E;
     runs_retrieve := runs_retrieve E;
     messages_list := messages_list E;
     speech_create := speech_create E;
     transcriptions_create := transcriptions_create E;
     interpreter_chat := interpreter_chat E;
     listen := listen E;
     named_temporary_file := named_temporary_file E;
     from_file := from_file E;
     play := play E;
     elapsed := elapsed E |}.

(** The state once [main] has initialised the assistant. *)
Definition ready : State :=
  {| thread_id := None; assistant_id := Some "asst_1"; trace := []; files := [] |}.

(** The user opens the command-execution session and leaves it at once. *)
Definition session_round : t := says ["Start Open Interpreter"; "Exit Interpreter"].

(** What one capture of the given phrase adds to the trace. *)
Definition capture_of (phrase : string) : list event :=
  [EvPrint "Listening for speech..."; EvAdjustForAmbientNoise; EvListen 10 15;
   EvPrint "Processing..."; EvNamedTemporaryFile ".wav";
   EvTranscriptionsCreate "whisper-1" "/tmp/tmpa1b2c3.wav" "text";
   EvPrint "Time to transcribe audio: 0.50 seconds";
   EvUnlink "/tmp/tmpa1b2c3.wav";
   EvPrint ("Transcribed audio: " ++ phrase)].

(** A configuration that names an assistant. *)
Definition config_with_assistant : Config :=
  {| OPENAI_API_KEY := OPENAI_API_KEY config;
     OPENAI_MODEL := OPENAI_MODEL config;
     ASSISTANT_ID := Some "asst_1";
     ATHENA_INSTRUCTIONS := ATHENA_INSTRUCTIONS config;
     ATHENA_TOOLS := ATHENA_TOOLS config;
     USER_NAME := USER_NAME config;
     SPEECH_RECOGNITION_TIMEOUT := SPEECH_RECOGNITION_TIMEOUT config;
     SPEECH_RECOGNITION_PHRASE_TIME_LIMIT := SPEECH_RECOGNITION_PHRASE_TIME_LIMIT config |}.

End Script.

(* ================================================================== *)
(** ** Vocabulary of the statements *)
(* ================================================================== *)

(** The state [s] with another log. *)
Definition with_trace (s : State) (tr : list event) : State :=
  {| thread_id := thread_id s; assistant_id := assistant_id s;
     trace := tr; files := files s |}.

(** [k] unsuccessful rounds of the poll loop: a status request, then the
    pause of line 93. *)
Fixpoint polls (tid rid : string) (k : nat) : list event :=
  match k with
  | 0 => []
  | S k' => EvRunsRetrieve tid rid :: EvSleep 1 :: polls tid rid k'
  end.

Definition failure_statuses : list string := ["failed"; "cancelled"; "expired"].

(** The statuses on which the poll loop stops. *)
Definition is_terminal (status : string) : bool :=
  (status =? "completed") || mem status failure_statuses.

(** Every operation that [m] performs satisfies [P], whatever the outcome. *)
Definition emits {A} (P : event -> bool) (m : M A) : Prop :=
  forall s out s',
    m s = (out, s') ->
    exists evs, trace s' = (trace s ++ evs)%list /\ forallb P evs = true.

(** The operations of thread acquisition. *)
Definition thread_step (ev : event) : bool :=
  match ev with
  | EvThreadsRetrieve _ | EvThreadsCreate | EvPrint _ => true
  | _ => false
  end.

(** What [play_audio] does after the synthesis request. *)
Definition playback_step (ev : event) : bool :=
  match ev with
  | EvPlay _ | EvPrint _ => true
  | _ => false
  end.

Definition not_remote (ev : event) : bool := negb (is_remote ev).

(** What a capture that times out logs: lines 156-166. *)
Definition timeout_events (cfg : Config) : list event :=
  [EvPrint "Listening for speech...";
   EvAdjustForAmbientNoise;
   EvListen (SPEECH_RECOGNITION_TIMEOUT cfg) (SPEECH_RECOGNITION_PHRASE_TIME_LIMIT cfg);
   EvPrint "No speech detected within the timeout period."].

(** The log when [listen] is called by [get_audio_input] entered with log [tr]. *)
Definition listening (tr : list event) : list event :=
  tr ++ [EvPrint "Listening for speech..."; EvAdjustForAmbientNoise].

(** [m] leaves the cached thread handle as it is, whatever the outcome. *)
Definition keeps_thread {A} (m : M A) : Prop :=
  forall s, thread_id (snd (m s)) = thread_id s.

(** The first [n] status requests issued after the log [tr] were all
    answered by a status on which the poll loop goes on. *)
Definition pending (env : Env) (tr : list event) (tid rid : string) (n : nat) : Prop :=
  forall k, k < n ->
    exists status,
      runs_retrieve env (tr ++ polls tid rid k) tid rid = Returns status
      /\ is_terminal status = false.

(** The log once the user's message has been appended to the thread, and
    once the run has been created. *)
Definition appended (s1 : State) (tid user_prompt : string) : list event :=
  trace s1 ++ [EvMessagesCreate tid "user" user_prompt].

Definition submitted (cfg : Config) (s1 : State) (tid aid user_prompt : string)
  : list event :=
  trace s1 ++ [EvMessagesCreate tid "user" user_prompt;
               EvRunsCreate tid aid (run_instructions cfg)].

(** The log after [n] unsuccessful rounds and one more status request. *)
Definition polled (cfg : Config) (s1 : State) (tid aid rid user_prompt : string)
    (n : nat) : list event :=
  submitted cfg s1 tid aid user_prompt ++ polls tid rid n ++ [EvRunsRetrieve tid rid].

Definition session_start_line : string :=
  "Starting Open Interpreter session. Say 'Exit Interpreter' to end the session.".

Definition is_session_start (ev : event) : bool :=
  match ev with
  | EvPrint line => line =? session_start_line
  | _ => false
  end.

Definition not_session_start (ev : event) : bool := negb (is_session_start ev).

(** [m] leaves the component [f] of the state as it is, whatever the outcome. *)
Definition frame {A X} (f : State -> X) (m : M A) : Prop :=
  forall s, f (snd (m s)) = f s.

(** [m] never lets an [Exception] out: what it raises, if anything, is a
    [KeyboardInterrupt]. *)
Definition contained {A} (m : M A) : Prop :=
  forall s e s', m s = (Raise e, s') -> is_Exception e = false.

Definition session_entry_announcement : string :=
  "Entering Open Interpreter mode. Say 'Exit Interpreter' to end the session.".

(** Lines 238-245: what the cycle does once the session has returned
    [response]. *)
Definition after_session (env : Env) (response : string) : M loop_ctl :=
  (print ("Athena: " ++ response) ;;; play_audio env response "nova") ;;;
  sleep 1 ;;;
  ret EndOfBody.

(** Lines 246-249 and 250-252: the two [except] clauses of the main loop. *)
Definition main_except_interrupt (env : Env) (cfg : Config) (_ : exn) : M loop_ctl :=
  print (nl ++ "Thank you for chatting with Athena. Goodbye, " ++ USER_NAME cfg ++ "!") ;;;
  play_audio env ("Thank you for chatting with me. Goodbye, " ++ USER_NAME cfg ++ "!")
             "nova" ;;;
  ret Break.

Definition main_except_exception (env : Env) (cfg : Config) (e : exn) : M loop_ctl :=
  print ("An error occurred: " ++ exn_str e
         ++ ". Athena is ready to assist with something else.") ;;;
  play_audio env ("An error occurred: " ++ exn_str e
                  ++ ". I'm ready to assist with something else.") "nova" ;;;
  ret EndOfBody.

(** The state in which the session's loop starts is reached from the state
    [s1] after the capture by the echo of the utterance and the line that
    opens the session; then the announcement is spoken. *)
Definition session_opened (cfg : Config) (s1 : State) (u : string) : State :=
  log (EvPrint session_start_line) (log (EvPrint (USER_NAME cfg ++ ": " ++ u)) s1).

(** The operations on the conversation: assistants, threads, messages, runs. *)
Definition is_conversation (ev : event) : bool :=
  match ev with
  | EvThreadsRetrieve _ | EvThreadsCreate
  | EvAssistantsRetrieve _ | EvAssistantsCreate _ _ _ _
  | EvMessagesCreate _ _ _ | EvRunsCreate _ _ _ | EvRunsRetrieve _ _
  | EvMessagesList _ _ _ => true
  | _ => false
  end.

Definition not_conversation (ev : event) : bool := negb (is_conversation ev).

(** Neither the line that opens the session nor an operation on the
    conversation. *)
Definition session_step (ev : event) : bool :=
  not_session_start ev && not_conversation ev.

(** What start-up may log before the greeting: console lines and the
    operations on the assistant. *)
Definition startup_step (ev : event) : bool :=
  match ev with
  | EvPrint _ | EvAssistantsRetrieve _ | EvAssistantsCreate _ _ _ _ => true
  | _ => false
  end.

(** The operation is not on the conversation, or it is an operation on the
    messages or runs of the thread [tid]. *)
Definition on_thread (tid : string) (ev : event) : bool :=
  match ev with
  | EvMessagesCreate t _ _ | EvRunsCreate t _ _ | EvRunsRetrieve t _
  | EvMessagesList t _ _ => t =? tid
  | EvThreadsRetrieve _ | EvThreadsCreate
  | EvAssistantsRetrieve _ | EvAssistantsCreate _ _ _ _ => false
  | _ => true
  end.

(** The state in which [main] calls [initialize_assistant]: lines 210-211. *)
Definition started (cfg : Config) (s : State) : State :=
  log (EvPrint ("Using model: " ++ OPENAI_MODEL cfg))
      (log (EvPrint ("Initializing Athena, " ++ USER_NAME cfg
                     ++ "'s personal AI companion...")) s).

Definition welcome_message (cfg : Config) : string :=
  "Hey " ++ USER_NAME cfg ++ "! What's up!".

(** The log when [transcribe_audio] is called by [get_audio_input] entered
    with log [tr], after a successful capture. *)
Definition captured (cfg : Config) (tr : list event) : list event :=
  tr ++ [EvPrint "Listening for speech..."; EvAdjustForAmbientNoise;
         EvListen (SPEECH_RECOGNITION_TIMEOUT cfg)
                  (SPEECH_RECOGNITION_PHRASE_TIME_LIMIT cfg);
         EvPrint "Processing..."].

(** The state [s] with another value of the global [assistant_id]. *)
Definition with_assistant (s : State) (v : option string) : State :=
  {| thread_id := thread_id s; assistant_id := v;
     trace := trace s; files := files s |}.

(** What one cycle of the main loop logs when the capture times out, and
    [k] such cycles in a row. *)
Definition silent_cycle (cfg : Config) : list event :=
  timeout_events cfg ++ [EvPrint "No input detected. Waiting for your command."].

Fixpoint silences (cfg : Config) (k : nat) : list event :=
  match k with
  | 0 => []
  | S k' => silent_cycle cfg ++ silences cfg k'
  end.

(** The same inside the command-execution session. *)
Definition silent_round (cfg : Config) : list event :=
  timeout_events cfg
  ++ [EvPrint "No input detected. Waiting for your command in Open Interpreter mode."].

(** The first [k] captures after the log [tr] all time out. *)
Definition silent (env : Env) (cfg : Config) (tr : list event) (k : nat) : Prop :=
  forall j, j < k ->
    exists e,
      listen env (listening (tr ++ silences cfg j))
             (SPEECH_RECOGNITION_TIMEOUT cfg) (SPEECH_RECOGNITION_PHRASE_TIME_LIMIT cfg)
        = Raises e
      /\ is_WaitTimeoutError e = true.

Unset Implicit Arguments.

(* ================================================================== *)
(** ** Facts on strings *)
(* ================================================================== *)

Lemma prefix_app (a b : string) : String.prefix a (a ++ b) = true.
Proof.
  induction a as [|c a IH]; simpl; [destruct b; reflexivity|].
  destruct (ascii_dec c c); [exact IH | congruence].
Qed.

Lemma prefix_refl (a : string) : String.prefix a a = true.
Proof.
  induction a as [|c a IH]; simpl; [reflexivity|].
  destruct (ascii_dec c c); [exact IH | congruence].
Qed.

Lemma contains_cons (needle : string) (c : ascii) (hay : string) :
  contains needle (String c hay)
  = if String.prefix needle (String c hay) then true else contains needle hay.
Proof. reflexivity. Qed.

Lemma contains_prefix (needle hay : string) :
  String.prefix needle hay = true -> contains needle hay = true.
Proof.
  intros H. destruct hay.
  - change (contains needle EmptyString)
      with (if String.prefix needle EmptyString then true else false).
    rewrite H. reflexivity.
  - rewrite contains_cons, H. reflexivity.
Qed.

Lemma contains_app_r (needle a hay : string) :
  contains needle hay = true -> contains needle (a ++ hay) = true.
Proof.
  intros H. induction a as [|c a IH]; [exact H|].
  change (String c a ++ hay) with (String c (a ++ hay)).
  rewrite contains_cons, IH.
  destruct (String.prefix needle (String c (a ++ hay))); reflexivity.
Qed.

Lemma contains_middle (needle a b : string) :
  contains needle (a ++ needle ++ b) = true.
Proof. apply contains_app_r, contains_prefix, prefix_app. Qed.

Lemma mem_In (x : string) (l : list string) : mem x l = true <-> In x l.
Proof.
  unfold mem. rewrite existsb_exists. split.
  - intros [y [Hy E]]. apply String.eqb_eq in E. now subst.
  - intros H. exists x. split; [exact H | apply String.eqb_refl].
Qed.

Lemma as_handle_Some (v : option string) (t : string) :
  as_handle v = Some t -> v = Some t /\ nonempty t = true.
Proof.
  destruct v as [u|]; simpl; [|discriminate].
  destruct (nonempty u) eqn:E; [|discriminate].
  intros H. injection H as ->. split; [reflexivity | exact E].
Qed.

Lemma truthy_as_handle (v : option string) :
  truthy v = true -> exists t, as_handle v = Some t.
Proof. unfold truthy. destruct (as_handle v) as [t|]; [eauto | discriminate]. Qed.

Lemma falsy_as_handle (v : option string) :
  truthy v = false -> as_handle v = None.
Proof. unfold truthy. destruct (as_handle v); [discriminate | reflexivity]. Qed.

(* ================================================================== *)
(** ** Facts on the monad *)
(* ================================================================== *)

Lemma log_trace (ev : event) (s : State) : trace (log ev s) = (trace s ++ [ev])%list.
Proof. reflexivity. Qed.

Lemma with_trace_same (s : State) : with_trace s (trace s) = s.
Proof. destruct s; reflexivity. Qed.

Lemma log_with_trace (ev : event) (s : State) (tr : list event) :
  log ev (with_trace s tr) = with_trace s (tr ++ [ev])%list.
Proof. reflexivity. Qed.

Lemma try_except_ret {A} (body : M A) caught handler s a s' :
  body s = (Ret a, s') -> try_except body caught handler s = (Ret a, s').
Proof. unfold try_except. intros ->. reflexivity. Qed.

Lemma try_except_caught {A} (body : M A) caught handler s e s' :
  body s = (Raise e, s') -> caught e = true ->
  try_except body caught handler s = handler e s'.
Proof. unfold try_except. intros -> ->. reflexivity. Qed.

Section EmitsRules.

Variable P : event -> bool.

Lemma emits_ret {A} (a : A) : emits P (ret a).
Proof.
  intros s out s' H. injection H as _ <-. exists [].
  rewrite app_nil_r. auto.
Qed.

Lemma emits_raise {A} (e : exn) : emits P (raise (A:=A) e).
Proof.
  intros s out s' H. injection H as _ <-. exists [].
  rewrite app_nil_r. auto.
Qed.

Lemma emits_running {A} : emits P (running (A:=A)).
Proof.
  intros s out s' H. injection H as _ <-. exists [].
  rewrite app_nil_r. auto.
Qed.

Lemma emits_bind {A B} (m : M A) (k : A -> M B) :
  emits P m -> (forall a, emits P (k a)) -> emits P (bind m k).
Proof.
  intros Hm Hk s out s' H. unfold bind in H.
  destruct (m s) as [[a|e|] s1] eqn:E; destruct (Hm _ _ _ E) as [ev1 [T1 F1]].
  - destruct (Hk a _ _ _ H) as [ev2 [T2 F2]].
    exists (ev1 ++ ev2)%list. rewrite T2, T1, app_assoc, forallb_app, F1, F2. auto.
  - injection H as _ <-. eauto.
  - injection H as _ <-. eauto.
Qed.

Lemma emits_try_except {A} (body : M A) caught handler :
  emits P body -> (forall e, emits P (handler e)) ->
  emits P (try_except body caught handler).
Proof.
  intros Hb Hh s out s' H. unfold try_except in H.
  destruct (body s) as [[a|e|] s1] eqn:E; destruct (Hb _ _ _ E) as [ev1 [T1 F1]].
  - injection H as _ <-. eauto.
  - destruct (caught e).
    + destruct (Hh e _ _ _ H) as [ev2 [T2 F2]].
      exists (ev1 ++ ev2)%list. rewrite T2, T1, app_assoc, forallb_app, F1, F2. auto.
    + injection H as _ <-. eauto.
  - injection H as _ <-. eauto.
Qed.

Lemma emits_try_except2 {A} (body : M A) c1 h1 c2 h2 :
  emits P body -> (forall e, emits P (h1 e)) -> (forall e, emits P (h2 e)) ->
  emits P (try_except2 body c1 h1 c2 h2).
Proof.
  intros Hb H1 H2 s out s' H. unfold try_except2 in H.
  destruct (body s) as [[a|e|] s1] eqn:E; destruct (Hb _ _ _ E) as [ev1 [T1 F1]].
  - injection H as _ <-. eauto.
  - destruct (c1 e); [|destruct (c2 e)].
    + destruct (H1 e _ _ _ H) as [ev2 [T2 F2]].
      exists (ev1 ++ ev2)%list. rewrite T2, T1, app_assoc, forallb_app, F1, F2. auto.
    + destruct (H2 e _ _ _ H) as [ev2 [T2 F2]].
      exists (ev1 ++ ev2)%list. rewrite T2, T1, app_assoc, forallb_app, F1, F2. auto.
    + injection H as _ <-. eauto.
  - injection H as _ <-. eauto.
Qed.

Lemma emits_call {T} (ev : event) (answer : list event -> reply T) :
  P ev = true -> emits P (call ev answer).
Proof.
  intros Hev s out s' H. unfold call in H.
  exists [ev]. destruct (answer (trace s)); injection H as _ <-;
    simpl; rewrite Hev; auto.
Qed.

Lemma emits_call_pure {T} (answer : reply T) : emits P (call_pure answer).
Proof.
  intros s out s' H. unfold call_pure in H. exists [].
  destruct answer; injection H as _ <-; rewrite app_nil_r; auto.
Qed.

Lemma emits_print (line : string) : P (EvPrint line) = true -> emits P (print line).
Proof.
  intros Hev s out s' H. injection H as _ <-. exists [EvPrint line].
  simpl. rewrite Hev. auto.
Qed.

Lemma emits_sleep (n : nat) : P (EvSleep n) = true -> emits P (sleep n).
Proof.
  intros Hev s out s' H. injection H as _ <-. exists [EvSleep n].
  simpl. rewrite Hev. auto.
Qed.

Lemma emits_get_thread_id : emits P get_thread_id.
Proof. intros s out s' H. injection H as _ <-. exists []. rewrite app_nil_r. auto. Qed.

Lemma emits_set_thread_id v : emits P (set_thread_id v).
Proof. intros s out s' H. injection H as _ <-. exists []. simpl. rewrite app_nil_r. auto. Qed.

Lemma emits_get_assistant_id : emits P get_assistant_id.
Proof. intros s out s' H. injection H as _ <-. exists []. rewrite app_nil_r. auto. Qed.

Lemma emits_set_assistant_id v : emits P (set_assistant_id v).
Proof. intros s out s' H. injection H as _ <-. exists []. simpl. rewrite app_nil_r. auto. Qed.

Lemma emits_add_file path : emits P (add_file path).
Proof. intros s out s' H. injection H as _ <-. exists []. simpl. rewrite app_nil_r. auto. Qed.

Lemma emits_os_unlink path : P (EvUnlink path) = true -> emits P (os_unlink path).
Proof.
  intros Hev s out s' H. unfold os_unlink in H. exists [EvUnlink path].
  destruct (mem path (files s)); injection H as _ <-; simpl; rewrite Hev; auto.
Qed.

End EmitsRules.

Section KeepsRules.

Lemma keeps_ret {A} (a : A) : keeps_thread (ret a).
Proof. intros s. reflexivity. Qed.

Lemma keeps_bind {A B} (m : M A) (k : A -> M B) :
  keeps_thread m -> (forall a, keeps_thread (k a)) -> keeps_thread (bind m k).
Proof.
  intros Hm Hk s. unfold bind. specialize (Hm s).
  destruct (m s) as [[a|e|] s1]; simpl in *; [rewrite Hk|..]; exact Hm.
Qed.

Lemma keeps_try_except {A} (body : M A) caught handler :
  keeps_thread body -> (forall e, keeps_thread (handler e)) ->
  keeps_thread (try_except body caught handler).
Proof.
  intros Hb Hh s. unfold try_except. specialize (Hb s).
  destruct (body s) as [[a|e|] s1]; simpl in *; try exact Hb.
  destruct (caught e); simpl; [rewrite Hh|]; exact Hb.
Qed.

Lemma keeps_try_except2 {A} (body : M A) c1 h1 c2 h2 :
  keeps_thread body -> (forall e, keeps_thread (h1 e)) ->
  (forall e, keeps_thread (h2 e)) ->
  keeps_thread (try_except2 body c1 h1 c2 h2).
Proof.
  intros Hb H1 H2 s. unfold try_except2. specialize (Hb s).
  destruct (body s) as [[a|e|] s1]; simpl in *; try exact Hb.
  destruct (c1 e); [|destruct (c2 e)]; simpl;
    [rewrite H1 | rewrite H2 |]; exact Hb.
Qed.

Lemma keeps_call {T} (ev : event) (answer : list event -> reply T) :
  keeps_thread (call ev answer).
Proof. intros s. unfold call. destruct (answer (trace s)); reflexivity. Qed.

Lemma keeps_call_pure {T} (answer : reply T) : keeps_thread (call_pure answer).
Proof. intros s. unfold call_pure. destruct answer; reflexivity. Qed.

Lemma keeps_print (line : string) : keeps_thread (print line).
Proof. intros s. reflexivity. Qed.

Lemma keeps_sleep (n : nat) : keeps_thread (sleep n).
Proof. intros s. reflexivity. Qed.

Lemma keeps_set_assistant_id v : keeps_thread (set_assistant_id v).
Proof. intros s. reflexivity. Qed.

Lemma keeps_add_file path : keeps_thread (add_file path).
Proof. intros s. reflexivity. Qed.

Lemma keeps_os_unlink path : keeps_thread (os_unlink path).
Proof. intros s. unfold os_unlink. destruct (mem path (files s)); reflexivity. Qed.

End KeepsRules.

Ltac keeps_step :=
  match goal with
  | |- keeps_thread (bind _ _) => apply keeps_bind; [|intros ?]
  | |- keeps_thread (ret _) => apply keeps_ret
  | |- keeps_thread (try_except _ _ _) => apply keeps_try_except; [|intros ?]
  | |- keeps_thread (try_except2 _ _ _ _ _) =>
      apply keeps_try_except2; [|intros ?|intros ?]
  | |- keeps_thread (call _ _) => apply keeps_call
  | |- keeps_thread (call_pure _) => apply keeps_call_pure
  | |- keeps_thread (print _) => apply keeps_print
  | |- keeps_thread (sleep _) => apply keeps_sleep
  | |- keeps_thread (set_assistant_id _) => apply keeps_set_assistant_id
  | |- keeps_thread (add_file _) => apply keeps_add_file
  | |- keeps_thread (os_unlink _) => apply keeps_os_unlink
  | |- keeps_thread (match ?x with _ => _ end) => destruct x
  end.

(** Running the monad without unfolding the strings. *)
Ltac run :=
  unfold bind, ret, raise, running, call, call_pure, print, sleep,
    try_except, try_except2, get_thread_id, set_thread_id, get_assistant_id,
    set_assistant_id, add_file;
  cbn [log with_trace trace thread_id assistant_id files fst snd app].

Ltac emits_step :=
  match goal with
  | |- emits _ (bind _ _) => apply emits_bind; [|intros ?]
  | |- emits _ (ret _) => apply emits_ret
  | |- emits _ (raise _) => apply emits_raise
  | |- emits _ running => apply emits_running
  | |- emits _ (try_except _ _ _) => apply emits_try_except; [|intros ?]
  | |- emits _ (try_except2 _ _ _ _ _) => apply emits_try_except2; [|intros ?|intros ?]
  | |- emits _ (call _ _) => apply emits_call; reflexivity
  | |- emits _ (call_pure _) => apply emits_call_pure
  | |- emits _ (print _) => apply emits_print; reflexivity
  | |- emits _ (sleep _) => apply emits_sleep; reflexivity
  | |- emits _ get_thread_id => apply emits_get_thread_id
  | |- emits _ (set_thread_id _) => apply emits_set_thread_id
  | |- emits _ get_assistant_id => apply emits_get_assistant_id
  | |- emits _ (set_assistant_id _) => apply emits_set_assistant_id
  | |- emits _ (add_file _) => apply emits_add_file
  | |- emits _ (os_unlink _) => apply emits_os_unlink; reflexivity
  | |- emits _ (match ?x with _ => _ end) => destruct x
  end.

(* ================================================================== *)
(** ** The conversation session manager *)
(* ================================================================== *)

Section SessionManager.

Variable env : Env.
Variable cfg : Config.

Lemma get_or_create_thread_emits : emits thread_step (get_or_create_thread env).
Proof. unfold get_or_create_thread. repeat emits_step. Qed.

Lemma analyze_audio_guard (fuel : nat) (user_prompt : string) (s : State) :
  truthy (client_api_key cfg) = false \/ truthy (assistant_id s) = false ->
  analyze_audio env cfg fuel user_prompt s = (Ret disabled_message, s).
Proof.
  intros H. unfold analyze_audio, bind, get_assistant_id.
  destruct H as [H|H]; apply falsy_as_handle in H; rewrite H.
  - reflexivity.
  - destruct (as_handle (client_api_key cfg)); reflexivity.
Qed.

(** An operation logged by [analyze_audio] implies that the guard of
    line 66 was passed. *)
Lemma analyze_audio_operation_needs_assistant fuel user_prompt s :
  trace (snd (analyze_audio env cfg fuel user_prompt s)) <> trace s ->
  truthy (client_api_key cfg) = true /\ truthy (assistant_id s) = true.
Proof.
  intros H.
  destruct (truthy (client_api_key cfg)) eqn:K;
    destruct (truthy (assistant_id s)) eqn:A; auto; exfalso; apply H;
    rewrite analyze_audio_guard; auto.
Qed.

(** C10. When the API key is missing or the assistant handle is unset,
    [analyze_audio] returns the fixed "functionalities are disabled"
    message and leaves the state, hence the log of operations, as it
    found it: no thread, message or run operation is performed. *)
Theorem analyze_audio_disabled (fuel : nat) (user_prompt : string) (s : State) :
  truthy (client_api_key cfg) = false \/ truthy (assistant_id s) = false ->
  analyze_audio env cfg fuel user_prompt s = (Ret disabled_message, s)
  /\ contains "functionalities are disabled" disabled_message = true.
Proof.
  intros H. split; [apply analyze_audio_guard; exact H | reflexivity].
Qed.

(** C2. When thread acquisition returns no handle, [analyze_audio]
    returns the failure report as a value, in the very state that
    [get_or_create_thread] left: after the thread operations there is no
    message append, no run creation and no poll. *)
Theorem analyze_audio_without_thread
    (fuel : nat) (user_prompt : string) (s s1 : State) (handle : option string) :
  truthy (client_api_key cfg) = true ->
  truthy (assistant_id s) = true ->
  get_or_create_thread env s = (Ret handle, s1) ->
  truthy handle = false ->
  analyze_audio env cfg fuel user_prompt s = (Ret no_thread_message, s1)
  /\ exists evs, trace s1 = (trace s ++ evs)%list /\ forallb thread_step evs = true.
Proof.
  intros K A G F. split; [|exact (get_or_create_thread_emits _ _ _ G)].
  apply truthy_as_handle in K, A. destruct K as [k K], A as [a A].
  apply falsy_as_handle in F.
  unfold analyze_audio, bind, get_assistant_id. rewrite K, A.
  apply try_except_ret.
  unfold analyze_audio_try, bind. rewrite G, F. reflexivity.
Qed.

(** *** Thread acquisition *)

Lemma get_or_create_thread_reuse (s : State) (t : string) :
  as_handle (thread_id s) = Some t ->
  threads_retrieve env (trace s) t = Returns tt ->
  get_or_create_thread env s = (Ret (Some t), log (EvThreadsRetrieve t) s).
Proof.
  intros C R. destruct (as_handle_Some _ _ C) as [E _].
  unfold get_or_create_thread. run. rewrite C. run. rewrite R. run.
  rewrite E. reflexivity.
Qed.

Lemma get_or_create_thread_recreate (s : State) (t new : string) (e : exn) :
  as_handle (thread_id s) = Some t ->
  threads_retrieve env (trace s) t = Raises e ->
  is_Exception e = true ->
  threads_create env
    (trace s ++ [EvThreadsRetrieve t;
                 EvPrint ("Error retrieving thread: " ++ exn_str e)])%list
    = Returns new ->
  get_or_create_thread env s
  = (Ret (Some new),
     {| thread_id := Some new; assistant_id := assistant_id s;
        trace := trace s ++ [EvThreadsRetrieve t;
                             EvPrint ("Error retrieving thread: " ++ exn_str e);
                             EvThreadsCreate;
                             EvPrint ("New thread created with ID: " ++ new)];
        files := files s |}).
Proof.
  intros C R X N.
  unfold get_or_create_thread. run. rewrite C. run. rewrite R. run.
  rewrite X. run. rewrite <- app_assoc. run. rewrite N. run.
  unfold log. run. rewrite <- !app_assoc. reflexivity.
Qed.

Lemma get_or_create_thread_first (s : State) (new : string) :
  as_handle (thread_id s) = None ->
  threads_create env (trace s) = Returns new ->
  get_or_create_thread env s
  = (Ret (Some new),
     {| thread_id := Some new; assistant_id := assistant_id s;
        trace := trace s ++ [EvThreadsCreate;
                             EvPrint ("New thread created with ID: " ++ new)];
        files := files s |}).
Proof.
  intros C N.
  unfold get_or_create_thread. run. rewrite C. run. rewrite N. run.
  unfold log. run. rewrite <- !app_assoc. reflexivity.
Qed.

Lemma get_or_create_thread_cached (s s' : State) (h : string) :
  get_or_create_thread env s = (Ret (Some h), s') -> thread_id s' = Some h.
Proof.
  unfold get_or_create_thread, bind, get_thread_id, try_except, call, print, ret.
  destruct (as_handle (thread_id s)) as [t|] eqn:C.
  - destruct (as_handle_Some _ _ C) as [E _].
    destruct (threads_retrieve env (trace s) t) as [[]|e].
    + intros H. injection H as H <-. simpl. congruence.
    + destruct (is_Exception e); [|discriminate].
      destruct (threads_create env _) as [new|e'].
      * intros H. injection H as H <-. simpl. congruence.
      * destruct (is_Exception e'); discriminate.
  - destruct (threads_create env _) as [new|e'].
    + intros H. injection H as H <-. simpl. congruence.
    + destruct (is_Exception e'); discriminate.
Qed.

Lemma play_audio_keeps_thread text voice : keeps_thread (play_audio env text voice).
Proof. unfold play_audio, client_is_None. repeat keeps_step. Qed.

Lemma transcribe_audio_keeps_thread audio : keeps_thread (transcribe_audio env audio).
Proof.
  unfold transcribe_audio, client_is_None. repeat keeps_step.
  intros s. reflexivity.
Qed.

Lemma get_audio_input_keeps_thread : keeps_thread (get_audio_input env cfg).
Proof.
  unfold get_audio_input. repeat keeps_step; apply transcribe_audio_keeps_thread.
Qed.

Lemma initialize_assistant_keeps_thread : keeps_thread (initialize_assistant env cfg).
Proof. unfold initialize_assistant. repeat keeps_step. Qed.

(** C9. The cached thread handle is maintained lazily.  A cached handle
    is tried first and reused when its retrieval succeeds, without any
    creation; when its retrieval fails, or when nothing is cached, a
    thread is created and the global is set to the new identifier; after
    every call that returns a handle the global equals that handle; and
    the functions that do not need a thread (start-up, capture,
    transcription, speech) leave the global alone. *)
Theorem get_or_create_thread_lazy (s : State) :
  (forall t,
      as_handle (thread_id s) = Some t ->
      threads_retrieve env (trace s) t = Returns tt ->
      get_or_create_thread env s = (Ret (Some t), log (EvThreadsRetrieve t) s)
      /\ thread_id (log (EvThreadsRetrieve t) s) = Some t)
  /\ (forall t e new,
      as_handle (thread_id s) = Some t ->
      threads_retrieve env (trace s) t = Raises e ->
      is_Exception e = true ->
      threads_create env
        (trace s ++ [EvThreadsRetrieve t;
                     EvPrint ("Error retrieving thread: " ++ exn_str e)])%list
        = Returns new ->
      fst (get_or_create_thread env s) = Ret (Some new)
      /\ thread_id (snd (get_or_create_thread env s)) = Some new)
  /\ (forall new,
      as_handle (thread_id s) = None ->
      threads_create env (trace s) = Returns new ->
      fst (get_or_create_thread env s) = Ret (Some new)
      /\ thread_id (snd (get_or_create_thread env s)) = Some new)
  /\ (forall h s',
      get_or_create_thread env s = (Ret (Some h), s') -> thread_id s' = Some h)
  /\ (thread_id (snd (initialize_assistant env cfg s)) = thread_id s
      /\ thread_id (snd (get_audio_input env cfg s)) = thread_id s
      /\ forall text voice, thread_id (snd (play_audio env text voice s)) = thread_id s).
Proof.
  repeat split.
  - apply get_or_create_thread_reuse; assumption.
  - simpl. apply (as_handle_Some _ _ H).
  - erewrite get_or_create_thread_recreate by eassumption. reflexivity.
  - erewrite get_or_create_thread_recreate by eassumption. reflexivity.
  - erewrite get_or_create_thread_first by eassumption. reflexivity.
  - erewrite get_or_create_thread_first by eassumption. reflexivity.
  - intros h s'. apply get_or_create_thread_cached.
  - apply initialize_assistant_keeps_thread.
  - apply get_audio_input_keeps_thread.
  - intros. apply play_audio_keeps_thread.
Qed.

(** *** The poll loop *)

Lemma poll_run_step (fuel : nat) (tid rid : string) (s : State) (status : string) :
  runs_retrieve env (trace s) tid rid = Returns status ->
  poll_run env (S fuel) tid rid s
  = if status =? "completed" then (Ret None, log (EvRunsRetrieve tid rid) s)
    else if mem status failure_statuses
    then (Ret (Some (run_failed_message status)), log (EvRunsRetrieve tid rid) s)
    else poll_run env fuel tid rid (log (EvSleep 1) (log (EvRunsRetrieve tid rid) s)).
Proof.
  intros H. cbn [poll_run]. run. rewrite H.
  destruct (status =? "completed"); [reflexivity|].
  unfold failure_statuses. destruct (mem status _); reflexivity.
Qed.

Lemma poll_run_raises (fuel : nat) (tid rid : string) (s : State) (e : exn) :
  runs_retrieve env (trace s) tid rid = Raises e ->
  poll_run env (S fuel) tid rid s = (Raise e, log (EvRunsRetrieve tid rid) s).
Proof. intros H. cbn [poll_run]. run. rewrite H. reflexivity. Qed.

Lemma is_terminal_false (status : string) :
  is_terminal status = false ->
  (status =? "completed") = false /\ mem status failure_statuses = false.
Proof. unfold is_terminal. apply orb_false_iff. Qed.

Lemma round_trace (s : State) (tid rid : string) (l : list event) :
  (trace (log (EvSleep 1) (log (EvRunsRetrieve tid rid) s)) ++ l
   = trace s ++ EvRunsRetrieve tid rid :: EvSleep 1 :: l)%list.
Proof. cbn [log trace]. rewrite <- !app_assoc. reflexivity. Qed.

Lemma round_state (s : State) (tid rid : string) (l : list event) :
  with_trace (log (EvSleep 1) (log (EvRunsRetrieve tid rid) s))
             (trace (log (EvSleep 1) (log (EvRunsRetrieve tid rid) s)) ++ l)
  = with_trace s (trace s ++ EvRunsRetrieve tid rid :: EvSleep 1 :: l).
Proof. rewrite round_trace. reflexivity. Qed.

Lemma pending_next (s : State) (tid rid : string) (n : nat) :
  pending env (trace s) tid rid (S n) ->
  pending env (trace (log (EvSleep 1) (log (EvRunsRetrieve tid rid) s))) tid rid n.
Proof.
  intros H k Hk. rewrite round_trace. apply (H (S k)). lia.
Qed.

Lemma pending_first (s : State) (tid rid : string) (n : nat) :
  pending env (trace s) tid rid (S n) ->
  exists status,
    runs_retrieve env (trace s) tid rid = Returns status
    /\ is_terminal status = false.
Proof.
  intros H. destruct (H 0) as [st [R T]]; [lia|].
  cbn [polls] in R. rewrite app_nil_r in R. eauto.
Qed.

Lemma poll_run_still_running (fuel : nat) (tid rid : string) (s : State) :
  pending env (trace s) tid rid fuel ->
  poll_run env fuel tid rid s
  = (Running, with_trace s (trace s ++ polls tid rid fuel)).
Proof.
  revert s. induction fuel as [|fuel IH]; intros s H.
  - cbn [poll_run polls]. rewrite app_nil_r, with_trace_same. reflexivity.
  - destruct (pending_first _ _ _ _ H) as [st [R T]].
    apply is_terminal_false in T. destruct T as [T1 T2].
    rewrite (poll_run_step _ _ _ _ _ R), T1, T2, IH by (apply pending_next; exact H).
    cbn [polls]. rewrite round_state. reflexivity.
Qed.

Lemma poll_run_terminal (n fuel : nat) (tid rid : string) (s : State) (status : string) :
  pending env (trace s) tid rid n ->
  runs_retrieve env (trace s ++ polls tid rid n) tid rid = Returns status ->
  is_terminal status = true ->
  n < fuel ->
  poll_run env fuel tid rid s
  = (Ret (if status =? "completed" then None else Some (run_failed_message status)),
     with_trace s (trace s ++ polls tid rid n ++ [EvRunsRetrieve tid rid])).
Proof.
  revert s fuel. induction n as [|n IH]; intros s fuel P R T L;
    (destruct fuel as [|fuel]; [lia|]).
  - cbn [polls] in *. rewrite app_nil_r in R.
    rewrite (poll_run_step _ _ _ _ _ R). unfold is_terminal in T.
    destruct (status =? "completed"); [reflexivity|].
    cbn [orb] in T. rewrite T. reflexivity.
  - destruct (pending_first _ _ _ _ P) as [st [R0 T0]].
    apply is_terminal_false in T0. destruct T0 as [T1 T2].
    rewrite (poll_run_step _ _ _ _ _ R0), T1, T2.
    rewrite (IH (log (EvSleep 1) (log (EvRunsRetrieve tid rid) s)) fuel).
    + cbn [polls]. rewrite round_state. reflexivity.
    + apply pending_next. exact P.
    + rewrite round_trace. exact R.
    + exact T.
    + lia.
Qed.

Lemma poll_run_interrupted (n fuel : nat) (tid rid : string) (s : State) (e : exn) :
  pending env (trace s) tid rid n ->
  runs_retrieve env (trace s ++ polls tid rid n) tid rid = Raises e ->
  n < fuel ->
  poll_run env fuel tid rid s
  = (Raise e, with_trace s (trace s ++ polls tid rid n ++ [EvRunsRetrieve tid rid])).
Proof.
  revert s fuel. induction n as [|n IH]; intros s fuel P R L;
    (destruct fuel as [|fuel]; [lia|]).
  - cbn [polls] in *. rewrite app_nil_r in R.
    rewrite (poll_run_raises _ _ _ _ _ R). reflexivity.
  - destruct (pending_first _ _ _ _ P) as [st [R0 T0]].
    apply is_terminal_false in T0. destruct T0 as [T1 T2].
    rewrite (poll_run_step _ _ _ _ _ R0), T1, T2.
    rewrite (IH (log (EvSleep 1) (log (EvRunsRetrieve tid rid) s)) fuel).
    + cbn [polls]. rewrite round_state. reflexivity.
    + apply pending_next. exact P.
    + rewrite round_trace. exact R.
    + lia.
Qed.

Lemma failure_status_named (status : string) :
  contains status (run_failed_message status) = true.
Proof.
  unfold run_failed_message. apply contains_app_r, contains_prefix, prefix_refl.
Qed.

(** *** A query, from the message append on *)

Lemma try_bind_ret {A B} (m : M A) (k : A -> M B) caught handler s a s' :
  m s = (Ret a, s') ->
  try_except (bind m k) caught handler s = try_except (k a) caught handler s'.
Proof. intros H. unfold try_except, bind. rewrite H. reflexivity. Qed.

Lemma try_bind_raise {A B} (m : M A) (k : A -> M B) caught handler s e s' :
  m s = (Raise e, s') -> caught e = true ->
  try_except (bind m k) caught handler s = handler e s'.
Proof. intros H C. unfold try_except, bind. rewrite H, C. reflexivity. Qed.

Lemma try_bind_running {A B} (m : M A) (k : A -> M B) caught handler s s' :
  m s = (Running, s') ->
  try_except (bind m k) caught handler s = (Running, s').
Proof. intros H. unfold try_except, bind. rewrite H. reflexivity. Qed.

Section Query.

Variables (fuel : nat) (user_prompt : string) (s s1 : State) (aid tid : string).

Hypothesis key_set : truthy (client_api_key cfg) = true.
Hypothesis assistant_set : as_handle (assistant_id s) = Some aid.
Hypothesis thread_acquired : get_or_create_thread env s = (Ret (Some tid), s1).
Hypothesis thread_usable : nonempty tid = true.

Lemma analyze_audio_acquired :
  analyze_audio env cfg fuel user_prompt s
  = try_except
      (call (EvMessagesCreate tid "user" user_prompt)
            (fun h => messages_create env h tid "user" user_prompt) ;;;
       rid <- call (EvRunsCreate tid aid (run_instructions cfg))
                   (fun h => runs_create env h tid aid (run_instructions cfg)) ;;
       returned <- poll_run env fuel tid rid ;;
       match returned with
       | Some msg => ret msg
       | None => fetch_reply env cfg tid
       end)
      is_Exception (analyze_audio_except cfg) s1.
Proof.
  destruct (truthy_as_handle _ key_set) as [k K].
  unfold analyze_audio at 1. unfold bind at 1. unfold get_assistant_id.
  rewrite K, assistant_set. unfold analyze_audio_try.
  rewrite (try_bind_ret _ _ _ _ _ _ _ thread_acquired).
  cbn [as_handle]. rewrite thread_usable. reflexivity.
Qed.

Lemma analyze_audio_append_fails (e : exn) :
  messages_create env (trace s1) tid "user" user_prompt = Raises e ->
  is_Exception e = true ->
  analyze_audio env cfg fuel user_prompt s
  = (Ret (apology_message cfg),
     with_trace s1 (appended s1 tid user_prompt
                    ++ [EvPrint ("Error in analyze_audio: " ++ exn_str e)])).
Proof.
  intros R X. rewrite analyze_audio_acquired.
  erewrite try_bind_raise; [| unfold call; rewrite R; reflexivity | exact X].
  reflexivity.
Qed.

Hypothesis message_appended :
  messages_create env (trace s1) tid "user" user_prompt = Returns tt.

Lemma analyze_audio_run_creation_fails (e : exn) :
  runs_create env (appended s1 tid user_prompt) tid aid (run_instructions cfg)
    = Raises e ->
  is_Exception e = true ->
  analyze_audio env cfg fuel user_prompt s
  = (Ret (apology_message cfg),
     with_trace s1 (submitted cfg s1 tid aid user_prompt
                    ++ [EvPrint ("Error in analyze_audio: " ++ exn_str e)])).
Proof.
  intros R X. rewrite analyze_audio_acquired.
  erewrite try_bind_ret by (unfold call; rewrite message_appended; reflexivity).
  erewrite try_bind_raise;
    [| unfold call; cbn [log trace]; unfold appended in R; rewrite R; reflexivity
     | exact X].
  unfold analyze_audio_except, submitted. run. unfold log. run.
  rewrite <- !app_assoc. reflexivity.
Qed.

Variable rid : string.

Hypothesis run_created :
  runs_create env (appended s1 tid user_prompt) tid aid (run_instructions cfg)
    = Returns rid.

Lemma analyze_audio_submitted :
  analyze_audio env cfg fuel user_prompt s
  = await_stage env cfg fuel tid rid
      (with_trace s1 (submitted cfg s1 tid aid user_prompt)).
Proof.
  rewrite analyze_audio_acquired.
  erewrite try_bind_ret by (unfold call; rewrite message_appended; reflexivity).
  erewrite try_bind_ret
    by (unfold call; cbn [log trace]; unfold appended in run_created;
        rewrite run_created; reflexivity).
  unfold await_stage, submitted, with_trace, log.
  cbn [trace thread_id assistant_id files].
  rewrite <- !app_assoc. reflexivity.
Qed.

End Query.

(** *** The stage that awaits the run *)

Lemma pending_le (tr : list event) (tid rid : string) (n m : nat) :
  m <= n -> pending env tr tid rid n -> pending env tr tid rid m.
Proof. intros L P k Hk. apply P. lia. Qed.

Lemma poll_run_rounds (n fuel : nat) (tid rid : string) (s : State) :
  pending env (trace s) tid rid n ->
  n <= fuel ->
  poll_run env fuel tid rid s
  = poll_run env (fuel - n) tid rid (with_trace s (trace s ++ polls tid rid n)).
Proof.
  revert s fuel. induction n as [|n IH]; intros s fuel P L.
  - cbn [polls]. rewrite app_nil_r, with_trace_same, Nat.sub_0_r. reflexivity.
  - destruct fuel as [|fuel]; [lia|].
    destruct (pending_first _ _ _ _ P) as [st [R0 T0]].
    apply is_terminal_false in T0. destruct T0 as [T1 T2].
    rewrite (poll_run_step _ _ _ _ _ R0), T1, T2.
    rewrite (IH (log (EvSleep 1) (log (EvRunsRetrieve tid rid) s)) fuel)
      by (try apply pending_next; auto; lia).
    cbn [polls Nat.sub]. rewrite round_state. reflexivity.
Qed.

Lemma await_stage_rounds (n fuel : nat) (tid rid : string) (s : State) :
  pending env (trace s) tid rid n ->
  n <= fuel ->
  await_stage env cfg fuel tid rid s
  = await_stage env cfg (fuel - n) tid rid
      (with_trace s (trace s ++ polls tid rid n)).
Proof.
  intros P L. unfold await_stage, try_except, bind.
  rewrite (poll_run_rounds n fuel tid rid s P L). reflexivity.
Qed.

Lemma await_stage_running (fuel : nat) (tid rid : string) (s : State) :
  pending env (trace s) tid rid fuel ->
  await_stage env cfg fuel tid rid s
  = (Running, with_trace s (trace s ++ polls tid rid fuel)).
Proof.
  intros P. unfold await_stage.
  rewrite (try_bind_running _ _ _ _ _ _ (poll_run_still_running _ _ _ _ P)).
  reflexivity.
Qed.

Lemma await_stage_completed (n fuel : nat) (tid rid : string) (s : State) :
  pending env (trace s) tid rid n ->
  runs_retrieve env (trace s ++ polls tid rid n) tid rid = Returns "completed" ->
  n < fuel ->
  await_stage env cfg fuel tid rid s
  = reply_stage env cfg tid
      (with_trace s (trace s ++ polls tid rid n ++ [EvRunsRetrieve tid rid])).
Proof.
  intros P R L. unfold await_stage.
  rewrite (try_bind_ret _ _ _ _ _ _ _
             (poll_run_terminal n fuel tid rid s "completed" P R eq_refl L)).
  reflexivity.
Qed.

Lemma failure_status_terminal (status : string) :
  In status failure_statuses ->
  is_terminal status = true /\ (status =? "completed") = false.
Proof.
  intros F. split.
  - unfold is_terminal. apply mem_In in F. rewrite F. apply orb_true_r.
  - destruct F as [<-|[<-|[<-|[]]]]; reflexivity.
Qed.

Lemma await_stage_failed (n fuel : nat) (tid rid : string) (s : State) (status : string) :
  pending env (trace s) tid rid n ->
  runs_retrieve env (trace s ++ polls tid rid n) tid rid = Returns status ->
  In status failure_statuses ->
  n < fuel ->
  await_stage env cfg fuel tid rid s
  = (Ret (run_failed_message status),
     with_trace s (trace s ++ polls tid rid n ++ [EvRunsRetrieve tid rid])).
Proof.
  intros P R F L. destruct (failure_status_terminal _ F) as [T C].
  pose proof (poll_run_terminal n fuel tid rid s status P R T L) as H.
  rewrite C in H. unfold await_stage.
  rewrite (try_bind_ret _ _ _ _ _ _ _ H). reflexivity.
Qed.

Lemma await_stage_poll_fails (n fuel : nat) (tid rid : string) (s : State) (e : exn) :
  pending env (trace s) tid rid n ->
  runs_retrieve env (trace s ++ polls tid rid n) tid rid = Raises e ->
  is_Exception e = true ->
  n < fuel ->
  await_stage env cfg fuel tid rid s
  = (Ret (apology_message cfg),
     with_trace s (trace s ++ (polls tid rid n ++ [EvRunsRetrieve tid rid])
                           ++ [EvPrint ("Error in analyze_audio: " ++ exn_str e)])).
Proof.
  intros P R X L. unfold await_stage.
  rewrite (try_bind_raise _ _ _ _ _ _ _
             (poll_run_interrupted n fuel tid rid s e P R L) X).
  unfold analyze_audio_except. run. unfold log. run.
  rewrite <- !app_assoc. reflexivity.
Qed.

(** *** The reply *)




Lemma fetch_reply_raises (tid : string) (s : State) (e : exn) :
  messages_list env (trace s) tid "desc" 1 = Raises e ->
  fetch_reply env cfg tid s = (Raise e, log (EvMessagesList tid "desc" 1) s).
Proof. intros R. unfold fetch_reply. run. rewrite R. reflexivity. Qed.

(** X24. An assistant message without a leading text block: line 104
    raises, and the handler of line 108 answers with the apology. *)
Lemma reply_stage_without_text (tid : string) (s : State) (m : message) rest :
  messages_list env (trace s) tid "desc" 1 = Returns (m :: rest) ->
  role m = "assistant" ->
  (forall value blocks, content m <> TextBlock value :: blocks) ->
  fst (reply_stage env cfg tid s) = Ret (apology_message cfg).
Proof.
  intros R A C. unfold reply_stage, try_except, fetch_reply. run. rewrite R, A.
  destruct (content m) as [|[v|f] blocks]; [reflexivity | | reflexivity].
  exfalso. exact (C v blocks eq_refl).
Qed.


Lemma user_named_in_apology :
  contains (USER_NAME cfg) (apology_message cfg) = true.
Proof. apply contains_middle. Qed.

(** *** Exceptions *)

Lemma get_or_create_thread_raises (s s' : State) (e : exn) :
  get_or_create_thread env s = (Raise e, s') -> is_Exception e = false.
Proof.
  unfold get_or_create_thread. run.
  destruct (as_handle (thread_id s)) as [t|].
  - destruct (threads_retrieve env (trace s) t) as [[]|e0]; [discriminate|].
    destruct (is_Exception e0) eqn:X0.
    + destruct (threads_create env _) as [new|e1]; [discriminate|].
      destruct (is_Exception e1) eqn:X1; [discriminate|].
      intros H. injection H as <- _. exact X1.
    + intros H. injection H as <- _. exact X0.
  - destruct (threads_create env _) as [new|e1]; [discriminate|].
    destruct (is_Exception e1) eqn:X1; [discriminate|].
    intros H. injection H as <- _. exact X1.
Qed.

Lemma get_or_create_thread_creation_fails (s : State) (e : exn) :
  as_handle (thread_id s) = None ->
  threads_create env (trace s) = Raises e ->
  is_Exception e = true ->
  get_or_create_thread env s
  = (Ret None,
     with_trace s (trace s ++ [EvThreadsCreate;
                               EvPrint ("Error creating thread: " ++ exn_str e)])).
Proof.
  intros C R X. unfold get_or_create_thread. run. rewrite C. run. rewrite R. run.
  rewrite X. unfold log. run. rewrite <- !app_assoc. reflexivity.
Qed.

Lemma get_or_create_thread_both_fail (s : State) (t : string) (e e' : exn) :
  as_handle (thread_id s) = Some t ->
  threads_retrieve env (trace s) t = Raises e ->
  is_Exception e = true ->
  threads_create env
    (trace s ++ [EvThreadsRetrieve t;
                 EvPrint ("Error retrieving thread: " ++ exn_str e)])%list
    = Raises e' ->
  is_Exception e' = true ->
  get_or_create_thread env s
  = (Ret None,
     with_trace s (trace s ++ [EvThreadsRetrieve t;
                               EvPrint ("Error retrieving thread: " ++ exn_str e);
                               EvThreadsCreate;
                               EvPrint ("Error creating thread: " ++ exn_str e')])).
Proof.
  intros C R X N X'. unfold get_or_create_thread. run. rewrite C. run. rewrite R. run.
  rewrite X. run. rewrite <- app_assoc. run. rewrite N. run. rewrite X'.
  unfold with_trace, log. run. rewrite <- !app_assoc. reflexivity.
Qed.

Lemma analyze_audio_no_thread (fuel : nat) (user_prompt : string) (s s1 : State) :
  truthy (client_api_key cfg) = true ->
  truthy (assistant_id s) = true ->
  get_or_create_thread env s = (Ret None, s1) ->
  analyze_audio env cfg fuel user_prompt s = (Ret no_thread_message, s1).
Proof.
  intros K A G.
  destruct (truthy_as_handle _ K) as [k Hk]. destruct (truthy_as_handle _ A) as [a Ha].
  unfold analyze_audio, bind, get_assistant_id. rewrite Hk, Ha.
  unfold analyze_audio_try.
  rewrite (try_bind_ret _ _ _ _ _ _ _ G). reflexivity.
Qed.

Lemma analyze_audio_raises (fuel : nat) (user_prompt : string) (s s' : State) (e : exn) :
  analyze_audio env cfg fuel user_prompt s = (Raise e, s') -> is_Exception e = false.
Proof.
  unfold analyze_audio, bind, get_assistant_id.
  destruct (as_handle (client_api_key cfg)); [|discriminate].
  destruct (as_handle (assistant_id s)) as [aid|]; [|discriminate].
  unfold try_except.
  destruct (analyze_audio_try env cfg fuel aid user_prompt s) as [[a|e0|] s2];
    try discriminate.
  destruct (is_Exception e0) eqn:X; [discriminate|].
  intros H. injection H as <- _. exact X.
Qed.

Lemma reply_stage_list_fails (tid : string) (s : State) (e : exn) :
  messages_list env (trace s) tid "desc" 1 = Raises e ->
  is_Exception e = true ->
  reply_stage env cfg tid s
  = (Ret (apology_message cfg),
     with_trace s (trace s ++ [EvMessagesList tid "desc" 1;
                               EvPrint ("Error in analyze_audio: " ++ exn_str e)])).
Proof.
  intros R X. unfold reply_stage.
  rewrite (try_except_caught _ _ _ _ _ _ (fetch_reply_raises _ _ _ R) X).
  unfold analyze_audio_except. run. unfold log. run.
  rewrite <- !app_assoc. reflexivity.
Qed.

(** *** The query path as a whole *)

(** C1. In a query whose message has been appended and whose run has
    been created, let the first [n] status requests be answered by
    non-terminal statuses and the next one by [status].  As long as the
    status is not terminal the loop pauses for 1 and asks again: with fuel
    for at most [n] rounds it is still polling after exactly that many
    rounds, and after a non-terminal [status] it is back at the head of
    the loop after [n + 1] rounds.  On 'completed' it leaves the loop and
    goes on to fetch the reply; on 'failed', 'cancelled' or 'expired' it
    returns "Run failed with status: <status>", which contains the status,
    and requests nothing more. *)
Theorem analyze_audio_poll
    (n fuel : nat) (user_prompt : string) (s s1 : State)
    (aid tid rid status : string) :
  truthy (client_api_key cfg) = true ->
  as_handle (assistant_id s) = Some aid ->
  get_or_create_thread env s = (Ret (Some tid), s1) ->
  nonempty tid = true ->
  messages_create env (trace s1) tid "user" user_prompt = Returns tt ->
  runs_create env (appended s1 tid user_prompt) tid aid (run_instructions cfg)
    = Returns rid ->
  pending env (submitted cfg s1 tid aid user_prompt) tid rid n ->
  runs_retrieve env (submitted cfg s1 tid aid user_prompt ++ polls tid rid n) tid rid
    = Returns status ->
  (fuel <= n ->
     analyze_audio env cfg fuel user_prompt s
     = (Running,
        with_trace s1 (submitted cfg s1 tid aid user_prompt ++ polls tid rid fuel)))
  /\ (n < fuel -> is_terminal status = false ->
      analyze_audio env cfg fuel user_prompt s
      = await_stage env cfg (fuel - S n) tid rid
          (with_trace s1 (submitted cfg s1 tid aid user_prompt
                          ++ polls tid rid (S n))))
  /\ (n < fuel -> status = "completed" ->
      analyze_audio env cfg fuel user_prompt s
      = reply_stage env cfg tid
          (with_trace s1 (polled cfg s1 tid aid rid user_prompt n)))
  /\ (n < fuel -> In status failure_statuses ->
      analyze_audio env cfg fuel user_prompt s
      = (Ret (run_failed_message status),
         with_trace s1 (polled cfg s1 tid aid rid user_prompt n))
      /\ contains status (run_failed_message status) = true).
Proof.
  intros K A G U MA RC P R.
  rewrite (analyze_audio_submitted fuel user_prompt s s1 aid tid K A G U MA rid RC).
  repeat split.
  - intros L.
    apply (await_stage_running fuel tid rid
             (with_trace s1 (submitted cfg s1 tid aid user_prompt))).
    exact (pending_le _ _ _ _ _ L P).
  - intros L T.
    apply (await_stage_rounds (S n) fuel tid rid
             (with_trace s1 (submitted cfg s1 tid aid user_prompt))); [|lia].
    intros k Hk. destruct (Nat.eq_dec k n) as [->|N].
    + exists status. split; assumption.
    + apply P. lia.
  - intros L ->.
    exact (await_stage_completed n fuel tid rid
             (with_trace s1 (submitted cfg s1 tid aid user_prompt)) P R L).
  - exact (await_stage_failed n fuel tid rid
             (with_trace s1 (submitted cfg s1 tid aid user_prompt)) status
             P R H0 H).
  - apply failure_status_named.
Qed.


(** C6, as amended.  [analyze_audio] never propagates an [Exception] to its
    caller.  An [Exception] raised by the message append, by the run
    creation, by a status request or by the message listing is answered by
    the apology, which contains the user's name.  An [Exception] raised by
    the thread retrieval is handled inside [get_or_create_thread], which
    goes on to create a thread; one raised by the thread creation, with
    nothing cached as well as after a failed retrieval of the cached handle,
    is handled there too: no handle is returned (the cached value stays as
    it was) and the query returns the fixed "Failed to create or retrieve a
    thread" report. *)
Theorem analyze_audio_exception_policy :
  (forall fuel user_prompt s e s',
      analyze_audio env cfg fuel user_prompt s = (Raise e, s') ->
      is_Exception e = false)
  /\ contains (USER_NAME cfg) (apology_message cfg) = true
  /\ (forall fuel user_prompt s s1 aid tid e,
        truthy (client_api_key cfg) = true ->
        as_handle (assistant_id s) = Some aid ->
        get_or_create_thread env s = (Ret (Some tid), s1) ->
        nonempty tid = true ->
        is_Exception e = true ->
        (messages_create env (trace s1) tid "user" user_prompt = Raises e ->
         fst (analyze_audio env cfg fuel user_prompt s) = Ret (apology_message cfg))
        /\ (messages_create env (trace s1) tid "user" user_prompt = Returns tt ->
            runs_create env (appended s1 tid user_prompt) tid aid (run_instructions cfg)
              = Raises e ->
            fst (analyze_audio env cfg fuel user_prompt s) = Ret (apology_message cfg))
        /\ (forall rid n,
              messages_create env (trace s1) tid "user" user_prompt = Returns tt ->
              runs_create env (appended s1 tid user_prompt) tid aid (run_instructions cfg)
                = Returns rid ->
              pending env (submitted cfg s1 tid aid user_prompt) tid rid n ->
              n < fuel ->
              (runs_retrieve env (submitted cfg s1 tid aid user_prompt
                                  ++ polls tid rid n) tid rid = Raises e ->
               fst (analyze_audio env cfg fuel user_prompt s) = Ret (apology_message cfg))
              /\ (runs_retrieve env (submitted cfg s1 tid aid user_prompt
                                     ++ polls tid rid n) tid rid = Returns "completed" ->
                  messages_list env (polled cfg s1 tid aid rid user_prompt n) tid "desc" 1
                    = Raises e ->
                  fst (analyze_audio env cfg fuel user_prompt s)
                  = Ret (apology_message cfg))))
  /\ (forall s t e new,
        as_handle (thread_id s) = Some t ->
        threads_retrieve env (trace s) t = Raises e ->
        is_Exception e = true ->
        threads_create env
          (trace s ++ [EvThreadsRetrieve t;
                       EvPrint ("Error retrieving thread: " ++ exn_str e)])%list
          = Returns new ->
        fst (get_or_create_thread env s) = Ret (Some new))
  /\ (forall fuel user_prompt s e,
        truthy (client_api_key cfg) = true ->
        truthy (assistant_id s) = true ->
        as_handle (thread_id s) = None ->
        threads_create env (trace s) = Raises e ->
        is_Exception e = true ->
        fst (analyze_audio env cfg fuel user_prompt s) = Ret no_thread_message)
  /\ (forall fuel user_prompt s t e e',
        truthy (client_api_key cfg) = true ->
        truthy (assistant_id s) = true ->
        as_handle (thread_id s) = Some t ->
        threads_retrieve env (trace s) t = Raises e ->
        is_Exception e = true ->
        threads_create env
          (trace s ++ [EvThreadsRetrieve t;
                       EvPrint ("Error retrieving thread: " ++ exn_str e)])%list
          = Raises e' ->
        is_Exception e' = true ->
        get_or_create_thread env s
        = (Ret None,
           with_trace s
             (trace s ++ [EvThreadsRetrieve t;
                          EvPrint ("Error retrieving thread: " ++ exn_str e);
                          EvThreadsCreate;
                          EvPrint ("Error creating thread: " ++ exn_str e')]))
        /\ analyze_audio env cfg fuel user_prompt s
           = (Ret no_thread_message,
              with_trace s
                (trace s ++ [EvThreadsRetrieve t;
                             EvPrint ("Error retrieving thread: " ++ exn_str e);
                             EvThreadsCreate;
                             EvPrint ("Error creating thread: " ++ exn_str e')])))
  /\ (forall fuel user_prompt s s1,
        truthy (client_api_key cfg) = true ->
        truthy (assistant_id s) = true ->
        get_or_create_thread env s = (Ret None, s1) ->
        analyze_audio env cfg fuel user_prompt s = (Ret no_thread_message, s1)).
Proof.
  split; [intros fuel user_prompt s e s'; apply analyze_audio_raises|].
  split; [exact user_named_in_apology|].
  split; [|split; [|split; [|split]]].
  - intros fuel user_prompt s s1 aid tid e K A G U X. split; [|split].
    + intros R.
      rewrite (analyze_audio_append_fails fuel user_prompt s s1 aid tid K A G U e R X).
      reflexivity.
    + intros MA R.
      rewrite (analyze_audio_run_creation_fails
                 fuel user_prompt s s1 aid tid K A G U MA e R X).
      reflexivity.
    + intros rid n MA RC P L.
      rewrite (analyze_audio_submitted fuel user_prompt s s1 aid tid K A G U MA rid RC).
      split.
      * intros R.
        rewrite (await_stage_poll_fails n fuel tid rid
                   (with_trace s1 (submitted cfg s1 tid aid user_prompt)) e P R X L).
        reflexivity.
      * intros R ML.
        rewrite (await_stage_completed n fuel tid rid
                   (with_trace s1 (submitted cfg s1 tid aid user_prompt)) P R L).
        change (with_trace (with_trace s1 (submitted cfg s1 tid aid user_prompt)) _)
          with (with_trace s1 (polled cfg s1 tid aid rid user_prompt n)).
        rewrite (reply_stage_list_fails tid (with_trace s1 _) e ML X).
        reflexivity.
  - intros s t e new C R X N.
    rewrite (get_or_create_thread_recreate s t new e C R X N). reflexivity.
  - intros fuel user_prompt s e K A C R X.
    destruct (truthy_as_handle _ K) as [k Hk]. destruct (truthy_as_handle _ A) as [a Ha].
    unfold analyze_audio, bind, get_assistant_id. rewrite Hk, Ha.
    unfold analyze_audio_try.
    rewrite (try_bind_ret _ _ _ _ _ _ _ (get_or_create_thread_creation_fails s e C R X)).
    reflexivity.
  - intros fuel user_prompt s t e e' K A C R X N X'.
    pose proof (get_or_create_thread_both_fail s t e e' C R X N X') as G.
    split; [exact G|].
    exact (analyze_audio_no_thread fuel user_prompt s _ K A G).
  - intros fuel user_prompt s s1. apply analyze_audio_no_thread.
Qed.

End SessionManager.

(* ================================================================== *)
(** ** Capture, speech and the orchestrator *)
(* ================================================================== *)

Section Orchestrator.

Variable env : Env.
Variable cfg : Config.

(** *** Laws used to step through the main cycle *)

Lemma bind_print {B} (line : string) (k : unit -> M B) (s : State) :
  bind (print line) k s = k tt (log (EvPrint line) s).
Proof. reflexivity. Qed.

Lemma try2_bind_ret {A B} (m : M A) (k : A -> M B) c1 h1 c2 h2 s a s' :
  m s = (Ret a, s') ->
  try_except2 (bind m k) c1 h1 c2 h2 s = try_except2 (k a) c1 h1 c2 h2 s'.
Proof. intros H. unfold try_except2, bind. rewrite H. reflexivity. Qed.

Lemma try2_bind_print {B} (line : string) (k : unit -> M B) c1 h1 c2 h2 s :
  try_except2 (bind (print line) k) c1 h1 c2 h2 s
  = try_except2 (k tt) c1 h1 c2 h2 (log (EvPrint line) s).
Proof. reflexivity. Qed.

Lemma try2_assoc {A B C} (m : M A) (f : A -> M B) (g : B -> M C) c1 h1 c2 h2 s :
  try_except2 (bind (bind m f) g) c1 h1 c2 h2 s
  = try_except2 (bind m (fun x => bind (f x) g)) c1 h1 c2 h2 s.
Proof.
  unfold try_except2, bind. destruct (m s) as [[a|e|] s1]; reflexivity.
Qed.

Lemma try2_ret {A} (a : A) c1 h1 c2 h2 s :
  try_except2 (ret a) c1 h1 c2 h2 s = (Ret a, s).
Proof. reflexivity. Qed.

(** *** Capture *)

Lemma get_audio_input_timeout (s : State) (e : exn) :
  listen env (listening (trace s))
         (SPEECH_RECOGNITION_TIMEOUT cfg) (SPEECH_RECOGNITION_PHRASE_TIME_LIMIT cfg)
    = Raises e ->
  is_WaitTimeoutError e = true ->
  get_audio_input env cfg s
  = (Ret None, with_trace s (trace s ++ timeout_events cfg)).
Proof.
  intros R W. unfold get_audio_input, listening in *. run.
  rewrite <- app_assoc. cbn [app]. rewrite R, W.
  unfold with_trace, timeout_events, log. run. rewrite <- !app_assoc. reflexivity.
Qed.

Lemma main_cycle_timeout (fuel : nat) (s : State) (e : exn) :
  listen env (listening (trace s))
         (SPEECH_RECOGNITION_TIMEOUT cfg) (SPEECH_RECOGNITION_PHRASE_TIME_LIMIT cfg)
    = Raises e ->
  is_WaitTimeoutError e = true ->
  main_cycle env cfg fuel s
  = (Ret Continue,
     with_trace s (trace s ++ timeout_events cfg
                   ++ [EvPrint "No input detected. Waiting for your command."])).
Proof.
  intros R W. unfold main_cycle.
  rewrite (try2_bind_ret _ _ _ _ _ _ _ _ _ (get_audio_input_timeout s e R W)).
  rewrite try2_bind_print, try2_ret.
  unfold with_trace, log. run. rewrite <- !app_assoc. reflexivity.
Qed.

(** C7. When [listen] times out, [get_audio_input] returns [None]; the
    main cycle ends by [continue], so the loop is back at its head; what has
    been logged is the capture itself and three console lines, none of them
    a remote operation (no transcription, no thread, message or run
    operation, no speech synthesis); the globals and the temporary files are
    as before. *)
Theorem capture_timeout_is_silent (fuel : nat) (s : State) (e : exn) :
  listen env (listening (trace s))
         (SPEECH_RECOGNITION_TIMEOUT cfg) (SPEECH_RECOGNITION_PHRASE_TIME_LIMIT cfg)
    = Raises e ->
  is_WaitTimeoutError e = true ->
  get_audio_input env cfg s
  = (Ret None, with_trace s (trace s ++ timeout_events cfg))
  /\ main_cycle env cfg fuel s
     = (Ret Continue,
        with_trace s (trace s ++ timeout_events cfg
                      ++ [EvPrint "No input detected. Waiting for your command."]))
  /\ main_loop env cfg (S fuel) s
     = main_loop env cfg fuel
         (with_trace s (trace s ++ timeout_events cfg
                        ++ [EvPrint "No input detected. Waiting for your command."]))
  /\ forallb not_remote
       (timeout_events cfg ++ [EvPrint "No input detected. Waiting for your command."])
     = true.
Proof.
  intros R W. split; [|split; [|split]].
  - exact (get_audio_input_timeout s e R W).
  - exact (main_cycle_timeout fuel s e R W).
  - cbn [main_loop]. unfold bind at 1.
    rewrite (main_cycle_timeout fuel s e R W). reflexivity.
  - reflexivity.
Qed.

(** X23. Lines 246-249: a user interrupt during the capture is answered by
    a farewell and ends the loop. *)
Lemma main_cycle_interrupted (fuel : nat) (s s2 : State) (e : exn) :
  listen env (listening (trace s))
         (SPEECH_RECOGNITION_TIMEOUT cfg) (SPEECH_RECOGNITION_PHRASE_TIME_LIMIT cfg)
    = Raises e ->
  is_KeyboardInterrupt e = true ->
  play_audio env ("Thank you for chatting with me. Goodbye, " ++ USER_NAME cfg ++ "!")
    "nova"
    (with_trace s
       (trace s
        ++ [EvPrint "Listening for speech..."; EvAdjustForAmbientNoise;
            EvListen (SPEECH_RECOGNITION_TIMEOUT cfg)
                     (SPEECH_RECOGNITION_PHRASE_TIME_LIMIT cfg);
            EvPrint (nl ++ "Thank you for chatting with Athena. Goodbye, "
                     ++ USER_NAME cfg ++ "!")]))
    = (Ret tt, s2) ->
  main_cycle env cfg fuel s = (Ret Break, s2).
Proof.
  intros R K Pl.
  assert (W : is_WaitTimeoutError e = false).
  { unfold is_KeyboardInterrupt in K. unfold is_WaitTimeoutError.
    destruct (exn_class_of e); (reflexivity || discriminate). }
  assert (G : get_audio_input env cfg s
              = (Raise e,
                 with_trace s
                   (trace s
                    ++ [EvPrint "Listening for speech..."; EvAdjustForAmbientNoise;
                        EvListen (SPEECH_RECOGNITION_TIMEOUT cfg)
                                 (SPEECH_RECOGNITION_PHRASE_TIME_LIMIT cfg)]))).
  { unfold get_audio_input, listening in *. run.
    rewrite <- app_assoc. cbn [app]. rewrite R, W.
    unfold with_trace, log. run. rewrite <- !app_assoc. reflexivity. }
  unfold main_cycle, try_except2. unfold bind at 1. rewrite G, K.
  unfold bind at 1. unfold print at 1.
  change (log _ (with_trace s _)) with
    (with_trace s
       ((trace s
         ++ [EvPrint "Listening for speech..."; EvAdjustForAmbientNoise;
             EvListen (SPEECH_RECOGNITION_TIMEOUT cfg)
                      (SPEECH_RECOGNITION_PHRASE_TIME_LIMIT cfg)])
        ++ [EvPrint (nl ++ "Thank you for chatting with Athena. Goodbye, "
                     ++ USER_NAME cfg ++ "!")])).
  rewrite <- app_assoc. cbn [app]. unfold bind at 1. rewrite Pl. reflexivity.
Qed.

(** *** Transcription *)

Lemma transcribe_audio_unlinks (audio : string) (s : State) (path text : string) :
  named_temporary_file env (trace s) ".wav" = Returns path ->
  transcriptions_create env (trace s ++ [EvNamedTemporaryFile ".wav"])
                        "whisper-1" path "text" = Returns text ->
  fst (transcribe_audio env audio s) = Ret (Some (strip text))
  /\ files (snd (transcribe_audio env audio s))
     = filter (fun p => negb (path =? p)) (files s).
Proof.
  intros N T. unfold transcribe_audio, client_is_None, print_elapsed, os_unlink. run.
  rewrite N. run. rewrite T. run.
  unfold mem. cbn [existsb]. rewrite String.eqb_refl. cbn [orb fst snd files filter negb].
  rewrite String.eqb_refl. split; reflexivity.
Qed.

Lemma transcribe_audio_keeps_file (audio : string) (s : State) (path : string) (e : exn) :
  named_temporary_file env (trace s) ".wav" = Returns path ->
  transcriptions_create env (trace s ++ [EvNamedTemporaryFile ".wav"])
                        "whisper-1" path "text" = Raises e ->
  is_Exception e = true ->
  transcribe_audio env audio s
  = (Ret None,
     {| thread_id := thread_id s; assistant_id := assistant_id s;
        trace := trace s ++ [EvNamedTemporaryFile ".wav";
                             EvTranscriptionsCreate "whisper-1" path "text";
                             EvPrint ("Error in transcribe_audio: " ++ exn_str e)];
        files := path :: files s |}).
Proof.
  intros N T X. unfold transcribe_audio, client_is_None. run.
  rewrite N. run. rewrite T. run. rewrite X.
  unfold log. run. rewrite <- !app_assoc. reflexivity.
Qed.

(** *** Speech *)

Lemma play_audio_trace (text voice : string) (s : State) out s' :
  play_audio env text voice s = (out, s') ->
  exists rest,
    trace s' = (trace s ++ EvSpeechCreate "tts-1" voice text :: rest)%list
    /\ forallb playback_step rest = true.
Proof.
  unfold play_audio, client_is_None. run.
  destruct (speech_create env (trace s) "tts-1" voice text) as [bytes|e];
    [destruct (from_file env bytes "mp3") as [audio|e];
     [destruct (play env _ audio) as [[]|e]|]|];
    try destruct (is_Exception e);
    intros H; injection H as _ <-;
    eexists; cbn [log trace]; rewrite <- ?app_assoc;
    (split; [reflexivity | reflexivity]).
Qed.

(** [play_audio] returns unless the user interrupts it. *)
Lemma play_audio_outcome (text voice : string) (s : State) :
  fst (play_audio env text voice s) = Ret tt
  \/ exists e, fst (play_audio env text voice s) = Raise e /\ is_Exception e = false.
Proof.
  unfold play_audio, client_is_None. run.
  destruct (speech_create env (trace s) "tts-1" voice text) as [bytes|e].
  - destruct (from_file env bytes "mp3") as [audio|e].
    + destruct (play env _ audio) as [[]|e]; [left; reflexivity|].
      destruct (is_Exception e) eqn:X; [left; reflexivity | right; exists e; split; [reflexivity | exact X]].
    + destruct (is_Exception e) eqn:X; [left; reflexivity | right; exists e; split; [reflexivity | exact X]].
  - destruct (is_Exception e) eqn:X; [left; reflexivity | right; exists e; split; [reflexivity | exact X]].
Qed.

(** *** The exit words *)

Lemma main_cycle_farewell (fuel : nat) (s s1 s2 : State) (u : string) :
  get_audio_input env cfg s = (Ret (Some u), s1) ->
  mem (lower u) exit_words = true ->
  play_audio env (farewell cfg) "nova" (log (EvPrint ("Athena: " ++ farewell cfg)) s1)
    = (Ret tt, s2) ->
  main_cycle env cfg fuel s = (Ret Break, s2).
Proof.
  intros G X Pl. unfold main_cycle.
  rewrite (try2_bind_ret _ _ _ _ _ _ _ _ _ G). cbv beta iota. rewrite X.
  rewrite try2_bind_print.
  rewrite (try2_bind_ret _ _ _ _ _ _ _ _ _ Pl). apply try2_ret.
Qed.

(** C3. When the utterance, lowered, is one of 'exit', 'quit', 'goodbye',
    the cycle prints the farewell and speaks it, then leaves the loop by
    [break], and [main_loop] returns normally.  After the capture nothing
    but the farewell is logged: one console line, one speech request whose
    text is the farewell, and its playback; no mode dispatch, no query.  The
    farewell contains the user's name.  (The speech is assumed to run
    without an interrupt from the user.) *)
Theorem main_cycle_exit_word (fuel : nat) (s s1 s2 : State) (u : string) :
  get_audio_input env cfg s = (Ret (Some u), s1) ->
  mem (lower u) exit_words = true ->
  play_audio env (farewell cfg) "nova" (log (EvPrint ("Athena: " ++ farewell cfg)) s1)
    = (Ret tt, s2) ->
  main_cycle env cfg fuel s = (Ret Break, s2)
  /\ main_loop env cfg (S fuel) s = (Ret tt, s2)
  /\ (exists rest,
        trace s2 = (trace s1 ++ EvPrint ("Athena: " ++ farewell cfg)
                             :: EvSpeechCreate "tts-1" "nova" (farewell cfg) :: rest)%list
        /\ forallb playback_step rest = true)
  /\ contains (USER_NAME cfg) (farewell cfg) = true.
Proof.
  intros G X Pl. split; [|split; [|split]].
  - exact (main_cycle_farewell fuel s s1 s2 u G X Pl).
  - cbn [main_loop]. unfold bind at 1.
    rewrite (main_cycle_farewell fuel s s1 s2 u G X Pl). reflexivity.
  - destruct (play_audio_trace _ _ _ _ _ Pl) as [rest [T F]].
    exists rest. split; [|exact F].
    rewrite T. cbn [log trace]. rewrite <- app_assoc. reflexivity.
  - apply contains_middle.
Qed.

(** *** The command-execution session *)

Lemma play_audio_quiet (text voice : string) :
  emits not_session_start (play_audio env text voice).
Proof. unfold play_audio, client_is_None. repeat emits_step. Qed.

Lemma print_elapsed_quiet : emits not_session_start (print_elapsed env).
Proof.
  intros s out s' H. injection H as _ <-. eexists. split; reflexivity.
Qed.

Lemma transcribe_audio_quiet (audio : string) :
  emits not_session_start (transcribe_audio env audio).
Proof.
  unfold transcribe_audio, client_is_None.
  repeat (emits_step || apply print_elapsed_quiet).
Qed.

Lemma get_audio_input_quiet : emits not_session_start (get_audio_input env cfg).
Proof.
  unfold get_audio_input.
  repeat (emits_step || apply transcribe_audio_quiet).
Qed.

Lemma interpreter_loop_quiet (fuel : nat) :
  emits not_session_start (interpreter_loop env cfg fuel).
Proof.
  induction fuel as [|fuel IH]; cbn [interpreter_loop].
  - apply emits_running.
  - unfold forward_command.
    repeat (emits_step || apply get_audio_input_quiet || apply play_audio_quiet
            || exact IH).
Qed.

Lemma trigger_is_no_exit_word (u : string) :
  lower u = trigger_phrase -> mem (lower u) exit_words = false.
Proof. intros ->. reflexivity. Qed.

Lemma main_cycle_session (fuel : nat) (s s1 : State) (u : string) out s' :
  get_audio_input env cfg s = (Ret (Some u), s1) ->
  lower u = trigger_phrase ->
  main_cycle env cfg fuel s = (out, s') ->
  exists rest,
    trace s' = (trace s1 ++ EvPrint (USER_NAME cfg ++ ": " ++ u)
                         :: EvPrint session_start_line :: rest)%list
    /\ forallb not_session_start rest = true.
Proof.
  intros G T. unfold main_cycle.
  rewrite (try2_bind_ret _ _ _ _ _ _ _ _ _ G). cbv beta iota.
  rewrite (trigger_is_no_exit_word u T), try2_bind_print.
  unfold dispatch. rewrite T, String.eqb_refl.
  unfold open_interpreter_session. rewrite !try2_assoc.
  change "Starting Open Interpreter session. Say 'Exit Interpreter' to end the session."
    with session_start_line.
  rewrite try2_bind_print. intros H.
  assert (Q : exists evs,
             trace s' = (trace (log (EvPrint session_start_line)
                                  (log (EvPrint (USER_NAME cfg ++ ": " ++ u)) s1))
                         ++ evs)%list
             /\ forallb not_session_start evs = true).
  { match type of H with
    | ?m _ = _ =>
        assert (E : emits not_session_start m)
          by repeat (emits_step || apply play_audio_quiet
                     || apply interpreter_loop_quiet)
    end.
    exact (E _ _ _ H). }
  destruct Q as [evs [Tr F]]. exists evs. split; [|exact F].
  rewrite Tr. cbn [log trace]. rewrite <- !app_assoc. reflexivity.
Qed.

(** Forwarding a command logs the request to the interpreter and ends
    normally, unless the user interrupts. *)
Lemma forward_command_outcome (u : string) (s1 : State) :
  exists s2 rest,
    trace s2 = (trace s1 ++ EvInterpreterChat u :: rest)%list
    /\ (forward_command env u s1 = (Ret tt, s2)
        \/ exists e, forward_command env u s1 = (Raise e, s2)
                     /\ is_Exception e = false).
Proof.
  destruct (forward_command env u s1) as [o s2] eqn:E.
  assert (Q : (exists rest, trace s2 = (trace s1 ++ EvInterpreterChat u :: rest)%list)
              /\ (o = Ret tt \/ exists e, o = Raise e /\ is_Exception e = false)).
  { revert E. unfold forward_command, try_except, bind at 1, call.
    destruct (interpreter_chat env (trace s1) u) as [response|e].
    - unfold bind, print.
      destruct (play_audio env response "onyx" _) as [o3 s3] eqn:Pl.
      destruct (play_audio_trace _ _ _ _ _ Pl) as [rest [T _]].
      cbn [log trace] in T. rewrite <- !app_assoc in T. cbn [app] in T.
      pose proof (play_audio_outcome response "onyx"
                    (log (EvPrint ("Open Interpreter: " ++ response))
                       (log (EvInterpreterChat u) s1))) as O.
      rewrite Pl in O. cbn [fst] in O.
      destruct O as [->|[e [-> X]]].
      + intros H. injection H as <- <-. split; [eexists; exact T | left; reflexivity].
      + rewrite X. intros H. injection H as <- <-.
        split; [eexists; exact T | right; exists e; split; [reflexivity | exact X]].
    - destruct (is_Exception e) eqn:X.
      + unfold bind, print.
        destruct (play_audio env _ "onyx" _) as [o3 s3] eqn:Pl.
        destruct (play_audio_trace _ _ _ _ _ Pl) as [rest [T _]].
        cbn [log trace] in T. rewrite <- !app_assoc in T. cbn [app] in T.
        pose proof (play_audio_outcome ("Error in Open Interpreter: " ++ exn_str e) "onyx"
                      (log (EvPrint ("Error in Open Interpreter: " ++ exn_str e))
                         (log (EvInterpreterChat u) s1))) as O.
        rewrite Pl in O. cbn [fst] in O.
        intros H. injection H as <- <-. split; [eexists; exact T | exact O].
      + intros H. injection H as <- <-.
        split; [exists []; reflexivity | right; exists e; split; [reflexivity | exact X]]. }
  destruct Q as [[rest T] [->|[e [-> X]]]]; exists s2, rest; (split; [exact T|]).
  - left. reflexivity.
  - right. exists e. split; [reflexivity | exact X].
Qed.

(** X25. Inside the session an outer exit word is a command like any other:
    it is forwarded to the interpreter and the session goes on. *)
Lemma interpreter_loop_forwards_exit_word (fuel : nat) (s s1 : State) (u : string) :
  get_audio_input env cfg s = (Ret (Some u), s1) ->
  mem (lower u) exit_words = true ->
  exists s2 rest,
    trace s2 = (trace s1 ++ EvInterpreterChat u :: rest)%list
    /\ (interpreter_loop env cfg (S fuel) s = interpreter_loop env cfg fuel s2
        \/ exists e, interpreter_loop env cfg (S fuel) s = (Raise e, s2)
                     /\ is_Exception e = false).
Proof.
  intros G X.
  assert (N : (lower u =? interpreter_exit_phrase) = false).
  { apply mem_In in X. destruct X as [<-|[<-|[<-|[]]]]; reflexivity. }
  assert (Eq : interpreter_loop env cfg (S fuel) s
               = bind (forward_command env u)
                      (fun _ => interpreter_loop env cfg fuel) s1).
  { cbn [interpreter_loop]. unfold bind at 1. rewrite G, N. reflexivity. }
  rewrite Eq. unfold bind.
  destruct (forward_command_outcome u s1) as [s2 [rest [T [E|[e [E Xe]]]]]];
    exists s2, rest; (split; [exact T|]); rewrite E.
  - left. reflexivity.
  - right. exists e. split; [reflexivity | exact Xe].
Qed.

End Orchestrator.

(* ================================================================== *)
(** ** Scenarios *)
(* ================================================================== *)

Import Script.

(** C8: the code does not do what the claim says.  With a transcription
    request that raises, [transcribe_audio] returns [None] and the
    temporary file it created is still there: [os.unlink] of line 202 is
    reached only when the request succeeds, as the second run shows. *)
Theorem transcribe_audio_leaks_on_error :
  transcribe_audio (to_env transcription_down) "wav" ready
  = (Ret None,
     {| thread_id := None; assistant_id := Some "asst_1";
        trace := [EvNamedTemporaryFile ".wav";
                  EvTranscriptionsCreate "whisper-1" "/tmp/tmpa1b2c3.wav" "text";
                  EvPrint "Error in transcribe_audio: Connection error."];
        files := ["/tmp/tmpa1b2c3.wav"] |})
  /\ files (snd (transcribe_audio (to_env healthy) "wav" ready)) = [].
Proof.
  split.
  - exact (transcribe_audio_keeps_file (to_env transcription_down) "wav" ready
             "/tmp/tmpa1b2c3.wav" api_error eq_refl eq_refl eq_refl).
  - reflexivity.
Qed.

(** C6 as stated fails at the thread creation: the service raises, the
    query returns, but what it returns is not the apology and does not
    contain the user's name. *)
Lemma thread_creation_failure_is_no_apology :
  threads_create (to_env thread_down) (trace ready) = Raises api_error
  /\ is_Exception api_error = true
  /\ fst (analyze_audio (to_env thread_down) config 3 "hello" ready)
     = Ret no_thread_message
  /\ no_thread_message <> apology_message config
  /\ contains (USER_NAME config) no_thread_message = false.
Proof.
  split; [reflexivity|]. split; [reflexivity|]. split; [reflexivity|].
  split; [discriminate | reflexivity].
Qed.

(** C1 on a run that is queued at the first request and expired at the
    second. *)
Lemma analyze_audio_poll_witness :
  analyze_audio (to_env run_expired) config 5 "what's the weather" ready
  = (Ret (run_failed_message "expired"),
     with_trace (snd (get_or_create_thread (to_env run_expired) ready))
       (polled config (snd (get_or_create_thread (to_env run_expired) ready))
               "thread_1" "asst_1" "run_1" "what's the weather" 1))
  /\ contains "expired" (run_failed_message "expired") = true.
Proof.
  refine (proj2 (proj2 (proj2
            (analyze_audio_poll (to_env run_expired) config 1 5
               "what's the weather" ready
               (snd (get_or_create_thread (to_env run_expired) ready))
               "asst_1" "thread_1" "run_1" "expired" _ _ _ _ _ _ _ _))) _ _);
    try reflexivity.
  - intros k Hk. destruct k as [|k]; [|lia].
    exists "queued". split; reflexivity.
  - lia.
  - right. right. left. reflexivity.
Defined.

(** C2 on a service that cannot create a thread. *)
Lemma analyze_audio_without_thread_witness :
  analyze_audio (to_env thread_down) config 3 "hello" ready
  = (Ret no_thread_message, snd (get_or_create_thread (to_env thread_down) ready))
  /\ exists evs,
       trace (snd (get_or_create_thread (to_env thread_down) ready))
       = (trace ready ++ evs)%list
       /\ forallb thread_step evs = true.
Proof.
  apply (analyze_audio_without_thread (to_env thread_down) config 3 "hello" ready
           (snd (get_or_create_thread (to_env thread_down) ready)) None);
    reflexivity.
Defined.

(** C10 before the assistant has been initialised. *)
Lemma analyze_audio_disabled_witness :
  analyze_audio (to_env healthy) config 3 "hello" initial_state
  = (Ret disabled_message, initial_state)
  /\ contains "functionalities are disabled" disabled_message = true.
Proof.
  apply (analyze_audio_disabled (to_env healthy) config 3 "hello" initial_state).
  right. reflexivity.
Defined.


(** C7 with a silent user. *)
Lemma capture_timeout_is_silent_witness :
  get_audio_input (to_env (says [])) config ready
  = (Ret None, with_trace ready (trace ready ++ timeout_events config))
  /\ main_cycle (to_env (says [])) config 3 ready
     = (Ret Continue,
        with_trace ready
          (trace ready ++ timeout_events config
           ++ [EvPrint "No input detected. Waiting for your command."]))
  /\ main_loop (to_env (says [])) config 4 ready
     = main_loop (to_env (says [])) config 3
         (with_trace ready
            (trace ready ++ timeout_events config
             ++ [EvPrint "No input detected. Waiting for your command."]))
  /\ forallb not_remote
       (timeout_events config
        ++ [EvPrint "No input detected. Waiting for your command."]) = true.
Proof.
  apply (capture_timeout_is_silent (to_env (says [])) config 3 ready
           (mkExn WaitTimeoutError
                  "listening timed out while waiting for phrase to start"));
    reflexivity.
Defined.

(** C3 on the utterance "Goodbye". *)
Lemma main_cycle_exit_word_witness :
  main_cycle (to_env (says ["Goodbye"])) config 3 ready
  = (Ret Break,
     snd (play_audio (to_env (says ["Goodbye"])) (farewell config) "nova"
            (log (EvPrint ("Athena: " ++ farewell config))
               (snd (get_audio_input (to_env (says ["Goodbye"])) config ready)))))
  /\ contains "Aaron" (farewell config) = true.
Proof.
  destruct (main_cycle_exit_word (to_env (says ["Goodbye"])) config 3 ready
              (snd (get_audio_input (to_env (says ["Goodbye"])) config ready))
              (snd (play_audio (to_env (says ["Goodbye"])) (farewell config) "nova"
                      (log (EvPrint ("Athena: " ++ farewell config))
                         (snd (get_audio_input (to_env (says ["Goodbye"]))
                                 config ready)))))
              "Goodbye" eq_refl eq_refl eq_refl) as [H1 [_ [_ H4]]].
  split; [exact H1 | exact H4].
Defined.

(** C9 with a cached thread that the service no longer knows. *)
Lemma get_or_create_thread_lazy_witness :
  fst (get_or_create_thread (to_env thread_lost) resumed) = Ret (Some "thread_2")
  /\ thread_id (snd (get_or_create_thread (to_env thread_lost) resumed))
     = Some "thread_2".
Proof.
  exact (proj1 (proj2 (get_or_create_thread_lazy (to_env thread_lost) config resumed))
           "thread_1" (mkExn OtherException "No thread found with id 'thread_1'.")
           "thread_2" eq_refl eq_refl eq_refl eq_refl).
Defined.

(** C6, as amended, on a message append that raises. *)
Lemma analyze_audio_exception_policy_witness :
  fst (analyze_audio (to_env append_down) config 3 "hello" ready)
  = Ret (apology_message config).
Proof.
  exact (proj1 (proj1 (proj2 (proj2
           (analyze_audio_exception_policy (to_env append_down) config)))
           3 "hello" ready (snd (get_or_create_thread (to_env append_down) ready))
           "asst_1" "thread_1" api_error eq_refl eq_refl eq_refl eq_refl eq_refl)
           eq_refl).
Defined.

(** The first end-to-end scenario of the specification: the question is
    transcribed, submitted to the thread, the run completes, and the
    assistant's text is printed and spoken as it is. *)
Example weather_scenario :
  exists before after s',
    main_cycle (to_env healthy) config 5 ready = (Ret EndOfBody, s')
    /\ trace s' = (before
                   ++ [EvMessagesCreate "thread_1" "user" "what's the weather"]
                   ++ after
                   ++ [EvPrint "Athena: It is sunny.";
                       EvSpeechCreate "tts-1" "nova" "It is sunny.";
                       EvPlay "mp3"; EvSleep 1])%list.
Proof.
  eexists (firstn 12 (trace (snd (main_cycle (to_env healthy) config 5 ready)))).
  eexists (firstn 7 (skipn 13 (trace (snd (main_cycle (to_env healthy) config 5 ready))))).
  eexists. split; vm_compute; reflexivity.
Qed.

(** The second one: the trigger phrase opens the session, a command is
    forwarded and its answer spoken, the exit phrase ends the session, and
    the main loop is listening again (it is out of fuel, not finished). *)
Example interpreter_scenario :
  let run := main_loop
               (to_env (says ["Start Open Interpreter"; "list files"; "Exit Interpreter"]))
               config 4 ready in
  fst run = Running
  /\ filter (fun ev => is_session_start ev || Script.is_chat ev || is_speech ev)
            (trace (snd run))
     = [EvPrint session_start_line;
        EvSpeechCreate "tts-1" "onyx"
          "Entering Open Interpreter mode. Say 'Exit Interpreter' to end the session.";
        EvInterpreterChat "list files";
        EvSpeechCreate "tts-1" "onyx" "file_a file_b";
        EvSpeechCreate "tts-1" "onyx" "Exiting Open Interpreter mode.";
        EvSpeechCreate "tts-1" "nova" "Open Interpreter session ended."].
Proof. vm_compute. split; reflexivity. Qed.

(** Ctrl-C while listening: one farewell, and the loop ends. *)
Example interrupt_scenario :
  let sc := {| retrieve_thread := Returns tt;
               create_thread := Returns "thread_1";
               append_message := Returns tt;
               create_run := Returns "run_1";
               statuses := [];
               thread_messages := Returns [];
               captures := [Raises interrupt];
               transcripts := hears;
               speech := Returns "mp3";
               chat := [] |} in
  fst (main_loop (to_env sc) config 3 ready) = Ret tt
  /\ filter is_speech (trace (snd (main_loop (to_env sc) config 3 ready)))
     = [EvSpeechCreate "tts-1" "nova" "Thank you for chatting with me. Goodbye, Aaron!"].
Proof. vm_compute. split; reflexivity. Qed.

(* ================================================================== *)
(** ** Further properties of the code *)
(* ================================================================== *)

(** *** Rules for frames and for containment *)

Section FrameRules.

Context {X : Type} (f : State -> X).

Lemma frame_bind {A B} (m : M A) (k : A -> M B) :
  frame f m -> (forall a, frame f (k a)) -> frame f (bind m k).
Proof.
  intros Hm Hk s. unfold bind. specialize (Hm s).
  destruct (m s) as [[a|e|] s1]; cbn [snd] in *; [rewrite Hk|..]; exact Hm.
Qed.

Lemma frame_try_except {A} (body : M A) caught handler :
  frame f body -> (forall e, frame f (handler e)) ->
  frame f (try_except body caught handler).
Proof.
  intros Hb Hh s. unfold try_except. specialize (Hb s).
  destruct (body s) as [[a|e|] s1]; cbn [snd] in *; try exact Hb.
  destruct (caught e); cbn [snd]; [rewrite Hh|]; exact Hb.
Qed.

Lemma frame_try_except2 {A} (body : M A) c1 h1 c2 h2 :
  frame f body -> (forall e, frame f (h1 e)) -> (forall e, frame f (h2 e)) ->
  frame f (try_except2 body c1 h1 c2 h2).
Proof.
  intros Hb H1 H2 s. unfold try_except2. specialize (Hb s).
  destruct (body s) as [[a|e|] s1]; cbn [snd] in *; try exact Hb.
  destruct (c1 e); [|destruct (c2 e)]; cbn [snd];
    [rewrite H1 | rewrite H2 |]; exact Hb.
Qed.

Lemma frame_call {T} (ev : event) (answer : list event -> reply T) :
  (forall s, f (log ev s) = f s) -> frame f (call ev answer).
Proof.
  intros H s. unfold call. destruct (answer (trace s)); cbn [snd]; apply H.
Qed.

Lemma frame_call_pure {T} (answer : reply T) : frame f (call_pure answer).
Proof. intros s. unfold call_pure. destruct answer; reflexivity. Qed.

End FrameRules.

Ltac frame_step :=
  match goal with
  | |- frame _ (bind _ _) => apply frame_bind; [|intros ?]
  | |- frame _ (try_except _ _ _) => apply frame_try_except; [|intros ?]
  | |- frame _ (try_except2 _ _ _ _ _) =>
      apply frame_try_except2; [|intros ?|intros ?]
  | |- frame _ (call _ _) => apply frame_call; intros ?; reflexivity
  | |- frame _ (call_pure _) => apply frame_call_pure
  | |- frame _ (os_unlink _) =>
      let s := fresh "s" in
      intros s; unfold os_unlink; destruct (mem _ (files s)); reflexivity
  | |- frame _ (match ?x with _ => _ end) => destruct x
  | |- frame _ _ => solve [intros ?; reflexivity]
  end.

Lemma interrupt_is_not_Exception (e : exn) :
  is_KeyboardInterrupt e = true -> is_Exception e = false.
Proof.
  unfold is_Exception, is_KeyboardInterrupt.
  destruct (exn_class_of e); (reflexivity || discriminate).
Qed.

Section ContainedRules.

Lemma contained_ret {A} (a : A) : contained (ret a).
Proof. intros s e s' H. discriminate. Qed.

Lemma contained_running {A} : contained (running (A:=A)).
Proof. intros s e s' H. discriminate. Qed.

Lemma contained_print (line : string) : contained (print line).
Proof. intros s e s' H. discriminate. Qed.

Lemma contained_sleep (n : nat) : contained (sleep n).
Proof. intros s e s' H. discriminate. Qed.

Lemma contained_bind {A B} (m : M A) (k : A -> M B) :
  contained m -> (forall a, contained (k a)) -> contained (bind m k).
Proof.
  intros Hm Hk s e s' H. unfold bind in H.
  destruct (m s) as [[a|e0|] s1] eqn:E.
  - exact (Hk a _ _ _ H).
  - injection H as <- _. exact (Hm _ _ _ E).
  - discriminate.
Qed.

(** A handler for [Exception] contains whatever its body does, provided
    the handler itself is contained. *)
Lemma contained_try_except {A} (body : M A) (handler : exn -> M A) :
  (forall e, contained (handler e)) ->
  contained (try_except body is_Exception handler).
Proof.
  intros Hh s e s' H. unfold try_except in H.
  destruct (body s) as [[a|e0|] s1]; try discriminate.
  destruct (is_Exception e0) eqn:X.
  - exact (Hh e0 _ _ _ H).
  - injection H as <- _. exact X.
Qed.

(** The two clauses of the main loop: what neither of them catches is no
    [Exception]. *)
Lemma contained_try_except2 {A} (body : M A) (h1 h2 : exn -> M A) :
  (forall e, contained (h1 e)) -> (forall e, contained (h2 e)) ->
  contained (try_except2 body is_KeyboardInterrupt h1 is_Exception h2).
Proof.
  intros H1 H2 s e s' H. unfold try_except2 in H.
  destruct (body s) as [[a|e0|] s1]; try discriminate.
  destruct (is_KeyboardInterrupt e0) eqn:K.
  - exact (H1 e0 _ _ _ H).
  - destruct (is_Exception e0) eqn:X.
    + exact (H2 e0 _ _ _ H).
    + injection H as <- _. exact X.
Qed.

(** Clauses for particular classes let the other exceptions through. *)
Lemma contained_try_except2_body {A} (body : M A) c1 h1 c2 h2 :
  contained body -> (forall e, contained (h1 e)) -> (forall e, contained (h2 e)) ->
  contained (try_except2 body c1 h1 c2 h2).
Proof.
  intros Hb H1 H2 s e s' H. unfold try_except2 in H.
  destruct (body s) as [[a|e0|] s1] eqn:E; try discriminate.
  destruct (c1 e0); [exact (H1 e0 _ _ _ H)|].
  destruct (c2 e0); [exact (H2 e0 _ _ _ H)|].
  injection H as <- _. exact (Hb _ _ _ E).
Qed.

End ContainedRules.

(** *** Start-up *)

Section Startup.

Variable env : Env.
Variable cfg : Config.

Lemma initialize_assistant_emits : emits startup_step (initialize_assistant env cfg).
Proof. unfold initialize_assistant. repeat emits_step. Qed.

Lemma initialize_assistant_contained : contained (initialize_assistant env cfg).
Proof.
  unfold initialize_assistant. apply contained_bind.
  - destruct (as_handle (ASSISTANT_ID cfg)); [|apply contained_ret].
    apply contained_try_except. intros e.
    apply contained_bind; [apply contained_print | intros; apply contained_ret].
  - intros [v|]; [apply contained_ret|].
    apply contained_try_except. intros e.
    apply contained_bind; [apply contained_print | intros; apply contained_ret].
Qed.

Lemma initialize_assistant_keeps_files : frame files (initialize_assistant env cfg).
Proof. unfold initialize_assistant. repeat frame_step. Qed.

(** X1. Whatever the service answers, [initialize_assistant] lets no
    [Exception] out; when it returns a handle the global [assistant_id] is
    that handle, when it returns [None] the global is as before; the cached
    thread and the temporary files are never touched. *)
Theorem initialize_assistant_handle (s : State) :
  (forall e s', initialize_assistant env cfg s = (Raise e, s') -> is_Exception e = false)
  /\ (forall h s', initialize_assistant env cfg s = (Ret (Some h), s') ->
                   assistant_id s' = Some h)
  /\ (forall s', initialize_assistant env cfg s = (Ret None, s') ->
                 assistant_id s' = assistant_id s)
  /\ thread_id (snd (initialize_assistant env cfg s)) = thread_id s
  /\ files (snd (initialize_assistant env cfg s)) = files s.
Proof.
  split; [intros e s'; apply initialize_assistant_contained|].
  split; [|split; [|split]].
  - intros h s'. unfold initialize_assistant. run.
    destruct (as_handle (ASSISTANT_ID cfg)) as [a|].
    + destruct (assistants_retrieve env (trace s) a) as [id|e].
      * intros H. injection H as H <-. cbn. congruence.
      * destruct (is_Exception e); [|discriminate].
        destruct (assistants_create env _ _ _ _ _) as [id|e'].
        -- intros H. injection H as H <-. cbn. congruence.
        -- destruct (is_Exception e'); discriminate.
    + destruct (assistants_create env _ _ _ _ _) as [id|e'].
      * intros H. injection H as H <-. cbn. congruence.
      * destruct (is_Exception e'); discriminate.
  - intros s'. unfold initialize_assistant. run.
    destruct (as_handle (ASSISTANT_ID cfg)) as [a|].
    + destruct (assistants_retrieve env (trace s) a) as [id|e]; [discriminate|].
      destruct (is_Exception e); [|discriminate].
      destruct (assistants_create env _ _ _ _ _) as [id|e']; [discriminate|].
      destruct (is_Exception e'); [|discriminate].
      intros H. injection H as <-. reflexivity.
    + destruct (assistants_create env _ _ _ _ _) as [id|e']; [discriminate|].
      destruct (is_Exception e'); [|discriminate].
      intros H. injection H as <-. reflexivity.
  - apply initialize_assistant_keeps_thread.
  - apply initialize_assistant_keeps_files.
Qed.

Lemma initialize_assistant_existing (s : State) (a id : string) :
  as_handle (ASSISTANT_ID cfg) = Some a ->
  assistants_retrieve env (trace s) a = Returns id ->
  initialize_assistant env cfg s
  = (Ret (Some id),
     {| thread_id := thread_id s; assistant_id := Some id;
        trace := trace s ++ [EvAssistantsRetrieve a;
                             EvPrint ("Using existing assistant with ID: " ++ id)];
        files := files s |}).
Proof.
  intros C R. unfold initialize_assistant. run. rewrite C. run. rewrite R.
  unfold log. run. rewrite <- !app_assoc. reflexivity.
Qed.

Lemma initialize_assistant_replaced (s : State) (a id : string) (e : exn) :
  as_handle (ASSISTANT_ID cfg) = Some a ->
  assistants_retrieve env (trace s) a = Raises e ->
  is_Exception e = true ->
  assistants_create env
    (trace s ++ [EvAssistantsRetrieve a;
                 EvPrint ("Error retrieving assistant: " ++ exn_str e)])%list
    "Athena" (ATHENA_INSTRUCTIONS cfg) (OPENAI_MODEL cfg) (ATHENA_TOOLS cfg)
    = Returns id ->
  initialize_assistant env cfg s
  = (Ret (Some id),
     {| thread_id := thread_id s; assistant_id := Some id;
        trace := trace s ++ [EvAssistantsRetrieve a;
                             EvPrint ("Error retrieving assistant: " ++ exn_str e);
                             EvAssistantsCreate "Athena" (ATHENA_INSTRUCTIONS cfg)
                               (OPENAI_MODEL cfg) (ATHENA_TOOLS cfg);
                             EvPrint ("New assistant created with ID: " ++ id)];
        files := files s |}).
Proof.
  intros C R X N. unfold initialize_assistant. run. rewrite C. run. rewrite R. run.
  rewrite X. run. rewrite <- app_assoc. run. rewrite N.
  unfold log. run. rewrite <- !app_assoc. reflexivity.
Qed.

Lemma initialize_assistant_new (s : State) (id : string) :
  as_handle (ASSISTANT_ID cfg) = None ->
  assistants_create env (trace s)
    "Athena" (ATHENA_INSTRUCTIONS cfg) (OPENAI_MODEL cfg) (ATHENA_TOOLS cfg)
    = Returns id ->
  initialize_assistant env cfg s
  = (Ret (Some id),
     {| thread_id := thread_id s; assistant_id := Some id;
        trace := trace s ++ [EvAssistantsCreate "Athena" (ATHENA_INSTRUCTIONS cfg)
                               (OPENAI_MODEL cfg) (ATHENA_TOOLS cfg);
                             EvPrint ("New assistant created with ID: " ++ id)];
        files := files s |}).
Proof.
  intros C N. unfold initialize_assistant. run. rewrite C. run. rewrite N.
  unfold log. run. rewrite <- !app_assoc. reflexivity.
Qed.

Lemma initialize_assistant_fails (s : State) (e : exn) :
  as_handle (ASSISTANT_ID cfg) = None ->
  assistants_create env (trace s)
    "Athena" (ATHENA_INSTRUCTIONS cfg) (OPENAI_MODEL cfg) (ATHENA_TOOLS cfg)
    = Raises e ->
  is_Exception e = true ->
  initialize_assistant env cfg s
  = (Ret None,
     with_trace s (trace s ++ [EvAssistantsCreate "Athena" (ATHENA_INSTRUCTIONS cfg)
                                 (OPENAI_MODEL cfg) (ATHENA_TOOLS cfg);
                               EvPrint ("Error creating assistant: " ++ exn_str e)])).
Proof.
  intros C N X. unfold initialize_assistant. run. rewrite C. run. rewrite N. run.
  rewrite X. unfold with_trace, log. run. rewrite <- !app_assoc. reflexivity.
Qed.

Lemma initialize_assistant_both_fail (s : State) (a : string) (e e' : exn) :
  as_handle (ASSISTANT_ID cfg) = Some a ->
  assistants_retrieve env (trace s) a = Raises e ->
  is_Exception e = true ->
  assistants_create env
    (trace s ++ [EvAssistantsRetrieve a;
                 EvPrint ("Error retrieving assistant: " ++ exn_str e)])%list
    "Athena" (ATHENA_INSTRUCTIONS cfg) (OPENAI_MODEL cfg) (ATHENA_TOOLS cfg)
    = Raises e' ->
  is_Exception e' = true ->
  initialize_assistant env cfg s
  = (Ret None,
     with_trace s
       (trace s ++ [EvAssistantsRetrieve a;
                    EvPrint ("Error retrieving assistant: " ++ exn_str e);
                    EvAssistantsCreate "Athena" (ATHENA_INSTRUCTIONS cfg)
                      (OPENAI_MODEL cfg) (ATHENA_TOOLS cfg);
                    EvPrint ("Error creating assistant: " ++ exn_str e')])).
Proof.
  intros C R X N X'. unfold initialize_assistant. run. rewrite C. run. rewrite R. run.
  rewrite X. run. rewrite <- app_assoc. run. rewrite N. run. rewrite X'.
  unfold with_trace, log. run. rewrite <- !app_assoc. reflexivity.
Qed.

(** X2. A configured assistant identifier is retrieved first and, when the
    retrieval succeeds, reused with no creation.  When the retrieval raises
    an [Exception], or when no identifier is configured (then without any
    retrieval), an assistant is created with the fixed name "Athena" and the
    configured instructions, model and tools, and its identifier becomes the
    handle.  When the creation raises too, after a failed retrieval as
    well as without any retrieval, the result is [None] and the global
    [assistant_id] is as before. *)
Theorem initialize_assistant_fallback (s : State) :
  (forall a id,
      as_handle (ASSISTANT_ID cfg) = Some a ->
      assistants_retrieve env (trace s) a = Returns id ->
      fst (initialize_assistant env cfg s) = Ret (Some id)
      /\ trace (snd (initialize_assistant env cfg s))
         = (trace s ++ [EvAssistantsRetrieve a;
                        EvPrint ("Using existing assistant with ID: " ++ id)])%list)
  /\ (forall a e id,
        as_handle (ASSISTANT_ID cfg) = Some a ->
        assistants_retrieve env (trace s) a = Raises e ->
        is_Exception e = true ->
        assistants_create env
          (trace s ++ [EvAssistantsRetrieve a;
                       EvPrint ("Error retrieving assistant: " ++ exn_str e)])%list
          "Athena" (ATHENA_INSTRUCTIONS cfg) (OPENAI_MODEL cfg) (ATHENA_TOOLS cfg)
          = Returns id ->
        fst (initialize_assistant env cfg s) = Ret (Some id)
        /\ trace (snd (initialize_assistant env cfg s))
           = (trace s ++ [EvAssistantsRetrieve a;
                          EvPrint ("Error retrieving assistant: " ++ exn_str e);
                          EvAssistantsCreate "Athena" (ATHENA_INSTRUCTIONS cfg)
                            (OPENAI_MODEL cfg) (ATHENA_TOOLS cfg);
                          EvPrint ("New assistant created with ID: " ++ id)])%list)
  /\ (forall id,
        as_handle (ASSISTANT_ID cfg) = None ->
        assistants_create env (trace s)
          "Athena" (ATHENA_INSTRUCTIONS cfg) (OPENAI_MODEL cfg) (ATHENA_TOOLS cfg)
          = Returns id ->
        fst (initialize_assistant env cfg s) = Ret (Some id)
        /\ trace (snd (initialize_assistant env cfg s))
           = (trace s ++ [EvAssistantsCreate "Athena" (ATHENA_INSTRUCTIONS cfg)
                            (OPENAI_MODEL cfg) (ATHENA_TOOLS cfg);
                          EvPrint ("New assistant created with ID: " ++ id)])%list)
  /\ (forall e,
        as_handle (ASSISTANT_ID cfg) = None ->
        assistants_create env (trace s)
          "Athena" (ATHENA_INSTRUCTIONS cfg) (OPENAI_MODEL cfg) (ATHENA_TOOLS cfg)
          = Raises e ->
        is_Exception e = true ->
        fst (initialize_assistant env cfg s) = Ret None)
  /\ (forall a e e',
        as_handle (ASSISTANT_ID cfg) = Some a ->
        assistants_retrieve env (trace s) a = Raises e ->
        is_Exception e = true ->
        assistants_create env
          (trace s ++ [EvAssistantsRetrieve a;
                       EvPrint ("Error retrieving assistant: " ++ exn_str e)])%list
          "Athena" (ATHENA_INSTRUCTIONS cfg) (OPENAI_MODEL cfg) (ATHENA_TOOLS cfg)
          = Raises e' ->
        is_Exception e' = true ->
        initialize_assistant env cfg s
        = (Ret None,
           with_trace s
             (trace s ++ [EvAssistantsRetrieve a;
                          EvPrint ("Error retrieving assistant: " ++ exn_str e);
                          EvAssistantsCreate "Athena" (ATHENA_INSTRUCTIONS cfg)
                            (OPENAI_MODEL cfg) (ATHENA_TOOLS cfg);
                          EvPrint ("Error creating assistant: " ++ exn_str e')])))
  /\ (forall e,
        as_handle (ASSISTANT_ID cfg) = None ->
        assistants_create env (trace s)
          "Athena" (ATHENA_INSTRUCTIONS cfg) (OPENAI_MODEL cfg) (ATHENA_TOOLS cfg)
          = Raises e ->
        is_Exception e = true ->
        assistant_id (snd (initialize_assistant env cfg s)) = assistant_id s).
Proof.
  split; [|split; [|split; [|split; [|split]]]].
  - intros a id C R. rewrite (initialize_assistant_existing s a id C R).
    split; reflexivity.
  - intros a e id C R X N. rewrite (initialize_assistant_replaced s a id e C R X N).
    split; reflexivity.
  - intros id C N. rewrite (initialize_assistant_new s id C N). split; reflexivity.
  - intros e C N X. rewrite (initialize_assistant_fails s e C N X). reflexivity.
  - intros a e e' C R X N X'. exact (initialize_assistant_both_fail s a e e' C R X N X').
  - intros e C N X. rewrite (initialize_assistant_fails s e C N X). reflexivity.
Qed.

Lemma main_unfold (fuel : nat) (s s1 : State) (r : option string) :
  initialize_assistant env cfg (started cfg s) = (Ret r, s1) ->
  main env cfg fuel s
  = (if negb (truthy r) then print "Failed to initialize assistant. Exiting."
     else
       print ("Athena: " ++ welcome_message cfg) ;;;
       play_audio env (welcome_message cfg) "nova" ;;;
       print "Listening for speech..." ;;;
       main_loop env cfg fuel) (with_assistant s1 r).
Proof.
  intros I. unfold main. rewrite !bind_print.
  change (log _ (log _ s)) with (started cfg s).
  unfold bind at 1. rewrite I. reflexivity.
Qed.

(** X3. When no assistant can be initialised, [main] returns normally
    whatever the fuel, without entering the loop: after the two start-up
    lines the log holds only the operations on the assistant and console
    lines, the last of which reports the failure; nothing is spoken and
    nothing is captured. *)
Theorem main_without_assistant (fuel : nat) (s s1 : State) (r : option string) :
  initialize_assistant env cfg (started cfg s) = (Ret r, s1) ->
  truthy r = false ->
  main env cfg fuel s
  = (Ret tt, log (EvPrint "Failed to initialize assistant. Exiting.")
               (with_assistant s1 r))
  /\ exists evs,
       trace s1 = (trace (started cfg s) ++ evs)%list
       /\ forallb startup_step evs = true.
Proof.
  intros I F. split.
  - rewrite (main_unfold fuel s s1 r I), F. reflexivity.
  - exact (initialize_assistant_emits _ _ _ I).
Qed.

End Startup.

(** *** Speech, transcription and capture *)

Section Collaborators.

Variable env : Env.
Variable cfg : Config.

Lemma play_audio_contained_rule (text voice : string) :
  contained (play_audio env text voice).
Proof.
  unfold play_audio. apply contained_try_except. intros e. apply contained_print.
Qed.

Lemma play_audio_keeps_assistant (text voice : string) :
  frame assistant_id (play_audio env text voice).
Proof. unfold play_audio, client_is_None. repeat frame_step. Qed.

Lemma play_audio_keeps_files (text voice : string) :
  frame files (play_audio env text voice).
Proof. unfold play_audio, client_is_None. repeat frame_step. Qed.

(** X4. [play_audio] lets no [Exception] out.  It sends exactly one
    synthesis request, for the given text and voice with the model "tts-1";
    what follows in the log is the playback or a console line.  The globals
    and the temporary files are as before. *)
Theorem play_audio_contained (text voice : string) (s : State) :
  (forall e s', play_audio env text voice s = (Raise e, s') -> is_Exception e = false)
  /\ (exists rest,
        trace (snd (play_audio env text voice s))
        = (trace s ++ EvSpeechCreate "tts-1" voice text :: rest)%list
        /\ forallb playback_step rest = true)
  /\ thread_id (snd (play_audio env text voice s)) = thread_id s
  /\ assistant_id (snd (play_audio env text voice s)) = assistant_id s
  /\ files (snd (play_audio env text voice s)) = files s.
Proof.
  split; [intros e s'; apply play_audio_contained_rule|].
  split; [|split; [|split]].
  - destruct (play_audio env text voice s) as [out s'] eqn:E.
    exact (play_audio_trace env text voice s out s' E).
  - apply play_audio_keeps_thread.
  - apply play_audio_keeps_assistant.
  - apply play_audio_keeps_files.
Qed.

Lemma play_audio_no_speech (text voice : string) (s : State) (e : exn) :
  speech_create env (trace s) "tts-1" voice text = Raises e ->
  is_Exception e = true ->
  play_audio env text voice s
  = (Ret tt,
     with_trace s (trace s ++ [EvSpeechCreate "tts-1" voice text;
                               EvPrint ("Error in play_audio: " ++ exn_str e)])).
Proof.
  intros R X. unfold play_audio, client_is_None. run. rewrite R, X.
  unfold with_trace, log. run. rewrite <- !app_assoc. reflexivity.
Qed.

Lemma play_audio_no_decoding (text voice : string) (s : State) (bytes : string) (e : exn) :
  speech_create env (trace s) "tts-1" voice text = Returns bytes ->
  from_file env bytes "mp3" = Raises e ->
  is_Exception e = true ->
  play_audio env text voice s
  = (Ret tt,
     with_trace s (trace s ++ [EvSpeechCreate "tts-1" voice text;
                               EvPrint ("Error in play_audio: " ++ exn_str e)])).
Proof.
  intros R D X. unfold play_audio, client_is_None. run. rewrite R, D, X.
  unfold with_trace, log. run. rewrite <- !app_assoc. reflexivity.
Qed.

(** X5. When the synthesis request raises an [Exception], or when the
    audio it returned cannot be decoded, [play_audio] plays nothing: it
    prints "Error in play_audio: ..." with the exception's text and returns
    normally. *)
Theorem play_audio_failure_is_silent (text voice : string) (s : State) :
  (forall e,
      speech_create env (trace s) "tts-1" voice text = Raises e ->
      is_Exception e = true ->
      play_audio env text voice s
      = (Ret tt,
         with_trace s (trace s ++ [EvSpeechCreate "tts-1" voice text;
                                   EvPrint ("Error in play_audio: " ++ exn_str e)])))
  /\ (forall bytes e,
        speech_create env (trace s) "tts-1" voice text = Returns bytes ->
        from_file env bytes "mp3" = Raises e ->
        is_Exception e = true ->
        play_audio env text voice s
        = (Ret tt,
           with_trace s (trace s ++ [EvSpeechCreate "tts-1" voice text;
                                     EvPrint ("Error in play_audio: " ++ exn_str e)]))).
Proof.
  split.
  - intros e. apply play_audio_no_speech.
  - intros bytes e. apply play_audio_no_decoding.
Qed.

(** X6. With an assistant handle, [main] prints and speaks the greeting,
    which contains the user's name, prints "Listening for speech..." and
    enters the loop with the global [assistant_id] set to the handle.  (The
    greeting is assumed to run without an interrupt from the user.) *)
Theorem main_greets_then_listens (fuel : nat) (s s1 s2 : State) (r : option string) :
  initialize_assistant env cfg (started cfg s) = (Ret r, s1) ->
  truthy r = true ->
  play_audio env (welcome_message cfg) "nova"
    (log (EvPrint ("Athena: " ++ welcome_message cfg)) (with_assistant s1 r))
    = (Ret tt, s2) ->
  main env cfg fuel s
  = main_loop env cfg fuel (log (EvPrint "Listening for speech...") s2)
  /\ assistant_id (log (EvPrint "Listening for speech...") s2) = r
  /\ (exists rest,
        trace s2 = (trace s1 ++ EvPrint ("Athena: " ++ welcome_message cfg)
                    :: EvSpeechCreate "tts-1" "nova" (welcome_message cfg) :: rest)%list
        /\ forallb playback_step rest = true)
  /\ contains (USER_NAME cfg) (welcome_message cfg) = true.
Proof.
  intros I T Pl. split; [|split; [|split]].
  - rewrite (main_unfold env cfg fuel s s1 r I), T. cbn [negb].
    rewrite bind_print. unfold bind at 1. rewrite Pl. rewrite bind_print. reflexivity.
  - pose proof (play_audio_keeps_assistant (welcome_message cfg) "nova"
                  (log (EvPrint ("Athena: " ++ welcome_message cfg))
                     (with_assistant s1 r))) as K.
    rewrite Pl in K. exact K.
  - destruct (play_audio_trace env _ _ _ _ _ Pl) as [rest [Tr F]].
    exists rest. split; [|exact F]. rewrite Tr. cbn [log trace with_assistant].
    rewrite <- app_assoc. reflexivity.
  - apply contains_middle.
Qed.

Lemma filter_fresh (path : string) (l : list string) :
  ~ In path l -> filter (fun p => negb (path =? p)) l = l.
Proof.
  induction l as [|p l IH]; intros N; [reflexivity|].
  cbn [filter]. destruct (String.eqb_spec path p) as [->|D].
  - exfalso. apply N. left. reflexivity.
  - cbn [negb]. rewrite IH; [reflexivity|]. intros H. apply N. right. exact H.
Qed.

Lemma transcribe_audio_contained_rule (audio : string) :
  contained (transcribe_audio env audio).
Proof.
  unfold transcribe_audio, client_is_None. apply contained_try_except. intros e.
  apply contained_bind; [apply contained_print | intros; apply contained_ret].
Qed.

Lemma transcribe_audio_keeps_assistant (audio : string) :
  frame assistant_id (transcribe_audio env audio).
Proof. unfold transcribe_audio, client_is_None, print_elapsed. repeat frame_step. Qed.

(** X7. When the request succeeds, [transcribe_audio] returns the
    transcript stripped of surrounding white space and deletes the
    temporary file it created: with a fresh file name the files are as
    before, and the log shows creation, request, timing line and deletion,
    in this order. *)
Theorem transcribe_audio_cleans_up (audio : string) (s : State) (path text : string) :
  named_temporary_file env (trace s) ".wav" = Returns path ->
  ~ In path (files s) ->
  transcriptions_create env (trace s ++ [EvNamedTemporaryFile ".wav"])
                        "whisper-1" path "text" = Returns text ->
  transcribe_audio env audio s
  = (Ret (Some (strip text)),
     with_trace s
       (trace s
        ++ [EvNamedTemporaryFile ".wav";
            EvTranscriptionsCreate "whisper-1" path "text";
            EvPrint ("Time to transcribe audio: "
                     ++ elapsed env (trace s
                                     ++ [EvNamedTemporaryFile ".wav";
                                         EvTranscriptionsCreate "whisper-1" path "text"])
                     ++ " seconds");
            EvUnlink path])).
Proof.
  intros N F T. unfold transcribe_audio, client_is_None, print_elapsed, os_unlink. run.
  rewrite N. run. rewrite T. run.
  unfold mem. cbn [existsb]. rewrite String.eqb_refl. cbn [orb filter].
  rewrite String.eqb_refl. cbn [negb]. rewrite (filter_fresh path (files s) F).
  unfold with_trace. rewrite <- !app_assoc. reflexivity.
Qed.

Lemma transcribe_audio_no_file (audio : string) (s : State) (e : exn) :
  named_temporary_file env (trace s) ".wav" = Raises e ->
  is_Exception e = true ->
  transcribe_audio env audio s
  = (Ret None,
     with_trace s (trace s ++ [EvNamedTemporaryFile ".wav";
                               EvPrint ("Error in transcribe_audio: " ++ exn_str e)])).
Proof.
  intros N X. unfold transcribe_audio, client_is_None. run. rewrite N. run.
  rewrite X. unfold with_trace, log. run. rewrite <- !app_assoc. reflexivity.
Qed.

(** X8. [transcribe_audio] lets no [Exception] out and leaves the two
    globals alone.  When the temporary file cannot be created it returns
    [None] at once: no transcription is requested and no file is left. *)
Theorem transcribe_audio_contained (audio : string) (s : State) :
  (forall e s', transcribe_audio env audio s = (Raise e, s') -> is_Exception e = false)
  /\ thread_id (snd (transcribe_audio env audio s)) = thread_id s
  /\ assistant_id (snd (transcribe_audio env audio s)) = assistant_id s
  /\ (forall e,
        named_temporary_file env (trace s) ".wav" = Raises e ->
        is_Exception e = true ->
        transcribe_audio env audio s
        = (Ret None,
           with_trace s (trace s ++ [EvNamedTemporaryFile ".wav";
                                     EvPrint ("Error in transcribe_audio: "
                                              ++ exn_str e)]))).
Proof.
  split; [intros e s'; apply transcribe_audio_contained_rule|].
  split; [apply transcribe_audio_keeps_thread|].
  split; [apply transcribe_audio_keeps_assistant|].
  intros e. apply transcribe_audio_no_file.
Qed.

Lemma transcribe_audio_result (audio : string) (s s' : State) (t : string) :
  transcribe_audio env audio s = (Ret (Some t), s') ->
  exists h path text,
    transcriptions_create env h "whisper-1" path "text" = Returns text
    /\ t = strip text.
Proof.
  unfold transcribe_audio, client_is_None, print_elapsed, os_unlink. run.
  destruct (named_temporary_file env (trace s) ".wav") as [path|e].
  - run.
    destruct (transcriptions_create env (trace s ++ [EvNamedTemporaryFile ".wav"])
                                    "whisper-1" path "text") as [text|e] eqn:T.
    + run. destruct (mem path (path :: files s)).
      * intros H. injection H as H _. subst t. eauto.
      * destruct (is_Exception _); discriminate.
    + destruct (is_Exception e); discriminate.
  - destruct (is_Exception e); discriminate.
Qed.

Lemma get_audio_input_keeps_assistant :
  frame assistant_id (get_audio_input env cfg).
Proof.
  unfold get_audio_input.
  repeat (frame_step || apply transcribe_audio_keeps_assistant).
Qed.

(** X9. An utterance returned by [get_audio_input] is never empty: it is
    the text returned by a transcription request, stripped, and that is
    not the empty string.  The capture leaves the two globals alone. *)
Theorem get_audio_input_nonempty (s s' : State) (u : string) :
  get_audio_input env cfg s = (Ret (Some u), s') ->
  nonempty u = true
  /\ (exists h path text,
        transcriptions_create env h "whisper-1" path "text" = Returns text
        /\ u = strip text)
  /\ thread_id s' = thread_id s
  /\ assistant_id s' = assistant_id s.
Proof.
  intros H.
  assert (Q : nonempty u = true
              /\ exists h path text,
                   transcriptions_create env h "whisper-1" path "text" = Returns text
                   /\ u = strip text).
  { revert H. unfold get_audio_input. run.
    destruct (listen env _ _ _) as [audio|e].
    - run.
      destruct (transcribe_audio env audio _) as [[[t|]|e|] s1] eqn:E.
      + destruct (as_handle (Some t)) as [t'|] eqn:A; [|discriminate].
        destruct (as_handle_Some _ _ A) as [Et Ne]. injection Et as <-.
        intros H. injection H as <- _. split; [exact Ne|].
        exact (transcribe_audio_result audio _ _ _ E).
      + cbn [as_handle]. discriminate.
      + destruct (is_UnknownValueError e); [discriminate|].
        destruct (is_RequestError e); discriminate.
      + discriminate.
    - destruct (is_WaitTimeoutError e); discriminate. }
  destruct Q as [Ne Tr]. split; [exact Ne|]. split; [exact Tr|]. split.
  - pose proof (get_audio_input_keeps_thread env cfg s) as K.
    rewrite H in K. exact K.
  - pose proof (get_audio_input_keeps_assistant s) as K.
    rewrite H in K. exact K.
Qed.

Lemma captured_trace (s : State) :
  trace (log (EvPrint "Processing...")
           (log (EvListen (SPEECH_RECOGNITION_TIMEOUT cfg)
                          (SPEECH_RECOGNITION_PHRASE_TIME_LIMIT cfg))
              (log EvAdjustForAmbientNoise
                 (log (EvPrint "Listening for speech...") s))))
  = captured cfg (trace s).
Proof. unfold captured. cbn [log trace]. rewrite <- !app_assoc. reflexivity. Qed.

Lemma get_audio_input_heard (s : State) (audio : string) :
  listen env (listening (trace s))
         (SPEECH_RECOGNITION_TIMEOUT cfg) (SPEECH_RECOGNITION_PHRASE_TIME_LIMIT cfg)
    = Returns audio ->
  forall out s1,
    transcribe_audio env audio
      (log (EvPrint "Processing...")
         (log (EvListen (SPEECH_RECOGNITION_TIMEOUT cfg)
                        (SPEECH_RECOGNITION_PHRASE_TIME_LIMIT cfg))
            (log EvAdjustForAmbientNoise
               (log (EvPrint "Listening for speech...") s))))
    = (Ret out, s1) ->
    get_audio_input env cfg s
    = match as_handle out with
      | Some t => (Ret (Some t), log (EvPrint ("Transcribed audio: " ++ t)) s1)
      | None => (Ret None,
                 log (EvPrint "No speech detected or transcription failed.") s1)
      end.
Proof.
  intros L out s1 E. unfold get_audio_input, listening in *. run.
  rewrite <- app_assoc. cbn [app]. rewrite L. run. rewrite E.
  destruct (as_handle out); reflexivity.
Qed.

(** X10. A capture that cannot be understood is no utterance: when the
    transcript is empty once stripped, and also when the transcription
    request raises an [Exception], [get_audio_input] returns [None], and the
    last line it prints is "No speech detected or transcription failed.". *)
Theorem get_audio_input_blank (s : State) (audio path : string) :
  listen env (listening (trace s))
         (SPEECH_RECOGNITION_TIMEOUT cfg) (SPEECH_RECOGNITION_PHRASE_TIME_LIMIT cfg)
    = Returns audio ->
  named_temporary_file env (captured cfg (trace s)) ".wav" = Returns path ->
  (forall text,
      transcriptions_create env (captured cfg (trace s) ++ [EvNamedTemporaryFile ".wav"])
                            "whisper-1" path "text" = Returns text ->
      nonempty (strip text) = false ->
      fst (get_audio_input env cfg s) = Ret None
      /\ exists before,
           trace (snd (get_audio_input env cfg s))
           = (before ++ [EvPrint "No speech detected or transcription failed."])%list)
  /\ (forall e,
        transcriptions_create env (captured cfg (trace s) ++ [EvNamedTemporaryFile ".wav"])
                              "whisper-1" path "text" = Raises e ->
        is_Exception e = true ->
        fst (get_audio_input env cfg s) = Ret None
        /\ exists before,
             trace (snd (get_audio_input env cfg s))
             = (before ++ [EvPrint "No speech detected or transcription failed."])%list).
Proof.
  intros L N. rewrite <- captured_trace in N.
  pose proof (get_audio_input_heard s audio L) as G.
  set (s0 := log (EvPrint "Processing...") _) in *. split.
  - intros text T B. rewrite <- (captured_trace s) in T. fold s0 in T.
    destruct (transcribe_audio_unlinks env audio s0 path text N T) as [F _].
    destruct (transcribe_audio env audio s0) as [out s1] eqn:E.
    cbn [fst] in F. subst out.
    rewrite (G _ _ eq_refl). cbn [as_handle]. rewrite B.
    split; [reflexivity|]. eexists. reflexivity.
  - intros e T X. rewrite <- (captured_trace s) in T. fold s0 in T.
    rewrite (G _ _ (transcribe_audio_keeps_file env audio s0 path e N T X)).
    cbn [as_handle]. split; [reflexivity|]. eexists. reflexivity.
Qed.

End Collaborators.

(** *** The command-execution session *)

Section Session.

Variable env : Env.
Variable cfg : Config.

Lemma interpreter_loop_heard (fuel : nat) (s s1 : State) (u : string) :
  get_audio_input env cfg s = (Ret (Some u), s1) ->
  interpreter_loop env cfg (S fuel) s
  = (if lower u =? interpreter_exit_phrase then
       play_audio env "Exiting Open Interpreter mode." "onyx" ;;;
       ret "Open Interpreter session ended."
     else forward_command env u ;;; interpreter_loop env cfg fuel) s1.
Proof. intros G. cbn [interpreter_loop]. unfold bind at 1. rewrite G. reflexivity. Qed.

(** X11. Inside the session, an utterance that is "exit interpreter" up
    to case ends the session: "Exiting Open Interpreter mode." is spoken
    with the voice "onyx", the loop returns "Open Interpreter session
    ended.", and the utterance is not forwarded to the interpreter (after
    the capture the log has the speech request and its playback only). *)
Theorem session_exit_phrase (fuel : nat) (s s1 s2 : State) (u : string) :
  get_audio_input env cfg s = (Ret (Some u), s1) ->
  lower u = interpreter_exit_phrase ->
  play_audio env "Exiting Open Interpreter mode." "onyx" s1 = (Ret tt, s2) ->
  interpreter_loop env cfg (S fuel) s = (Ret "Open Interpreter session ended.", s2)
  /\ exists rest,
       trace s2 = (trace s1 ++ EvSpeechCreate "tts-1" "onyx"
                                 "Exiting Open Interpreter mode." :: rest)%list
       /\ forallb playback_step rest = true.
Proof.
  intros G X Pl. split.
  - rewrite (interpreter_loop_heard fuel s s1 u G), X, String.eqb_refl.
    unfold bind. rewrite Pl. reflexivity.
  - exact (play_audio_trace env _ _ _ _ _ Pl).
Qed.

(** X12. A command is forwarded as it was heard; the interpreter's answer
    is printed after "Open Interpreter: " and spoken with the voice "onyx",
    and the session goes on with the next capture. *)
Theorem session_speaks_answer
    (fuel : nat) (s s1 s2 : State) (u response : string) :
  get_audio_input env cfg s = (Ret (Some u), s1) ->
  (lower u =? interpreter_exit_phrase) = false ->
  interpreter_chat env (trace s1) u = Returns response ->
  play_audio env response "onyx"
    (log (EvPrint ("Open Interpreter: " ++ response)) (log (EvInterpreterChat u) s1))
    = (Ret tt, s2) ->
  interpreter_loop env cfg (S fuel) s = interpreter_loop env cfg fuel s2
  /\ exists rest,
       trace s2 = (trace s1 ++ EvInterpreterChat u
                    :: EvPrint ("Open Interpreter: " ++ response)
                    :: EvSpeechCreate "tts-1" "onyx" response :: rest)%list
       /\ forallb playback_step rest = true.
Proof.
  intros G N C Pl. split.
  - rewrite (interpreter_loop_heard fuel s s1 u G), N.
    unfold bind at 1, forward_command, try_except, bind at 1, call.
    rewrite C. rewrite bind_print, Pl. reflexivity.
  - destruct (play_audio_trace env _ _ _ _ _ Pl) as [rest [T F]].
    exists rest. split; [|exact F]. rewrite T. cbn [log trace].
    rewrite <- !app_assoc. reflexivity.
Qed.

(** X13. A command on which the interpreter raises an [Exception] does
    not end the session: "Error in Open Interpreter: ..." with the
    exception's text is printed and spoken with the voice "onyx", and the
    session goes on with the next capture. *)
Theorem session_survives_command_failure
    (fuel : nat) (s s1 s2 : State) (u : string) (e : exn) :
  get_audio_input env cfg s = (Ret (Some u), s1) ->
  (lower u =? interpreter_exit_phrase) = false ->
  interpreter_chat env (trace s1) u = Raises e ->
  is_Exception e = true ->
  play_audio env ("Error in Open Interpreter: " ++ exn_str e) "onyx"
    (log (EvPrint ("Error in Open Interpreter: " ++ exn_str e))
       (log (EvInterpreterChat u) s1))
    = (Ret tt, s2) ->
  interpreter_loop env cfg (S fuel) s = interpreter_loop env cfg fuel s2
  /\ exists rest,
       trace s2 = (trace s1 ++ EvInterpreterChat u
                    :: EvPrint ("Error in Open Interpreter: " ++ exn_str e)
                    :: EvSpeechCreate "tts-1" "onyx"
                         ("Error in Open Interpreter: " ++ exn_str e) :: rest)%list
       /\ forallb playback_step rest = true.
Proof.
  intros G N C X Pl. split.
  - rewrite (interpreter_loop_heard fuel s s1 u G), N.
    unfold bind at 1, forward_command, try_except, bind at 1, call.
    rewrite C, X. cbv zeta. rewrite bind_print, Pl. reflexivity.
  - destruct (play_audio_trace env _ _ _ _ _ Pl) as [rest [T F]].
    exists rest. split; [|exact F]. rewrite T. cbn [log trace].
    rewrite <- !app_assoc. reflexivity.
Qed.

(** X14. A capture that times out inside the session changes nothing: a
    console line is printed and the session goes on; no remote operation is
    performed and the globals and files are as before. *)
Theorem session_ignores_silence (fuel : nat) (s : State) (e : exn) :
  listen env (listening (trace s))
         (SPEECH_RECOGNITION_TIMEOUT cfg) (SPEECH_RECOGNITION_PHRASE_TIME_LIMIT cfg)
    = Raises e ->
  is_WaitTimeoutError e = true ->
  interpreter_loop env cfg (S fuel) s
  = interpreter_loop env cfg fuel (with_trace s (trace s ++ silent_round cfg))
  /\ forallb not_remote (silent_round cfg) = true.
Proof.
  intros R W. split; [|reflexivity].
  cbn [interpreter_loop]. unfold bind at 1.
  rewrite (get_audio_input_timeout env cfg s e R W). rewrite bind_print.
  unfold silent_round, with_trace, log. cbn [trace thread_id assistant_id files].
  rewrite <- !app_assoc. reflexivity.
Qed.

Lemma play_audio_off_conversation (text voice : string) :
  emits not_conversation (play_audio env text voice).
Proof. unfold play_audio, client_is_None. repeat emits_step. Qed.

Lemma transcribe_audio_off_conversation (audio : string) :
  emits not_conversation (transcribe_audio env audio).
Proof.
  unfold transcribe_audio, client_is_None.
  repeat (emits_step
          || (intros s out s' H; injection H as _ <-; eexists; split; reflexivity)).
Qed.

Lemma get_audio_input_off_conversation :
  emits not_conversation (get_audio_input env cfg).
Proof.
  unfold get_audio_input.
  repeat (emits_step || apply transcribe_audio_off_conversation).
Qed.

Lemma interpreter_loop_off_conversation (fuel : nat) :
  emits not_conversation (interpreter_loop env cfg fuel).
Proof.
  induction fuel as [|fuel IH]; cbn [interpreter_loop].
  - apply emits_running.
  - unfold forward_command.
    repeat (emits_step || apply get_audio_input_off_conversation
            || apply play_audio_off_conversation || exact IH).
Qed.

Lemma interpreter_loop_keeps_thread (fuel : nat) :
  frame thread_id (interpreter_loop env cfg fuel).
Proof.
  induction fuel as [|fuel IH]; cbn [interpreter_loop].
  - intros s. reflexivity.
  - unfold forward_command.
    repeat (exact IH || apply (get_audio_input_keeps_thread env cfg)
            || apply (play_audio_keeps_thread env) || frame_step).
Qed.

Lemma interpreter_loop_keeps_assistant (fuel : nat) :
  frame assistant_id (interpreter_loop env cfg fuel).
Proof.
  induction fuel as [|fuel IH]; cbn [interpreter_loop].
  - intros s. reflexivity.
  - unfold forward_command.
    repeat (exact IH || apply (get_audio_input_keeps_assistant env cfg)
            || apply (play_audio_keeps_assistant env) || frame_step).
Qed.

(** X15. The command-execution session never uses the conversation:
    however long it lasts and however it ends, it performs no operation on
    assistants, threads, messages or runs, and it leaves the cached thread
    handle and the assistant handle as they were. *)
Theorem session_leaves_conversation_alone (fuel : nat) (s : State) :
  (exists evs,
      trace (snd (open_interpreter_session env cfg fuel s)) = (trace s ++ evs)%list
      /\ forallb not_conversation evs = true)
  /\ thread_id (snd (open_interpreter_session env cfg fuel s)) = thread_id s
  /\ assistant_id (snd (open_interpreter_session env cfg fuel s)) = assistant_id s.
Proof.
  split; [|split].
  - destruct (open_interpreter_session env cfg fuel s) as [out s'] eqn:E.
    revert s out s' E. change (emits not_conversation (open_interpreter_session env cfg fuel)).
    unfold open_interpreter_session.
    repeat (emits_step || apply play_audio_off_conversation
            || apply interpreter_loop_off_conversation).
  - revert s. change (frame thread_id (open_interpreter_session env cfg fuel)).
    unfold open_interpreter_session.
    repeat (apply (play_audio_keeps_thread env)
            || apply interpreter_loop_keeps_thread || frame_step).
  - revert s. change (frame assistant_id (open_interpreter_session env cfg fuel)).
    unfold open_interpreter_session.
    repeat (apply (play_audio_keeps_assistant env)
            || apply interpreter_loop_keeps_assistant || frame_step).
Qed.

Lemma get_audio_input_capture_error (s : State) (e : exn) :
  listen env (listening (trace s))
         (SPEECH_RECOGNITION_TIMEOUT cfg) (SPEECH_RECOGNITION_PHRASE_TIME_LIMIT cfg)
    = Raises e ->
  is_WaitTimeoutError e = false ->
  get_audio_input env cfg s
  = (Raise e,
     with_trace s
       (listening (trace s)
        ++ [EvListen (SPEECH_RECOGNITION_TIMEOUT cfg)
                     (SPEECH_RECOGNITION_PHRASE_TIME_LIMIT cfg)])).
Proof.
  intros R W. unfold get_audio_input, listening in *. run.
  rewrite <- app_assoc. cbn [app]. rewrite R, W.
  unfold with_trace, log. run. rewrite <- !app_assoc. reflexivity.
Qed.

(** X16. The session has no handler around the capture: when [listen]
    raises anything but a timeout (a microphone error, say), the exception
    leaves [get_audio_input] and the session with it, without any farewell
    of the session. *)
Theorem session_ends_on_capture_error (fuel : nat) (s : State) (e : exn) :
  listen env (listening (trace s))
         (SPEECH_RECOGNITION_TIMEOUT cfg) (SPEECH_RECOGNITION_PHRASE_TIME_LIMIT cfg)
    = Raises e ->
  is_WaitTimeoutError e = false ->
  get_audio_input env cfg s
  = (Raise e,
     with_trace s
       (listening (trace s)
        ++ [EvListen (SPEECH_RECOGNITION_TIMEOUT cfg)
                     (SPEECH_RECOGNITION_PHRASE_TIME_LIMIT cfg)]))
  /\ interpreter_loop env cfg (S fuel) s
     = (Raise e,
        with_trace s
          (listening (trace s)
           ++ [EvListen (SPEECH_RECOGNITION_TIMEOUT cfg)
                        (SPEECH_RECOGNITION_PHRASE_TIME_LIMIT cfg)])).
Proof.
  intros R W. split; [exact (get_audio_input_capture_error s e R W)|].
  cbn [interpreter_loop]. unfold bind at 1.
  rewrite (get_audio_input_capture_error s e R W). reflexivity.
Qed.

End Session.

(** *** The main loop *)

Section Cycle.

Variable env : Env.
Variable cfg : Config.

Lemma main_cycle_contained (fuel : nat) : contained (main_cycle env cfg fuel).
Proof.
  unfold main_cycle. apply contained_try_except2; intros e;
    (apply contained_bind; [apply contained_print | intros _]);
    (apply contained_bind; [apply play_audio_contained_rule | intros _]);
    apply contained_ret.
Qed.

Lemma main_loop_contained (fuel : nat) : contained (main_loop env cfg fuel).
Proof.
  induction fuel as [|fuel IH]; cbn [main_loop].
  - apply contained_running.
  - apply contained_bind; [apply main_cycle_contained|].
    intros [| |]; [apply contained_ret | exact IH |].
    apply contained_bind; [apply contained_print | intros _; exact IH].
Qed.

Lemma main_cycle_uncaught (fuel : nat) (s s1 : State) (e : exn) :
  get_audio_input env cfg s = (Raise e, s1) ->
  is_KeyboardInterrupt e = false ->
  is_Exception e = false ->
  main_cycle env cfg fuel s = (Raise e, s1).
Proof.
  intros G K X. unfold main_cycle, try_except2. unfold bind at 1.
  rewrite G, K, X. reflexivity.
Qed.

(** X17. No [Exception] ever leaves a cycle of the main loop, the main
    loop or [main], whatever the collaborators do and however many cycles
    are run: what these functions raise is never of class [Exception].
    That leaves two kinds: a [KeyboardInterrupt] that arrives while a
    handler's own message is being spoken, and an exception that is neither
    an [Exception] nor a [KeyboardInterrupt] (a [SystemExit], say), which
    neither clause of lines 246-252 catches: raised by the capture it leaves
    the cycle and the loop at once, with nothing printed or spoken. *)
Theorem main_never_raises_Exception (fuel : nat) (s : State) :
  (forall e s', main_cycle env cfg fuel s = (Raise e, s') -> is_Exception e = false)
  /\ (forall e s', main_loop env cfg fuel s = (Raise e, s') -> is_Exception e = false)
  /\ (forall e s', main env cfg fuel s = (Raise e, s') -> is_Exception e = false)
  /\ (forall e s1,
        get_audio_input env cfg s = (Raise e, s1) ->
        is_KeyboardInterrupt e = false ->
        is_Exception e = false ->
        main_cycle env cfg fuel s = (Raise e, s1)
        /\ main_loop env cfg (S fuel) s = (Raise e, s1)).
Proof.
  split; [intros e s'; apply main_cycle_contained|].
  split; [intros e s'; apply main_loop_contained|].
  split.
  - intros e s'. revert s e s'. change (contained (main env cfg fuel)). unfold main.
    apply contained_bind; [apply contained_print | intros _].
    apply contained_bind; [apply contained_print | intros _].
    apply contained_bind; [apply initialize_assistant_contained | intros r].
    apply contained_bind; [intros s e s' H; discriminate | intros _].
    destruct (negb (truthy r)); [apply contained_print|].
    apply contained_bind; [apply contained_print | intros _].
    apply contained_bind; [apply play_audio_contained_rule | intros _].
    apply contained_bind; [apply contained_print | intros _].
    apply main_loop_contained.
  - intros e s1 G K X.
    pose proof (main_cycle_uncaught fuel s s1 e G K X) as C.
    split; [exact C|].
    cbn [main_loop]. unfold bind at 1. rewrite C. reflexivity.
Qed.

(** X18. An [Exception] that leaves the capture (a microphone error, say)
    does not end the main loop: "An error occurred: ..." with the
    exception's text is printed and spoken, "Listening for speech..." is
    printed, and the loop goes on. *)
Theorem main_cycle_reports_error (fuel : nat) (s s1 s2 : State) (e : exn) :
  get_audio_input env cfg s = (Raise e, s1) ->
  is_Exception e = true ->
  play_audio env ("An error occurred: " ++ exn_str e
                  ++ ". I'm ready to assist with something else.") "nova"
    (log (EvPrint ("An error occurred: " ++ exn_str e
                   ++ ". Athena is ready to assist with something else.")) s1)
    = (Ret tt, s2) ->
  main_cycle env cfg fuel s = (Ret EndOfBody, s2)
  /\ main_loop env cfg (S fuel) s
     = main_loop env cfg fuel (log (EvPrint "Listening for speech...") s2).
Proof.
  intros G X Pl.
  assert (K : is_KeyboardInterrupt e = false).
  { destruct (is_KeyboardInterrupt e) eqn:K; [|reflexivity].
    rewrite (interrupt_is_not_Exception e K) in X. discriminate. }
  assert (C : main_cycle env cfg fuel s = (Ret EndOfBody, s2)).
  { unfold main_cycle, try_except2. unfold bind at 1. rewrite G, K, X.
    rewrite bind_print. unfold bind. rewrite Pl. reflexivity. }
  split; [exact C|].
  cbn [main_loop]. unfold bind at 1. rewrite C. rewrite bind_print. reflexivity.
Qed.

(** X19. An utterance that is neither an exit word nor the trigger phrase
    is a query: it is echoed after the user's name, given to
    [analyze_audio] as it was heard, and the answer is printed after
    "Athena: " and spoken; then comes the pause of 1, "Listening for
    speech..." and the next cycle. *)
Theorem main_cycle_query_turn
    (fuel : nat) (s s1 s2 s3 : State) (u answer : string) :
  get_audio_input env cfg s = (Ret (Some u), s1) ->
  mem (lower u) exit_words = false ->
  (lower u =? trigger_phrase) = false ->
  analyze_audio env cfg fuel u (log (EvPrint (USER_NAME cfg ++ ": " ++ u)) s1)
    = (Ret answer, s2) ->
  play_audio env answer "nova" (log (EvPrint ("Athena: " ++ answer)) s2) = (Ret tt, s3) ->
  main_cycle env cfg fuel s = (Ret EndOfBody, log (EvSleep 1) s3)
  /\ main_loop env cfg (S fuel) s
     = main_loop env cfg fuel
         (log (EvPrint "Listening for speech...") (log (EvSleep 1) s3)).
Proof.
  intros G X N A Pl.
  assert (C : main_cycle env cfg fuel s = (Ret EndOfBody, log (EvSleep 1) s3)).
  { unfold main_cycle.
    rewrite (try2_bind_ret _ _ _ _ _ _ _ _ _ G). cbv beta iota. rewrite X.
    rewrite try2_bind_print. unfold dispatch. rewrite N.
    rewrite try2_assoc, (try2_bind_ret _ _ _ _ _ _ _ _ _ A).
    rewrite try2_assoc, try2_bind_print.
    rewrite (try2_bind_ret _ _ _ _ _ _ _ _ _ Pl). reflexivity. }
  split; [exact C|].
  cbn [main_loop]. unfold bind at 1. rewrite C. rewrite bind_print. reflexivity.
Qed.

Lemma silences_quiet (k : nat) : forallb not_remote (silences cfg k) = true.
Proof.
  induction k as [|k IH]; [reflexivity|].
  cbn [silences]. rewrite forallb_app, IH. reflexivity.
Qed.

Lemma silent_first (tr : list event) (k : nat) :
  silent env cfg tr (S k) ->
  exists e,
    listen env (listening tr)
           (SPEECH_RECOGNITION_TIMEOUT cfg) (SPEECH_RECOGNITION_PHRASE_TIME_LIMIT cfg)
      = Raises e
    /\ is_WaitTimeoutError e = true.
Proof.
  intros H. destruct (H 0) as [e [R W]]; [lia|].
  cbn [silences] in R. rewrite app_nil_r in R. eauto.
Qed.

Lemma silent_next (tr : list event) (k : nat) :
  silent env cfg tr (S k) -> silent env cfg (tr ++ silent_cycle cfg) k.
Proof.
  intros H j Hj. destruct (H (S j)) as [e [R W]]; [lia|].
  cbn [silences] in R. rewrite app_assoc in R. eauto.
Qed.

Lemma main_loop_silent_cycle (fuel : nat) (s : State) (e : exn) :
  listen env (listening (trace s))
         (SPEECH_RECOGNITION_TIMEOUT cfg) (SPEECH_RECOGNITION_PHRASE_TIME_LIMIT cfg)
    = Raises e ->
  is_WaitTimeoutError e = true ->
  main_loop env cfg (S fuel) s
  = main_loop env cfg fuel (with_trace s (trace s ++ silent_cycle cfg)).
Proof.
  intros R W. cbn [main_loop]. unfold bind at 1.
  rewrite (main_cycle_timeout env cfg fuel s e R W). reflexivity.
Qed.

Lemma main_loop_silences (k fuel : nat) (s : State) :
  silent env cfg (trace s) k ->
  k <= fuel ->
  main_loop env cfg fuel s
  = main_loop env cfg (fuel - k) (with_trace s (trace s ++ silences cfg k)).
Proof.
  revert s fuel. induction k as [|k IH]; intros s fuel H L.
  - cbn [silences]. rewrite app_nil_r, with_trace_same, Nat.sub_0_r. reflexivity.
  - destruct fuel as [|fuel]; [lia|].
    destruct (silent_first _ _ H) as [e [R W]].
    rewrite (main_loop_silent_cycle fuel s e R W).
    rewrite (IH (with_trace s (trace s ++ silent_cycle cfg)) fuel)
      by (try (apply silent_next; exact H); lia).
    cbn [silences Nat.sub with_trace trace]. unfold with_trace.
    cbn [thread_id assistant_id files]. rewrite <- app_assoc. reflexivity.
Qed.

(** X20. Silence never ends the session and costs nothing: when the first
    [k] captures time out, the main loop goes through [k] cycles that log
    the captures and console lines only (no remote operation), leave the
    globals and the files alone, and is then at its head again; with fuel
    for no more than [k] cycles it is still running. *)
Theorem main_loop_waits_through_silence (k fuel : nat) (s : State) :
  silent env cfg (trace s) k ->
  (k <= fuel ->
   main_loop env cfg fuel s
   = main_loop env cfg (fuel - k) (with_trace s (trace s ++ silences cfg k)))
  /\ (fuel <= k ->
      main_loop env cfg fuel s
      = (Running, with_trace s (trace s ++ silences cfg fuel)))
  /\ forallb not_remote (silences cfg k) = true.
Proof.
  intros H. split; [|split].
  - apply main_loop_silences. exact H.
  - intros L. rewrite (main_loop_silences fuel fuel s); [|  | lia].
    + rewrite Nat.sub_diag. reflexivity.
    + intros j Hj. apply H. lia.
  - apply silences_quiet.
Qed.

End Cycle.

(** *** What a query touches *)

Section QueryFrame.

Variable env : Env.
Variable cfg : Config.

Lemma frame_after {X A B} (f : State -> X) (m : M A) (k : A -> M B) caught handler :
  (forall a, frame f (k a)) -> (forall e, frame f (handler e)) ->
  forall s, f (snd (try_except (bind m k) caught handler s)) = f (snd (m s)).
Proof.
  intros Hk Hh s. unfold try_except, bind.
  destruct (m s) as [[a|e|] s1]; cbn [snd].
  - specialize (Hk a s1). destruct (k a s1) as [[b|e|] s2]; cbn [snd] in *;
      try exact Hk.
    destruct (caught e); cbn [snd]; [rewrite Hh|]; exact Hk.
  - destruct (caught e); cbn [snd]; [apply Hh | reflexivity].
  - reflexivity.
Qed.

Lemma emits_after_call {T A} (P : event -> bool) (ev : event)
    (answer : list event -> reply T) (k : T -> M A) caught handler s out s' :
  (forall v, emits P (k v)) -> (forall e, emits P (handler e)) ->
  try_except (bind (call ev answer) k) caught handler s = (out, s') ->
  exists rest, trace s' = (trace s ++ ev :: rest)%list /\ forallb P rest = true.
Proof.
  intros Hk Hh. unfold try_except at 1, bind at 1, call.
  destruct (answer (trace s)) as [v|e].
  - intros H.
    assert (E : try_except (k v) caught handler (log ev s) = (out, s')) by exact H.
    destruct (emits_try_except P (k v) caught handler (Hk v) Hh _ _ _ E)
      as [rest [T0 F]].
    exists rest. split; [|exact F]. rewrite T0. cbn [log trace].
    rewrite <- app_assoc. reflexivity.
  - destruct (caught e).
    + intros H. destruct (Hh e _ _ _ H) as [rest [T0 F]].
      exists rest. split; [|exact F]. rewrite T0. cbn [log trace].
      rewrite <- app_assoc. reflexivity.
    + intros H. injection H as _ <-. exists []. split; reflexivity.
Qed.

Lemma poll_run_keeps {X} (f : State -> X) (fuel : nat) (tid rid : string) :
  (forall ev s, f (log ev s) = f s) -> frame f (poll_run env fuel tid rid).
Proof.
  intros L. induction fuel as [|fuel IH]; cbn [poll_run].
  - intros s. reflexivity.
  - apply frame_bind; [apply frame_call; intros s; apply L | intros status].
    destruct (status =? "completed"); [intros s; reflexivity|].
    destruct (mem status _); [intros s; reflexivity|].
    apply frame_bind; [intros s; apply L | intros _; exact IH].
Qed.

Lemma fetch_reply_keeps {X} (f : State -> X) (tid : string) :
  (forall ev s, f (log ev s) = f s) -> frame f (fetch_reply env cfg tid).
Proof.
  intros L. unfold fetch_reply.
  apply frame_bind; [apply frame_call; intros s; apply L | intros data].
  repeat frame_step.
Qed.

Lemma query_rest_keeps {X} (f : State -> X) (fuel : nat) (aid user_prompt : string)
    (thread : option string) :
  (forall ev s, f (log ev s) = f s) ->
  frame f
    (match as_handle thread with
     | None => ret no_thread_message
     | Some tid =>
         call (EvMessagesCreate tid "user" user_prompt)
              (fun h => messages_create env h tid "user" user_prompt) ;;;
         rid <- call (EvRunsCreate tid aid (run_instructions cfg))
                     (fun h => runs_create env h tid aid (run_instructions cfg)) ;;
         returned <- poll_run env fuel tid rid ;;
         match returned with
         | Some msg => ret msg
         | None => fetch_reply env cfg tid
         end
     end).
Proof.
  intros L. destruct (as_handle thread) as [tid|]; [|intros s; reflexivity].
  apply frame_bind; [apply frame_call; intros s; apply L | intros _].
  apply frame_bind; [apply frame_call; intros s; apply L | intros rid].
  apply frame_bind; [apply poll_run_keeps; exact L | intros [msg|]].
  - intros s. reflexivity.
  - apply fetch_reply_keeps. exact L.
Qed.

Lemma analyze_audio_except_keeps {X} (f : State -> X) (e : exn) :
  (forall ev s, f (log ev s) = f s) -> frame f (analyze_audio_except cfg e).
Proof. intros L s. unfold analyze_audio_except. rewrite bind_print. apply L. Qed.

Lemma get_or_create_thread_keeps_assistant :
  frame assistant_id (get_or_create_thread env).
Proof. unfold get_or_create_thread. repeat frame_step. Qed.

Lemma get_or_create_thread_keeps_files : frame files (get_or_create_thread env).
Proof. unfold get_or_create_thread. repeat frame_step. Qed.

(** X21. A query changes nothing but the log and, through
    [get_or_create_thread] only, the cached thread handle: after
    [analyze_audio] the assistant handle and the temporary files are as
    before, and the cached thread handle is the one that thread acquisition
    left (the one before, when the guard of line 66 stops the query). *)
Theorem analyze_audio_frame (fuel : nat) (user_prompt : string) (s : State) :
  assistant_id (snd (analyze_audio env cfg fuel user_prompt s)) = assistant_id s
  /\ files (snd (analyze_audio env cfg fuel user_prompt s)) = files s
  /\ thread_id (snd (analyze_audio env cfg fuel user_prompt s))
     = if truthy (client_api_key cfg) && truthy (assistant_id s)
       then thread_id (snd (get_or_create_thread env s))
       else thread_id s.
Proof.
  assert (E : analyze_audio env cfg fuel user_prompt s
              = match as_handle (client_api_key cfg), as_handle (assistant_id s) with
                | Some _, Some aid =>
                    try_except (analyze_audio_try env cfg fuel aid user_prompt)
                               is_Exception (analyze_audio_except cfg) s
                | _, _ => (Ret disabled_message, s)
                end).
  { unfold analyze_audio, bind, get_assistant_id.
    destruct (as_handle (client_api_key cfg));
      destruct (as_handle (assistant_id s)); reflexivity. }
  rewrite E. clear E. unfold truthy.
  destruct (as_handle (client_api_key cfg)) as [k|];
    [destruct (as_handle (assistant_id s)) as [aid|]|];
    cbn [andb]; try (repeat split; reflexivity).
  unfold analyze_audio_try. split; [|split].
  - rewrite (frame_after assistant_id).
    + apply get_or_create_thread_keeps_assistant.
    + intros thread. apply query_rest_keeps. reflexivity.
    + intros e. apply analyze_audio_except_keeps. reflexivity.
  - rewrite (frame_after files).
    + apply get_or_create_thread_keeps_files.
    + intros thread. apply query_rest_keeps. reflexivity.
    + intros e. apply analyze_audio_except_keeps. reflexivity.
  - apply (frame_after thread_id).
    + intros thread. apply query_rest_keeps. reflexivity.
    + intros e. apply analyze_audio_except_keeps. reflexivity.
Qed.

Lemma poll_run_on_thread (fuel : nat) (tid rid : string) :
  emits (on_thread tid) (poll_run env fuel tid rid).
Proof.
  induction fuel as [|fuel IH]; cbn [poll_run].
  - apply emits_running.
  - apply emits_bind; [apply emits_call; apply String.eqb_refl | intros status].
    destruct (status =? "completed"); [apply emits_ret|].
    destruct (mem status _); [apply emits_ret|].
    apply emits_bind; [apply emits_sleep; reflexivity | intros _; exact IH].
Qed.

(** X22. A query stays on one thread: once thread acquisition has
    returned the handle [tid], the next operation is the append of the
    user's message to [tid], and every later operation of the query on
    messages or runs is on [tid] too; no assistant or thread operation
    follows. *)
Theorem analyze_audio_one_thread
    (fuel : nat) (user_prompt : string) (s s1 : State) (aid tid : string) :
  truthy (client_api_key cfg) = true ->
  as_handle (assistant_id s) = Some aid ->
  get_or_create_thread env s = (Ret (Some tid), s1) ->
  nonempty tid = true ->
  exists rest,
    trace (snd (analyze_audio env cfg fuel user_prompt s))
    = (trace s1 ++ EvMessagesCreate tid "user" user_prompt :: rest)%list
    /\ forallb (on_thread tid) rest = true.
Proof.
  intros K A G U.
  rewrite (analyze_audio_acquired env cfg fuel user_prompt s s1 aid tid K A G U).
  match goal with
  | |- context [try_except ?b ?c ?h s1] =>
      destruct (try_except b c h s1) as [out s'] eqn:E
  end.
  cbn [snd].
  refine (emits_after_call (on_thread tid) _ _ _ _ _ _ _ _ _ _ E).
  - intros _.
    apply emits_bind; [apply emits_call; apply String.eqb_refl | intros rid].
    apply emits_bind; [apply poll_run_on_thread | intros [msg|]].
    + apply emits_ret.
    + unfold fetch_reply.
      apply emits_bind; [apply emits_call; apply String.eqb_refl | intros data].
      repeat emits_step.
  - intros e. unfold analyze_audio_except. repeat emits_step.
Qed.

End QueryFrame.

(** *** The further properties on scripted runs *)

(** X3 on a service that cannot create an assistant. *)
Lemma main_without_assistant_witness :
  main no_assistant config 3 initial_state
  = (Ret tt,
     log (EvPrint "Failed to initialize assistant. Exiting.")
       (with_assistant
          (snd (initialize_assistant no_assistant config (started config initial_state)))
          None))
  /\ exists evs,
       trace (snd (initialize_assistant no_assistant config
                     (started config initial_state)))
       = (trace (started config initial_state) ++ evs)%list
       /\ forallb startup_step evs = true.
Proof.
  apply (main_without_assistant no_assistant config 3 initial_state
           (snd (initialize_assistant no_assistant config
                   (started config initial_state))) None);
    vm_compute; reflexivity.
Defined.

(** X6 on the healthy service. *)
Lemma main_greets_then_listens_witness :
  assistant_id
    (log (EvPrint "Listening for speech...")
       (snd (play_audio (to_env healthy) (welcome_message config) "nova"
               (log (EvPrint ("Athena: " ++ welcome_message config))
                  (with_assistant
                     (snd (initialize_assistant (to_env healthy) config
                             (started config initial_state)))
                     (Some "asst_new"))))))
  = Some "asst_new"
  /\ contains "Aaron" (welcome_message config) = true.
Proof.
  destruct (main_greets_then_listens (to_env healthy) config 3 initial_state
              (snd (initialize_assistant (to_env healthy) config
                      (started config initial_state)))
              (snd (play_audio (to_env healthy) (welcome_message config) "nova"
                      (log (EvPrint ("Athena: " ++ welcome_message config))
                         (with_assistant
                            (snd (initialize_assistant (to_env healthy) config
                                    (started config initial_state)))
                            (Some "asst_new")))))
              (Some "asst_new") eq_refl eq_refl eq_refl) as [_ [H2 [_ H4]]].
  split; [exact H2 | exact H4].
Defined.

(** X7 on the healthy service. *)
Lemma transcribe_audio_cleans_up_witness :
  transcribe_audio (to_env healthy) "wav" ready
  = (Ret (Some "what's the weather"),
     with_trace ready
       [EvNamedTemporaryFile ".wav";
        EvTranscriptionsCreate "whisper-1" "/tmp/tmpa1b2c3.wav" "text";
        EvPrint "Time to transcribe audio: 0.50 seconds";
        EvUnlink "/tmp/tmpa1b2c3.wav"]).
Proof.
  refine (transcribe_audio_cleans_up (to_env healthy) "wav" ready
            "/tmp/tmpa1b2c3.wav" "what's the weather" eq_refl _ eq_refl).
  intros [].
Defined.

(** X9 on the healthy service. *)
Lemma get_audio_input_nonempty_witness :
  nonempty "what's the weather" = true
  /\ (exists h path text,
        transcriptions_create (to_env healthy) h "whisper-1" path "text" = Returns text
        /\ "what's the weather" = strip text)
  /\ thread_id (snd (get_audio_input (to_env healthy) config ready)) = thread_id ready
  /\ assistant_id (snd (get_audio_input (to_env healthy) config ready))
     = assistant_id ready.
Proof.
  apply (get_audio_input_nonempty (to_env healthy) config ready
           (snd (get_audio_input (to_env healthy) config ready))
           "what's the weather").
  vm_compute. reflexivity.
Defined.

(** X10 on a capture that holds white space only. *)
Lemma get_audio_input_blank_witness :
  fst (get_audio_input (to_env (says ["   "])) config ready) = Ret None.
Proof.
  exact (proj1 (proj1 (get_audio_input_blank (to_env (says ["   "])) config ready
                         "   " "/tmp/tmpa1b2c3.wav" eq_refl eq_refl)
                  "   " eq_refl eq_refl)).
Defined.

(** X11 on the utterance "Exit Interpreter". *)
Lemma session_exit_phrase_witness :
  interpreter_loop (to_env (says ["Exit Interpreter"])) config 3 ready
  = (Ret "Open Interpreter session ended.",
     snd (play_audio (to_env (says ["Exit Interpreter"]))
            "Exiting Open Interpreter mode." "onyx"
            (snd (get_audio_input (to_env (says ["Exit Interpreter"])) config ready)))).
Proof.
  refine (proj1 (session_exit_phrase (to_env (says ["Exit Interpreter"])) config 2 ready
                   (snd (get_audio_input (to_env (says ["Exit Interpreter"]))
                           config ready))
                   _ "Exit Interpreter" _ _ _));
    vm_compute; reflexivity.
Defined.

(** X12 on the command "list files". *)
Lemma session_speaks_answer_witness :
  exists rest,
    trace (snd (play_audio (to_env (says ["list files"])) "file_a file_b" "onyx"
                  (log (EvPrint "Open Interpreter: file_a file_b")
                     (log (EvInterpreterChat "list files")
                        (snd (get_audio_input (to_env (says ["list files"]))
                                config ready))))))
    = (trace (snd (get_audio_input (to_env (says ["list files"])) config ready))
       ++ EvInterpreterChat "list files"
       :: EvPrint "Open Interpreter: file_a file_b"
       :: EvSpeechCreate "tts-1" "onyx" "file_a file_b" :: rest)%list
    /\ forallb playback_step rest = true.
Proof.
  refine (proj2 (session_speaks_answer (to_env (says ["list files"])) config 2 ready
                   (snd (get_audio_input (to_env (says ["list files"])) config ready))
                   _ "list files" "file_a file_b" _ _ _ _));
    vm_compute; reflexivity.
Defined.

(** X13 on an interpreter that raises. *)
Lemma session_survives_command_failure_witness :
  interpreter_loop (to_env interpreter_down) config 3 ready
  = interpreter_loop (to_env interpreter_down) config 2
      (snd (play_audio (to_env interpreter_down)
              "Error in Open Interpreter: interpreter crashed" "onyx"
              (log (EvPrint "Error in Open Interpreter: interpreter crashed")
                 (log (EvInterpreterChat "list files")
                    (snd (get_audio_input (to_env interpreter_down) config ready)))))).
Proof.
  refine (proj1 (session_survives_command_failure (to_env interpreter_down) config 2
                   ready
                   (snd (get_audio_input (to_env interpreter_down) config ready))
                   _ "list files" (mkExn OtherException "interpreter crashed")
                   _ _ _ _ _));
    vm_compute; reflexivity.
Defined.

(** X14 with a silent user. *)
Lemma session_ignores_silence_witness :
  interpreter_loop (to_env (says [])) config 3 ready
  = interpreter_loop (to_env (says [])) config 2
      (with_trace ready (trace ready ++ silent_round config))
  /\ forallb not_remote (silent_round config) = true.
Proof.
  apply (session_ignores_silence (to_env (says [])) config 2 ready
           (mkExn WaitTimeoutError
                  "listening timed out while waiting for phrase to start"));
    reflexivity.
Defined.

(** X16 and X18 with a microphone that cannot be read. *)
Lemma session_ends_on_capture_error_witness :
  fst (interpreter_loop (to_env microphone_down) config 3 ready)
  = Raise microphone_error.
Proof.
  rewrite (proj2 (session_ends_on_capture_error (to_env microphone_down) config 2
                    ready microphone_error eq_refl eq_refl)).
  reflexivity.
Defined.

Lemma main_cycle_reports_error_witness :
  fst (main_cycle (to_env microphone_down) config 3 ready) = Ret EndOfBody.
Proof.
  rewrite (proj1 (main_cycle_reports_error (to_env microphone_down) config 3 ready
                    (snd (get_audio_input (to_env microphone_down) config ready))
                    (snd (main_cycle (to_env microphone_down) config 3 ready))
                    microphone_error eq_refl eq_refl eq_refl)).
  reflexivity.
Defined.

(** X19 on the healthy service. *)
Lemma main_cycle_query_turn_witness :
  main_cycle (to_env healthy) config 5 ready
  = (Ret EndOfBody,
     log (EvSleep 1)
       (snd (play_audio (to_env healthy) "It is sunny." "nova"
               (log (EvPrint "Athena: It is sunny.")
                  (snd (analyze_audio (to_env healthy) config 5 "what's the weather"
                          (log (EvPrint "Aaron: what's the weather")
                             (snd (get_audio_input (to_env healthy) config ready))))))))).
Proof.
  refine (proj1 (main_cycle_query_turn (to_env healthy) config 5 ready
                   (snd (get_audio_input (to_env healthy) config ready))
                   (snd (analyze_audio (to_env healthy) config 5 "what's the weather"
                           (log (EvPrint "Aaron: what's the weather")
                              (snd (get_audio_input (to_env healthy) config ready)))))
                   _ "what's the weather" "It is sunny." _ _ _ _ _));
    vm_compute; reflexivity.
Defined.

(** X20 with a silent user: two cycles out of three. *)
Lemma main_loop_waits_through_silence_witness :
  main_loop (to_env (says [])) config 3 ready
  = main_loop (to_env (says [])) config 1
      (with_trace ready (trace ready ++ silences config 2)).
Proof.
  refine (proj1 (main_loop_waits_through_silence (to_env (says [])) config 2 3 ready _)
            _).
  - intros j Hj.
    exists (mkExn WaitTimeoutError
                  "listening timed out while waiting for phrase to start").
    destruct j as [|[|j]]; [split; reflexivity | split; reflexivity | lia].
  - lia.
Defined.

(** X22 with a cached thread that the service no longer knows. *)
Lemma analyze_audio_one_thread_witness :
  exists rest,
    trace (snd (analyze_audio (to_env thread_lost) config 3 "hello" resumed))
    = (trace (snd (get_or_create_thread (to_env thread_lost) resumed))
       ++ EvMessagesCreate "thread_2" "user" "hello" :: rest)%list
    /\ forallb (on_thread "thread_2") rest = true.
Proof.
  apply (analyze_audio_one_thread (to_env thread_lost) config 3 "hello" resumed
           (snd (get_or_create_thread (to_env thread_lost) resumed))
           "asst_1" "thread_2");
    reflexivity.
Defined.

(** X23 with Ctrl-C while the program is listening. *)
Lemma main_cycle_interrupted_witness :
  fst (main_cycle (to_env interrupted) config 3 ready) = Ret Break.
Proof.
  rewrite (main_cycle_interrupted (to_env interrupted) config 3 ready
             (snd (main_cycle (to_env interrupted) config 3 ready))
             interrupt eq_refl eq_refl eq_refl).
  reflexivity.
Defined.

(** X24 on an assistant message that starts with an image. *)
Lemma reply_stage_without_text_witness :
  fst (reply_stage (to_env image_reply) config "thread_1" ready)
  = Ret (apology_message config).
Proof.
  refine (reply_stage_without_text (to_env image_reply) config "thread_1" ready
            (mkMessage "assistant" [ImageFileBlock "file_1"]) [] eq_refl eq_refl _).
  intros value blocks. discriminate.
Defined.

(** X25 on the word "quit" inside the session. *)
Lemma interpreter_loop_forwards_exit_word_witness :
  exists s2 rest,
    trace s2
    = (trace (snd (get_audio_input (to_env (says ["quit"])) config ready))
       ++ EvInterpreterChat "quit" :: rest)%list
    /\ (interpreter_loop (to_env (says ["quit"])) config 3 ready
        = interpreter_loop (to_env (says ["quit"])) config 2 s2
        \/ exists e,
             interpreter_loop (to_env (says ["quit"])) config 3 ready = (Raise e, s2)
             /\ is_Exception e = false).
Proof.
  apply (interpreter_loop_forwards_exit_word (to_env (says ["quit"])) config 2 ready
           (snd (get_audio_input (to_env (says ["quit"])) config ready)) "quit");
    vm_compute; reflexivity.
Defined.

(** X17 with a [SystemExit] raised while the program is listening: it
    leaves the loop, and nothing has been spoken. *)
Lemma main_never_raises_Exception_witness :
  main_loop (to_env exiting) config 3 ready
  = (Raise system_exit,
     with_trace ready
       [EvPrint "Listening for speech..."; EvAdjustForAmbientNoise; EvListen 10 15]).
Proof.
  exact (proj2 (proj2 (proj2 (proj2
           (main_never_raises_Exception (to_env exiting) config 2 ready)))
           system_exit
           (with_trace ready
              [EvPrint "Listening for speech..."; EvAdjustForAmbientNoise;
               EvListen 10 15])
           eq_refl eq_refl eq_refl)).
Defined.

(* ================================================================== *)
(** ** The switch to the command-execution session *)
(* ================================================================== *)

Section ModeSwitch.

Variable env : Env.
Variable cfg : Config.

Lemma try2_bind_running {A B} (m : M A) (k : A -> M B) c1 h1 c2 h2 s s' :
  m s = (Running, s') ->
  try_except2 (bind m k) c1 h1 c2 h2 s = (Running, s').
Proof. intros H. unfold try_except2, bind. rewrite H. reflexivity. Qed.

Lemma try2_bind_raise {A B} (m : M A) (k : A -> M B) c1 h1 c2 h2 s e s' :
  m s = (Raise e, s') ->
  try_except2 (bind m k) c1 h1 c2 h2 s = try_except2 (raise e) c1 h1 c2 h2 s'.
Proof. intros H. unfold try_except2, bind, raise. rewrite H. reflexivity. Qed.

Lemma emits_both {A} (P Q : event -> bool) (m : M A) :
  emits P m -> emits Q m -> emits (fun ev => P ev && Q ev) m.
Proof.
  intros HP HQ s out s' H.
  destruct (HP _ _ _ H) as [evs [T FP]]. destruct (HQ _ _ _ H) as [evs' [T' FQ]].
  rewrite T in T'. apply app_inv_head in T'. subst evs'.
  exists evs. split; [exact T|].
  rewrite forallb_forall in *. intros ev I.
  rewrite (FP ev I), (FQ ev I). reflexivity.
Qed.

Lemma after_session_steps (response : string) :
  emits session_step (after_session env response).
Proof.
  unfold after_session.
  repeat (emits_step
          || (apply emits_both;
              [apply play_audio_quiet | apply play_audio_off_conversation])).
Qed.

Lemma main_except_interrupt_steps (e : exn) :
  emits session_step (main_except_interrupt env cfg e).
Proof.
  unfold main_except_interrupt.
  repeat (emits_step
          || (apply emits_both;
              [apply play_audio_quiet | apply play_audio_off_conversation])).
Qed.

Lemma main_except_exception_steps (e : exn) :
  emits session_step (main_except_exception env cfg e).
Proof.
  unfold main_except_exception.
  repeat (emits_step
          || (apply emits_both;
              [apply play_audio_quiet | apply play_audio_off_conversation])).
Qed.

Lemma interpreter_loop_steps (fuel : nat) :
  emits session_step (interpreter_loop env cfg fuel).
Proof.
  apply emits_both;
    [apply interpreter_loop_quiet | apply interpreter_loop_off_conversation].
Qed.

(** The cycle that hears the trigger phrase, up to the head of the
    session's loop. *)
Lemma main_cycle_in_session (fuel : nat) (s s1 s2 : State) (u : string) :
  get_audio_input env cfg s = (Ret (Some u), s1) ->
  lower u = trigger_phrase ->
  play_audio env session_entry_announcement "onyx" (session_opened cfg s1 u)
    = (Ret tt, s2) ->
  main_cycle env cfg fuel s
  = try_except2
      (response <- interpreter_loop env cfg fuel ;; after_session env response)
      is_KeyboardInterrupt (main_except_interrupt env cfg)
      is_Exception (main_except_exception env cfg) s2.
Proof.
  intros G T Pl. unfold main_cycle.
  rewrite (try2_bind_ret _ _ _ _ _ _ _ _ _ G). cbv beta iota.
  rewrite (trigger_is_no_exit_word u T), try2_bind_print.
  unfold dispatch. rewrite T, String.eqb_refl.
  unfold open_interpreter_session. rewrite !try2_assoc.
  rewrite try2_bind_print. rewrite try2_assoc.
  rewrite (try2_bind_ret _ _ _ _ _ _ _ _ _ Pl). reflexivity.
Qed.

Lemma in_session_steps (fuel : nat) :
  emits session_step
    (try_except2
       (response <- interpreter_loop env cfg fuel ;; after_session env response)
       is_KeyboardInterrupt (main_except_interrupt env cfg)
       is_Exception (main_except_exception env cfg)).
Proof.
  apply emits_try_except2.
  - apply emits_bind; [apply interpreter_loop_steps | apply after_session_steps].
  - apply main_except_interrupt_steps.
  - apply main_except_exception_steps.
Qed.

Lemma entry_speech_steps (s s2 : State) out :
  play_audio env session_entry_announcement "onyx" s = (out, s2) ->
  exists rest,
    trace s2 = (trace s ++ EvSpeechCreate "tts-1" "onyx" session_entry_announcement
                        :: rest)%list
    /\ forallb session_step rest = true.
Proof.
  intros Pl.
  destruct (play_audio_trace env _ _ _ _ _ Pl) as [rest [T _]].
  destruct (emits_both _ _ _ (play_audio_quiet env session_entry_announcement "onyx")
              (play_audio_off_conversation env session_entry_announcement "onyx")
              _ _ _ Pl) as [evs [T' F]].
  rewrite T in T'. apply app_inv_head in T'. subst evs.
  exists rest. split; [exact T|].
  cbn [forallb] in F. apply andb_prop in F. exact (proj2 F).
Qed.

Lemma session_exit_first (fuel : nat) (s2 s3 s4 : State) (u2 : string) :
  get_audio_input env cfg s2 = (Ret (Some u2), s3) ->
  lower u2 = interpreter_exit_phrase ->
  play_audio env "Exiting Open Interpreter mode." "onyx" s3 = (Ret tt, s4) ->
  interpreter_loop env cfg (S fuel) s2 = (Ret "Open Interpreter session ended.", s4).
Proof.
  intros G X Pl.
  rewrite (interpreter_loop_heard env cfg fuel s2 s3 u2 G), X, String.eqb_refl.
  unfold bind. rewrite Pl. reflexivity.
Qed.

Lemma in_session_returned (fuel : nat) (s2 s3 s4 : State) (response : string) :
  interpreter_loop env cfg fuel s2 = (Ret response, s3) ->
  play_audio env response "nova" (log (EvPrint ("Athena: " ++ response)) s3)
    = (Ret tt, s4) ->
  try_except2
    (response <- interpreter_loop env cfg fuel ;; after_session env response)
    is_KeyboardInterrupt (main_except_interrupt env cfg)
    is_Exception (main_except_exception env cfg) s2
  = (Ret EndOfBody, log (EvSleep 1) s4).
Proof.
  intros L Pl. rewrite (try2_bind_ret _ _ _ _ _ _ _ _ _ L).
  unfold after_session. rewrite try2_assoc, try2_bind_print.
  rewrite (try2_bind_ret _ _ _ _ _ _ _ _ _ Pl). reflexivity.
Qed.

Lemma in_session_forwards (fuel : nat) (s2 s3 : State) (u2 : string) :
  get_audio_input env cfg s2 = (Ret (Some u2), s3) ->
  (lower u2 =? interpreter_exit_phrase) = false ->
  exists rest,
    trace (snd (try_except2
                  (response <- interpreter_loop env cfg (S fuel) ;;
                   after_session env response)
                  is_KeyboardInterrupt (main_except_interrupt env cfg)
                  is_Exception (main_except_exception env cfg) s2))
    = (trace s3 ++ EvInterpreterChat u2 :: rest)%list.
Proof.
  intros G N. cbn [interpreter_loop].
  rewrite try2_assoc, (try2_bind_ret _ _ _ _ _ _ _ _ _ G). cbv beta iota.
  rewrite N, try2_assoc.
  destruct (forward_command_outcome env u2 s3) as [s4 [rest0 [T [E|[e [E X]]]]]].
  - rewrite (try2_bind_ret _ _ _ _ _ _ _ _ _ E).
    match goal with
    | |- context [snd (?m s4)] => destruct (m s4) as [out s'] eqn:R
    end.
    destruct (in_session_steps fuel _ _ _ R) as [evs [T' _]].
    exists (rest0 ++ evs)%list. cbn [snd]. rewrite T', T, <- app_assoc. reflexivity.
  - rewrite (try2_bind_raise _ _ _ _ _ _ _ _ _ E).
    match goal with
    | |- context [snd (?m s4)] => destruct (m s4) as [out s'] eqn:R
    end.
    assert (Q : emits session_step
                  (try_except2 (raise (A:=loop_ctl) e)
                     is_KeyboardInterrupt (main_except_interrupt env cfg)
                     is_Exception (main_except_exception env cfg))).
    { apply emits_try_except2;
        [apply emits_raise | apply main_except_interrupt_steps
         | apply main_except_exception_steps]. }
    destruct (Q _ _ _ R) as [evs [T' _]].
    exists (rest0 ++ evs)%list. cbn [snd]. rewrite T', T, <- app_assoc. reflexivity.
Qed.

(** C4. An utterance that, lowered, is the trigger phrase is not an exit
    word, and the cycle that handles it enters the command-execution
    session, once.  After the capture the cycle echoes the utterance, prints
    the line that opens the session and speaks the announcement with the
    voice "onyx"; from there it runs the session's loop: while that loop
    runs the cycle runs, and when it returns the cycle prints and speaks
    what it returned, pauses for 1 and ends.  In the whole cycle, whatever
    is said in the session and however the cycle ends, the opening line is
    never logged again and the conversation (assistant, thread, messages,
    runs) is never used.  A command said in the session is forwarded to the
    interpreter; the session's exit phrase ends the session and the cycle,
    and the main loop goes on listening.  That exit phrase is none of the
    outer exit words, so an utterance that ends the session does not end
    the main loop, and an utterance that ends the main loop does not end
    the session. *)
Theorem trigger_enters_session_once (fuel : nat) (s s1 s2 : State) (u : string) :
  get_audio_input env cfg s = (Ret (Some u), s1) ->
  lower u = trigger_phrase ->
  play_audio env session_entry_announcement "onyx" (session_opened cfg s1 u)
    = (Ret tt, s2) ->
  (exists rest,
      trace (snd (main_cycle env cfg fuel s))
      = (trace s1 ++ EvPrint (USER_NAME cfg ++ ": " ++ u)
                  :: EvPrint session_start_line
                  :: EvSpeechCreate "tts-1" "onyx" session_entry_announcement
                  :: rest)%list
      /\ forallb session_step rest = true)
  /\ (forall s3,
        interpreter_loop env cfg fuel s2 = (Running, s3) ->
        main_cycle env cfg fuel s = (Running, s3))
  /\ (forall response s3 s4,
        interpreter_loop env cfg fuel s2 = (Ret response, s3) ->
        play_audio env response "nova" (log (EvPrint ("Athena: " ++ response)) s3)
          = (Ret tt, s4) ->
        main_cycle env cfg fuel s = (Ret EndOfBody, log (EvSleep 1) s4))
  /\ (forall fuel' u2 s3,
        fuel = S fuel' ->
        get_audio_input env cfg s2 = (Ret (Some u2), s3) ->
        (lower u2 =? interpreter_exit_phrase) = false ->
        exists rest,
          trace (snd (main_cycle env cfg fuel s))
          = (trace s3 ++ EvInterpreterChat u2 :: rest)%list)
  /\ (forall fuel' u2 s3 s4 s5,
        fuel = S fuel' ->
        get_audio_input env cfg s2 = (Ret (Some u2), s3) ->
        lower u2 = interpreter_exit_phrase ->
        play_audio env "Exiting Open Interpreter mode." "onyx" s3 = (Ret tt, s4) ->
        play_audio env "Open Interpreter session ended." "nova"
          (log (EvPrint "Athena: Open Interpreter session ended.") s4) = (Ret tt, s5) ->
        main_cycle env cfg fuel s = (Ret EndOfBody, log (EvSleep 1) s5)
        /\ main_loop env cfg (S fuel) s
           = main_loop env cfg fuel
               (log (EvPrint "Listening for speech...") (log (EvSleep 1) s5)))
  /\ mem (lower u) exit_words = false
  /\ mem interpreter_exit_phrase exit_words = false
  /\ (forall w, In w exit_words -> w <> interpreter_exit_phrase)
  /\ (forall v, lower v = interpreter_exit_phrase -> mem (lower v) exit_words = false)
  /\ (forall v, mem (lower v) exit_words = true ->
                (lower v =? interpreter_exit_phrase) = false).
Proof.
  intros G T Pl.
  pose proof (main_cycle_in_session fuel s s1 s2 u G T Pl) as E.
  split; [|split; [|split; [|split; [|split; [|split; [|split; [|split; [|split]]]]]]]].
  - destruct (entry_speech_steps _ _ _ Pl) as [rest0 [T0 F0]].
    rewrite E.
    match goal with
    | |- context [snd (?m s2)] => destruct (m s2) as [out s'] eqn:R
    end.
    destruct (in_session_steps fuel _ _ _ R) as [evs [T' F']].
    exists (rest0 ++ evs)%list. cbn [snd]. split.
    + rewrite T', T0. unfold session_opened. cbn [log trace].
      rewrite <- !app_assoc. reflexivity.
    + rewrite forallb_app, F0, F'. reflexivity.
  - intros s3 L. rewrite E. exact (try2_bind_running _ _ _ _ _ _ _ _ L).
  - intros response s3 s4 L Pl'. rewrite E.
    exact (in_session_returned fuel s2 s3 s4 response L Pl').
  - intros fuel' u2 s3 -> G2 N. rewrite E.
    exact (in_session_forwards fuel' s2 s3 u2 G2 N).
  - intros fuel' u2 s3 s4 s5 -> G2 X Pl1 Pl2.
    assert (C : main_cycle env cfg (S fuel') s = (Ret EndOfBody, log (EvSleep 1) s5)).
    { rewrite E.
      exact (in_session_returned (S fuel') s2 s4 s5 _
               (session_exit_first fuel' s2 s3 s4 u2 G2 X Pl1) Pl2). }
    split; [exact C|].
    cbn [main_loop]. unfold bind at 1. rewrite C. rewrite bind_print. reflexivity.
  - exact (trigger_is_no_exit_word u T).
  - reflexivity.
  - intros w [<-|[<-|[<-|[]]]]; discriminate.
  - intros v ->. reflexivity.
  - intros v X. apply mem_In in X. destruct X as [<-|[<-|[<-|[]]]]; reflexivity.
Qed.

End ModeSwitch.

(** C4 on a session that is opened and left at once: the cycle that hears
    the trigger phrase ends normally, with the opening line logged once. *)
Lemma trigger_enters_session_once_witness :
  main_cycle (to_env session_round) config 3 ready
  = (Ret EndOfBody,
     with_trace ready
       (capture_of "Start Open Interpreter"
        ++ [EvPrint "Aaron: Start Open Interpreter";
            EvPrint session_start_line;
            EvSpeechCreate "tts-1" "onyx" session_entry_announcement;
            EvPlay "mp3"]
        ++ capture_of "Exit Interpreter"
        ++ [EvSpeechCreate "tts-1" "onyx" "Exiting Open Interpreter mode.";
            EvPlay "mp3";
            EvPrint "Athena: Open Interpreter session ended.";
            EvSpeechCreate "tts-1" "nova" "Open Interpreter session ended.";
            EvPlay "mp3";
            EvSleep 1])%list).
Proof.
  refine (eq_trans
            (proj1
               (proj1 (proj2 (proj2 (proj2 (proj2
                  (trigger_enters_session_once (to_env session_round) config 3 ready
                     (with_trace ready (capture_of "Start Open Interpreter"))
                     (with_trace ready
                        (capture_of "Start Open Interpreter"
                         ++ [EvPrint "Aaron: Start Open Interpreter";
                             EvPrint session_start_line;
                             EvSpeechCreate "tts-1" "onyx" session_entry_announcement;
                             EvPlay "mp3"])%list)
                     "Start Open Interpreter" _ _ _)))))
                  2 "Exit Interpreter"
                  (snd (get_audio_input (to_env session_round) config
                          (with_trace ready
                             (capture_of "Start Open Interpreter"
                              ++ [EvPrint "Aaron: Start Open Interpreter";
                                  EvPrint session_start_line;
                                  EvSpeechCreate "tts-1" "onyx"
                                    session_entry_announcement;
                                  EvPlay "mp3"])%list)))
                  _ _ eq_refl _ _ _ _))
            _);
    vm_compute; reflexivity.
Defined.

(** X2 when the configured assistant cannot be retrieved and none can be
    created: both failures are reported and there is no handle. *)
Lemma initialize_assistant_fallback_witness :
  initialize_assistant no_assistant config_with_assistant initial_state
  = (Ret None,
     with_trace initial_state
       [EvAssistantsRetrieve "asst_1";
        EvPrint "Error retrieving assistant: Connection error.";
        EvAssistantsCreate "Athena" "You are Athena." "gpt-4" "[]";
        EvPrint "Error creating assistant: Connection error."]).
Proof.
  exact (proj1 (proj2 (proj2 (proj2 (proj2
           (initialize_assistant_fallback no_assistant config_with_assistant
              initial_state)))))
           "asst_1" api_error api_error eq_refl eq_refl eq_refl eq_refl eq_refl).
Defined.
